(** * Plant monitoring and automatic irrigation controller (ESP32 sketch)

    A shallow embedding of the two sketches kept in [plantv1_2.ino]:

    - the light-aware sketch (analog LDR, list of saved networks), embedded
      in module [LdrAnalog];
    - the earlier sketch (digital light detector, one network), embedded in
      module [LdrDigital].

    The functions [isNightHour], [updateLocalTime], [blinkLED] and
    [sendToThingSpeak] are textually the same in both sketches and are
    embedded once, in module [Sketch].

    The sketch talks to hardware and to vendored libraries (WiFi, DHT,
    HTTPClient, the SNTP client).  Every such call is modelled as an
    interaction: outputs are recorded as events, inputs are answered by an
    environment [Env] that gives, for each kind of input, the answer to its
    n-th call.  A computation is a function from the environment and the
    current [World] (the sketch's two global flags, the two output pins and
    the call counters) to a result value, a new world and the events it
    emitted.

    C [int] values are integers of [Z]: the sketches only compare them with
    constants, print them, and count up to [WIFI_MAX_ATTEMPTS].  An [int]
    that is not a constant reaches an unsigned parameter in one place, the
    argument of [delay] in [blinkLED]; the conversion to [uint32_t] is
    written out in [delay]. *)

From Stdlib Require Import ZArith List String Ascii Bool Lia DecimalString.
Import ListNotations.
Open Scope string_scope.
Open Scope Z_scope.

(** ** The excluded collaborators *)

(** [chaves.h] is not part of the sources: its constants are parameters.
    [WIFI_LIST] is given as the list of its rows, and [WIFI_TOTAL], the
    bound of the loop over it, is the number of rows. *)
Class Chaves : Type := {
  WRITE_KEY : string;
  WIFI_LIST : list (string * string);   (* {ssid, senha} rows, in order *)
  WIFI_NAME : string;
  WIFI_SENHA : string
}.

(** C [float] values are only read from the DHT driver, printed and placed
    in the request text; they are kept abstract, together with the text the
    Arduino [String] and [Print] classes produce for them. *)
Class FloatModel : Type := {
  float : Type;
  String_of_float : float -> string;   (* text appended by [String + float] *)
  Print_of_float : float -> string     (* text written by [Serial.print(float)] *)
}.

(** ** Arduino core constants *)

Definition LOW : Z := 0.
Definition HIGH : Z := 1.

Inductive PinMode := INPUT | OUTPUT | INPUT_PULLUP.

Inductive wl_status_t :=
| WL_NO_SHIELD | WL_IDLE_STATUS | WL_NO_SSID_AVAIL | WL_SCAN_COMPLETED
| WL_CONNECTED | WL_CONNECT_FAILED | WL_CONNECTION_LOST | WL_DISCONNECTED.

Definition wl_status_eqb (a b : wl_status_t) : bool :=
  match a, b with
  | WL_NO_SHIELD, WL_NO_SHIELD | WL_IDLE_STATUS, WL_IDLE_STATUS
  | WL_NO_SSID_AVAIL, WL_NO_SSID_AVAIL | WL_SCAN_COMPLETED, WL_SCAN_COMPLETED
  | WL_CONNECTED, WL_CONNECTED | WL_CONNECT_FAILED, WL_CONNECT_FAILED
  | WL_CONNECTION_LOST, WL_CONNECTION_LOST | WL_DISCONNECTED, WL_DISCONNECTED => true
  | _, _ => false
  end.

(** The fields of [struct tm] the sketch reads or prints. *)
Record tm := mk_tm { tm_hour : Z; tm_min : Z; tm_sec : Z }.

(** Decimal text of an [int], as [String::concat(int)] and [Print::print(int)]
    produce it. *)
Definition String_of_int (n : Z) : string := NilZero.string_of_int (Z.to_int n).

Definition LF : string := String (ascii_of_nat 10) EmptyString.

Definition int_of_bool (b : bool) : Z := if b then 1 else 0.

(** The value an [int] takes when it is passed where a [uint32_t] is
    expected, as in the core's [void delay(uint32_t ms)]: the
    representative modulo 2^32, so that a negative [int] wraps. *)
Definition uint32_t (x : Z) : Z := x mod 4294967296.

(** ** Worlds, environments, events and computations *)

Module Sketch.
Section Model.
Context `{FM : FloatModel} `{CH : Chaves}.

(* ---------------- CONFIGURAÇÕES DE PINOS (shared by both sketches) ------ *)
Definition SOIL_PIN : Z := 34.
Definition DHT_PIN : Z := 23.
Definition LED_PIN : Z := 26.
Definition BOIA_PIN : Z := 27.
Definition RELE_PIN : Z := 14.

(* ---------------- CONFIGURAÇÕES DE TEMPO ----------------- *)
Definition NTP_SERVER : string := "pool.ntp.org".
Definition GMT_OFFSET_SEC : Z := -3 * 3600.
Definition DAYLIGHT_OFFSET_SEC : Z := 0.

(* ---------------- LIMITES E CONSTANTES ------------------- *)
Definition SOIL_MOISTURE_THRESHOLD : Z := 1200.
Definition WIFI_MAX_ATTEMPTS : Z := 15.
Definition LED_BLINK_SHORT : Z := 200.
Definition LED_BLINK_LONG : Z := 300.
Definition PUMP_ON_TIME_MS : Z := 3000.
Definition LOOP_DELAY_MS : Z := 15000.

(* ---------------- HORÁRIOS PARA REGRAS ------------------- *)
Definition NIGHT_START_HOUR : Z := 18.
Definition NIGHT_END_HOUR : Z := 12.

Definition isNightHour (hour : Z) : bool :=
  (hour >=? NIGHT_START_HOUR) || (hour <? NIGHT_END_HOUR).

(** Entry markers.  They are not effects of the sketch: they record that a
    function was entered, and with which actual arguments, so that what is
    passed to [sendToThingSpeak] can be observed whether or not a request
    follows. *)
Inductive Call :=
| Call_sendToThingSpeak (luz solo : Z) (umidAr temp : float) (bomba agua : Z)
| Call_updateLocalTime.

Inductive Event :=
| EvSerialBegin (baud : Z)
| EvSerialPrint (s : string)
| EvSerialPrintln (s : string)
| EvSerialPrintlnTime (t : tm) (format : string)
| EvPinMode (pin : Z) (m : PinMode)
| EvDigitalWrite (pin val : Z)
| EvDigitalRead (pin val : Z)
| EvAnalogRead (pin val : Z)
| EvDelay (ms : Z)
| EvDhtBegin
| EvReadHumidity (v : float)
| EvReadTemperature (v : float)
| EvWiFiBegin (ssid senha : string)
| EvWiFiStatus (s : wl_status_t)
| EvConfigTime (gmtOffset daylightOffset : Z) (server : string)
| EvGetLocalTime (ok : bool) (t : tm)
| EvHttpBegin (url : string)
| EvHttpGET (code : Z)
| EvHttpEnd
| EvCall (c : Call).

(** What the outside answers: the n-th call of each input operation. *)
Record Env := mkEnv {
  WiFi_status_at : nat -> wl_status_t;
  analogRead_at : nat -> Z -> Z;
  digitalRead_at : nat -> Z -> Z;
  readHumidity_at : nat -> float;
  readTemperature_at : nat -> float;
  getLocalTime_at : nat -> bool * tm;   (* success, and what is left in *info *)
  http_GET_at : nat -> string -> Z
}.

(** How many times each sensor input has been asked so far. *)
Record SensorCalls := mkSensorCalls {
  n_analog : nat;
  n_digital : nat;
  n_hum : nat;
  n_temp : nat
}.

Record World := mkWorld {
  wifiConnected : bool;        (* VARIÁVEIS DE ESTADO *)
  timeValid : bool;
  rele : Z;                    (* level last written to RELE_PIN *)
  led : Z;                     (* level last written to LED_PIN *)
  n_status : nat;              (* calls of WiFi.status() so far *)
  n_time : nat;                (* calls of getLocalTime() so far *)
  n_http : nat;                (* calls of http.GET() so far *)
  sensors : SensorCalls
}.

(** State at reset, before [setup]: flags as initialized, pins low. *)
Definition boot : World :=
  mkWorld false false LOW LOW 0 0 0 (mkSensorCalls 0 0 0 0).

Record Res (A : Type) := mkRes { value : A; world : World; events : list Event }.
#[global] Arguments mkRes {A}.
#[global] Arguments value {A}.
#[global] Arguments world {A}.
#[global] Arguments events {A}.

Definition M (A : Type) : Type := Env -> World -> Res A.

Definition ret {A} (a : A) : M A := fun _ w => mkRes a w [].

Definition bind {A B} (m : M A) (k : A -> M B) : M B :=
  fun E w =>
    let r := m E w in
    let r' := k (value r) E (world r) in
    mkRes (value r') (world r') (events r ++ events r').

Definition emit (e : Event) : M unit := fun _ w => mkRes tt w [e].

(** The events a computation emits, and the world it leaves. *)
Definition events_of {A} (m : M A) (E : Env) (w : World) : list Event := events (m E w).
Definition world_of {A} (m : M A) (E : Env) (w : World) : World := world (m E w).

End Model.

Declare Scope sketch_scope.
Delimit Scope sketch_scope with sketch.
Notation "x <- m ;; k" := (bind m (fun x => k))
  (at level 61, m at next level, right associativity) : sketch_scope.
Notation "m ;; k" := (bind m (fun _ => k))
  (at level 61, right associativity) : sketch_scope.
Open Scope sketch_scope.

Section Primitives.
Context `{FM : FloatModel} `{CH : Chaves}.

(** *** The global flags *)

Definition get_wifiConnected : M bool := fun _ w => mkRes (wifiConnected w) w [].
Definition get_timeValid : M bool := fun _ w => mkRes (timeValid w) w [].

Definition flagged (b : bool) (w : World) : World :=
  mkWorld b (timeValid w) (rele w) (led w) (n_status w) (n_time w) (n_http w) (sensors w).

Definition set_wifiConnected (b : bool) : M unit := fun _ w => mkRes tt (flagged b w) [].

Definition set_timeValid (b : bool) : M unit := fun _ w =>
  mkRes tt (mkWorld (wifiConnected w) b (rele w) (led w) (n_status w) (n_time w) (n_http w)
                    (sensors w)) [].

(** *** Outputs *)

Definition Serial_begin (baud : Z) : M unit := emit (EvSerialBegin baud).
Definition Serial_print (s : string) : M unit := emit (EvSerialPrint s).
Definition Serial_println (s : string) : M unit := emit (EvSerialPrintln s).
Definition Serial_println_tm (t : tm) (format : string) : M unit :=
  emit (EvSerialPrintlnTime t format).
Definition pinMode (pin : Z) (m : PinMode) : M unit := emit (EvPinMode pin m).
(** [delay(ms)]: the event records the milliseconds waited, that is the
    argument after its conversion to the parameter type. *)
Definition delay (ms : Z) : M unit := emit (EvDelay (uint32_t ms)).
Definition dht_begin : M unit := emit EvDhtBegin.
Definition WiFi_begin (ssid senha : string) : M unit := emit (EvWiFiBegin ssid senha).
Definition configTime (gmt dst : Z) (server : string) : M unit :=
  emit (EvConfigTime gmt dst server).
Definition http_begin (url : string) : M unit := emit (EvHttpBegin url).
Definition http_end : M unit := emit EvHttpEnd.
Definition enter (c : Call) : M unit := emit (EvCall c).

(** The sketch configures two output pins; the world keeps the level last
    written to each of them.  A write to any other pin is only recorded. *)
Definition written (pin val : Z) (w : World) : World :=
  if pin =? RELE_PIN then
    mkWorld (wifiConnected w) (timeValid w) val (led w) (n_status w) (n_time w)
            (n_http w) (sensors w)
  else if pin =? LED_PIN then
    mkWorld (wifiConnected w) (timeValid w) (rele w) val (n_status w) (n_time w)
            (n_http w) (sensors w)
  else w.

Definition digitalWrite (pin val : Z) : M unit := fun _ w =>
  mkRes tt (written pin val w) [EvDigitalWrite pin val].

(** *** Inputs: each call consumes the next answer of its kind *)

Definition queried (w : World) : World :=
  mkWorld (wifiConnected w) (timeValid w) (rele w) (led w) (S (n_status w))
          (n_time w) (n_http w) (sensors w).

Definition WiFi_status : M wl_status_t := fun E w =>
  let s := WiFi_status_at E (n_status w) in
  mkRes s (queried w) [EvWiFiStatus s].

(** [getLocalTime(&timeinfo)]: the flag returned and the contents of
    [timeinfo] afterwards. *)
Definition getLocalTime : M (bool * tm) := fun E w =>
  let r := getLocalTime_at E (n_time w) in
  mkRes r (mkWorld (wifiConnected w) (timeValid w) (rele w) (led w) (n_status w)
                   (S (n_time w)) (n_http w) (sensors w))
        [EvGetLocalTime (fst r) (snd r)].

Definition http_GET (url : string) : M Z := fun E w =>
  let c := http_GET_at E (n_http w) url in
  mkRes c (mkWorld (wifiConnected w) (timeValid w) (rele w) (led w) (n_status w)
                   (n_time w) (S (n_http w)) (sensors w))
        [EvHttpGET c].

Definition asked (f : SensorCalls -> SensorCalls) (w : World) : World :=
  mkWorld (wifiConnected w) (timeValid w) (rele w) (led w) (n_status w) (n_time w)
          (n_http w) (f (sensors w)).

Definition analogRead (pin : Z) : M Z := fun E w =>
  let v := analogRead_at E (n_analog (sensors w)) pin in
  mkRes v (asked (fun c => mkSensorCalls (S (n_analog c)) (n_digital c) (n_hum c)
                                         (n_temp c)) w)
        [EvAnalogRead pin v].

Definition digitalRead (pin : Z) : M Z := fun E w =>
  let v := digitalRead_at E (n_digital (sensors w)) pin in
  mkRes v (asked (fun c => mkSensorCalls (n_analog c) (S (n_digital c)) (n_hum c)
                                         (n_temp c)) w)
        [EvDigitalRead pin v].

Definition dht_readHumidity : M float := fun E w =>
  let v := readHumidity_at E (n_hum (sensors w)) in
  mkRes v (asked (fun c => mkSensorCalls (n_analog c) (n_digital c) (S (n_hum c))
                                         (n_temp c)) w)
        [EvReadHumidity v].

Definition dht_readTemperature : M float := fun E w =>
  let v := readTemperature_at E (n_temp (sensors w)) in
  mkRes v (asked (fun c => mkSensorCalls (n_analog c) (n_digital c) (n_hum c)
                                         (S (n_temp c))) w)
        [EvReadTemperature v].

(* ==========================================================
   ATUALIZAR HORA DO SISTEMA
   ========================================================== *)
Definition updateLocalTime : M bool :=
  enter Call_updateLocalTime;;
  r <- getLocalTime;;
  if negb (fst r) then
    Serial_println "Falha ao obter hora.";;
    set_timeValid false;;
    ret false
  else
    Serial_print "Hora atual: ";;
    Serial_println_tm (snd r) "%H:%M:%S";;
    set_timeValid true;;
    ret true.

(* ==========================================================
   PISCAR LED
   ========================================================== *)
(** The [for] loop of [blinkLED], by the number of iterations left. *)
Fixpoint blinkLED_iter (left : nat) (delayTime : Z) : M unit :=
  match left with
  | O => ret tt
  | S left' =>
      digitalWrite LED_PIN HIGH;;
      delay delayTime;;
      digitalWrite LED_PIN LOW;;
      delay delayTime;;
      blinkLED_iter left' delayTime
  end.

Definition blinkLED (times delayTime : Z) : M unit :=
  blinkLED_iter (Z.to_nat times) delayTime.

(* ==========================================================
   ENVIAR DADOS AO THINGSPEAK
   ========================================================== *)
(** The initializer of the local [url]: the [+] of the Arduino [String]
    class associates to the left. *)
Definition sendToThingSpeak_url (luz solo : Z) (umidAr temp : float) (bomba agua : Z)
  : string :=
  ((((((((((((("http://api.thingspeak.com/update?api_key=" ++ WRITE_KEY) ++
    "&field1=") ++ String_of_int luz) ++
    "&field2=") ++ String_of_int solo) ++
    "&field3=") ++ String_of_float umidAr) ++
    "&field4=") ++ String_of_float temp) ++
    "&field5=") ++ String_of_int bomba) ++
    "&field6=") ++ String_of_int agua)%string.

Definition sendToThingSpeak (luz solo : Z) (umidAr temp : float) (bomba agua : Z)
  : M unit :=
  enter (Call_sendToThingSpeak luz solo umidAr temp bomba agua);;
  s <- WiFi_status;;
  if negb (wl_status_eqb s WL_CONNECTED) then
    Serial_println "Sem Wi-Fi, não enviando ao ThingSpeak."
  else
    let url := sendToThingSpeak_url luz solo umidAr temp bomba agua in
    http_begin url;;
    httpCode <- http_GET url;;
    (if httpCode >? 0 then
       Serial_println ("ThingSpeak atualizado! Código: " ++ String_of_int httpCode)
     else
       Serial_println "Erro ao enviar ao ThingSpeak.");;
    http_end.

(** The polling [while] of [connectWiFi] (the same text in both sketches):
    [while (WiFi.status() != WL_CONNECTED && attempts < WIFI_MAX_ATTEMPTS)].
    [left] is [WIFI_MAX_ATTEMPTS - attempts], the number of times the second
    conjunct can still hold; the status is asked before it in every test. *)
Fixpoint connectWiFi_while (left : nat) : M unit :=
  s <- WiFi_status;;
  if wl_status_eqb s WL_CONNECTED then ret tt
  else
    match left with
    | O => ret tt                          (* attempts = WIFI_MAX_ATTEMPTS *)
    | S left' =>
        delay 500;;
        Serial_print ".";;
        connectWiFi_while left'            (* attempts++ *)
    end.

End Primitives.
End Sketch.

(** ** The light-aware sketch (analog LDR, list of saved networks) *)

Module LdrAnalog.
Import Sketch.
Section Program.
Context `{FM : FloatModel} `{CH : Chaves}.

Definition LDR_PIN : Z := 32.
Definition LDR_DARK_THRESHOLD : Z := 1500.

(* ==========================================================
   CONECTAR AO WI-FI
   ========================================================== *)
(** The [for] loop over the rows [i .. WIFI_TOTAL-1], given as the rows
    still to be tried; running out of rows is the code after the loop. *)
Fixpoint connectWiFi_for (rows : list (string * string)) : M unit :=
  match rows with
  | [] =>
      Serial_println "Nenhuma das redes disponíveis funcionou. Continuando offline...";;
      set_wifiConnected false
  | (ssid, senha) :: rest =>
      Serial_print "Tentando conectar em: ";;
      Serial_println ssid;;
      WiFi_begin ssid senha;;
      connectWiFi_while (Z.to_nat WIFI_MAX_ATTEMPTS);;
      s <- WiFi_status;;
      if wl_status_eqb s WL_CONNECTED then
        Serial_print (LF ++ "Conectado com sucesso em ");;
        Serial_println ssid;;
        set_wifiConnected true;;
        configTime GMT_OFFSET_SEC DAYLIGHT_OFFSET_SEC NTP_SERVER;;
        delay 2000
      else
        Serial_println (LF ++ "Falha nesta rede, tentando próxima..." ++ LF);;
        connectWiFi_for rest
  end.

Definition connectWiFi : M unit :=
  Serial_println "Iniciando tentativa de conexão em redes salvas...";;
  set_wifiConnected false;;
  connectWiFi_for WIFI_LIST.

(* ==========================================================
   SETUP
   ========================================================== *)
Definition setup : M unit :=
  Serial_begin 115200;;
  pinMode RELE_PIN OUTPUT;;
  digitalWrite RELE_PIN HIGH;;
  dht_begin;;
  pinMode LDR_PIN INPUT;;
  pinMode SOIL_PIN INPUT;;
  pinMode LED_PIN OUTPUT;;
  pinMode BOIA_PIN INPUT_PULLUP;;
  Serial_println "Sistema IoT de Monitoramento de Planta iniciado!";;
  connectWiFi;;
  c <- get_wifiConnected;;
  if c then (_ <- updateLocalTime;; ret tt) else ret tt.

(* ==========================================================
   PRINTAR DADOS NO SERIAL
   ========================================================== *)
Definition printSensorData (lightValue soil : Z) (humidity temperature : float)
                           (haAgua : bool) : M unit :=
  Serial_println "-------------------------------------------------";;
  Serial_print "Luminosidade: ";;
  Serial_println (String_of_int lightValue);;
  Serial_print "Umidade do Solo: ";;
  Serial_println (String_of_int soil);;
  Serial_print "Água no reservatório: ";;
  Serial_println (if haAgua then "OK" else "BAIXA");;
  Serial_print "Umidade do Ar: ";;
  Serial_print (Print_of_float humidity);;
  Serial_println "%";;
  Serial_print "Temperatura: ";;
  Serial_print (Print_of_float temperature);;
  Serial_println "°C".

(* ==========================================================
   LÓGICA DE IRRIGAÇÃO
   ========================================================== *)
(** The local [bombaLigada] is the value of the branch taken.  The three
    calls in the argument list of [sendToThingSpeak] are unsequenced in
    C++; they draw from different inputs, so only the order of their two
    events in the trace is a choice (here: as written, left to right). *)
Definition handleWateringLogic (soil : Z) (haAgua : bool) (hour lightValue : Z)
  : M unit :=
  let drySoil := soil >? SOIL_MOISTURE_THRESHOLD in
  let isNight := isNightHour hour in
  let isDark := lightValue >? LDR_DARK_THRESHOLD in
  bombaLigada <-
    (if drySoil && isNight && negb haAgua then
       Serial_println "Encher reservatório!";;
       blinkLED 20 LED_BLINK_SHORT;;
       digitalWrite RELE_PIN HIGH;;
       ret 0
     else if drySoil && isNight && haAgua && isDark then
       Serial_println "Horário certo, baixa luminosidade — ligando a bomba!";;
       digitalWrite LED_PIN HIGH;;
       digitalWrite RELE_PIN LOW;;
       delay PUMP_ON_TIME_MS;;
       digitalWrite RELE_PIN HIGH;;
       digitalWrite LED_PIN LOW;;
       ret 1
     else if drySoil && negb isDark then
       Serial_println "Solo seco, mas luminosidade está alta — não ligar a bomba.";;
       blinkLED 5 LED_BLINK_LONG;;
       digitalWrite RELE_PIN HIGH;;
       ret 0
     else
       Serial_println "Planta em boas condições.";;
       digitalWrite RELE_PIN HIGH;;
       digitalWrite LED_PIN LOW;;
       ret 0);;
  umidAr <- dht_readHumidity;;
  temp <- dht_readTemperature;;
  sendToThingSpeak lightValue soil umidAr temp bombaLigada (int_of_bool haAgua).

(* ==========================================================
   LOOP PRINCIPAL
   ========================================================== *)
(** "Verifica conexão Wi-Fi": the first statement of [loop]. *)
Definition loop_checkWiFi : M unit :=
  s <- WiFi_status;;
  c <- get_wifiConnected;;
  if negb (wl_status_eqb s WL_CONNECTED) && c then
    Serial_println "Wi-Fi desconectado! Tentando reconectar...";;
    set_wifiConnected false;;
    connectWiFi
  else ret tt.

(** "Atualiza hora caso ainda não esteja válida": the second statement. *)
Definition loop_resync : M unit :=
  c <- get_wifiConnected;;
  v <- get_timeValid;;
  if c && negb v then (_ <- updateLocalTime;; ret tt) else ret tt.

(** The rest of [loop], from "Leitura dos sensores" to the final delay. *)
Definition loop_cycle : M unit :=
  lightValue <- analogRead LDR_PIN;;
  soilValue <- analogRead SOIL_PIN;;
  humidity <- dht_readHumidity;;
  temperature <- dht_readTemperature;;
  b <- digitalRead BOIA_PIN;;
  let haAgua := b =? LOW in
  printSensorData lightValue soilValue humidity temperature haAgua;;
  timeinfo <- getLocalTime;;
  let hour := tm_hour (snd timeinfo) in
  handleWateringLogic soilValue haAgua hour lightValue;;
  _ <- updateLocalTime;;
  delay LOOP_DELAY_MS.

Definition loop : M unit := loop_checkWiFi;; loop_resync;; loop_cycle.

End Program.
End LdrAnalog.

(** ** The earlier sketch (digital light detector, a single network) *)

Module LdrDigital.
Import Sketch.
Section Program.
Context `{FM : FloatModel} `{CH : Chaves}.

Definition LDR_PIN : Z := 17.

(* ==========================================================
   CONECTAR AO WI-FI
   ========================================================== *)
Definition connectWiFi : M unit :=
  Serial_print "Conectando ao Wi-Fi...";;
  WiFi_begin WIFI_NAME WIFI_SENHA;;
  connectWiFi_while (Z.to_nat WIFI_MAX_ATTEMPTS);;
  s <- WiFi_status;;
  if wl_status_eqb s WL_CONNECTED then
    Serial_println (LF ++ "Wi-Fi conectado!");;
    set_wifiConnected true;;
    configTime GMT_OFFSET_SEC DAYLIGHT_OFFSET_SEC NTP_SERVER;;
    delay 2000
  else
    Serial_println (LF ++ "Falha ao conectar ao Wi-Fi. Continuando offline...");;
    set_wifiConnected false.

(* ==========================================================
   SETUP
   ========================================================== *)
Definition setup : M unit :=
  Serial_begin 115200;;
  pinMode RELE_PIN OUTPUT;;
  digitalWrite RELE_PIN HIGH;;
  dht_begin;;
  pinMode LDR_PIN INPUT;;
  pinMode SOIL_PIN INPUT;;
  pinMode LED_PIN OUTPUT;;
  pinMode BOIA_PIN INPUT_PULLUP;;
  Serial_println "Sistema IoT de Monitoramento de Planta iniciado!";;
  connectWiFi;;
  c <- get_wifiConnected;;
  if c then (_ <- updateLocalTime;; ret tt) else ret tt.

(* ==========================================================
   PRINTAR DADOS NO SERIAL
   ========================================================== *)
Definition printSensorData (lightState soil : Z) (humidity temperature : float)
                           (haAgua : bool) : M unit :=
  Serial_println "-------------------------------------------------";;
  Serial_print "Luminosidade (LDR): ";;
  Serial_println (if lightState =? LOW then "Alta" else "Baixa");;
  Serial_print "Umidade do Solo: ";;
  Serial_println (String_of_int soil);;
  Serial_print "Água no reservatório: ";;
  Serial_println (if haAgua then "OK" else "BAIXA");;
  Serial_print "Umidade do Ar: ";;
  Serial_print (Print_of_float humidity);;
  Serial_println "%";;
  Serial_print "Temperatura: ";;
  Serial_print (Print_of_float temperature);;
  Serial_println "°C".

(* ==========================================================
   LÓGICA DE IRRIGAÇÃO
   ========================================================== *)
(** As in the other sketch, the reads in the argument list of
    [sendToThingSpeak] are taken left to right. *)
Definition handleWateringLogic (soil : Z) (haAgua : bool) (hour : Z) : M unit :=
  let drySoil := soil >? SOIL_MOISTURE_THRESHOLD in
  let isNight := isNightHour hour in
  bombaLigada <-
    (if drySoil && isNight && negb haAgua then
       Serial_println "Encher reservatório!";;
       blinkLED 20 LED_BLINK_SHORT;;
       digitalWrite RELE_PIN HIGH;;
       ret 0
     else if drySoil && isNight && haAgua then
       Serial_println "Horário certo, ligando a bomba!";;
       digitalWrite LED_PIN HIGH;;
       digitalWrite RELE_PIN LOW;;
       delay PUMP_ON_TIME_MS;;
       digitalWrite RELE_PIN HIGH;;
       digitalWrite LED_PIN LOW;;
       ret 1
     else if drySoil then
       Serial_println "Planta precisa de água!";;
       blinkLED 5 LED_BLINK_LONG;;
       digitalWrite RELE_PIN HIGH;;
       ret 0
     else
       Serial_println "Planta em boas condições.";;
       digitalWrite RELE_PIN HIGH;;
       digitalWrite LED_PIN LOW;;
       ret 0);;
  luz <- digitalRead LDR_PIN;;
  umidAr <- dht_readHumidity;;
  temp <- dht_readTemperature;;
  sendToThingSpeak luz soil umidAr temp bombaLigada (int_of_bool haAgua).

(* ==========================================================
   LOOP PRINCIPAL
   ========================================================== *)
(** "Verifica conexão Wi-Fi": the first statement of [loop]. *)
Definition loop_checkWiFi : M unit :=
  s <- WiFi_status;;
  c <- get_wifiConnected;;
  if negb (wl_status_eqb s WL_CONNECTED) && c then
    Serial_println "Wi-Fi desconectado! Tentando reconectar...";;
    set_wifiConnected false;;
    connectWiFi
  else ret tt.

(** "Atualiza hora caso ainda não esteja válida": the second statement. *)
Definition loop_resync : M unit :=
  c <- get_wifiConnected;;
  v <- get_timeValid;;
  if c && negb v then (_ <- updateLocalTime;; ret tt) else ret tt.

(** The rest of [loop], from "Leitura dos sensores" to the final delay. *)
Definition loop_cycle : M unit :=
  lightState <- digitalRead LDR_PIN;;
  soilValue <- analogRead SOIL_PIN;;
  humidity <- dht_readHumidity;;
  temperature <- dht_readTemperature;;
  b <- digitalRead BOIA_PIN;;
  let haAgua := b =? LOW in
  printSensorData lightState soilValue humidity temperature haAgua;;
  timeinfo <- getLocalTime;;
  let hour := tm_hour (snd timeinfo) in
  handleWateringLogic soilValue haAgua hour;;
  _ <- updateLocalTime;;
  delay LOOP_DELAY_MS.

Definition loop : M unit := loop_checkWiFi;; loop_resync;; loop_cycle.

End Program.
End LdrDigital.

(** ** Reading traces *)

Module Trace.
Import Sketch.
Section Observers.
Context `{FM : FloatModel}.

(** The hours of the day, 0 to 23. *)
Definition hours_of_day : list Z := map Z.of_nat (seq 0 24).

(** The relay is driven LOW: the pump is energized (active-low relay). *)
Definition is_relay_low (e : Event) : bool :=
  match e with
  | EvDigitalWrite pin val => (pin =? RELE_PIN) && (val =? LOW)
  | _ => false
  end.

Definition pump_energized (tr : list Event) : bool := existsb is_relay_low tr.

(** The LED is switched on at least once. *)
Definition is_led_high (e : Event) : bool :=
  match e with
  | EvDigitalWrite pin val => (pin =? LED_PIN) && (val =? HIGH)
  | _ => false
  end.

Definition led_lit (tr : list Event) : bool := existsb is_led_high tr.

(** Every time the relay is driven LOW, the next two events are the hold of
    [PUMP_ON_TIME_MS] and the relay driven HIGH again. *)
Fixpoint relay_low_only_during_hold (tr : list Event) : bool :=
  match tr with
  | [] => true
  | e :: rest =>
      if is_relay_low e then
        match rest with
        | EvDelay ms :: EvDigitalWrite pin val :: rest' =>
            (ms =? PUMP_ON_TIME_MS) && (pin =? RELE_PIN) && (val =? HIGH)
            && relay_low_only_during_hold rest'
        | _ => false
        end
      else relay_low_only_during_hold rest
  end.

(** The function entries recorded in a trace, in order. *)
Fixpoint calls (tr : list Event) : list Call :=
  match tr with
  | [] => []
  | EvCall c :: rest => c :: calls rest
  | _ :: rest => calls rest
  end.

Definition is_updateLocalTime (c : Call) : bool :=
  match c with Call_updateLocalTime => true | _ => false end.

(** How many times [updateLocalTime] was entered. *)
Definition count_updates (tr : list Event) : nat :=
  List.length (filter is_updateLocalTime (calls tr)).

(** The arguments of the entries of [sendToThingSpeak]. *)
Definition bomba_of (c : Call) : option Z :=
  match c with Call_sendToThingSpeak _ _ _ _ bomba _ => Some bomba | _ => None end.

Definition agua_of (c : Call) : option Z :=
  match c with Call_sendToThingSpeak _ _ _ _ _ agua => Some agua | _ => None end.

Definition is_sensor_read (e : Event) : bool :=
  match e with
  | EvAnalogRead _ _ | EvDigitalRead _ _ | EvReadHumidity _ | EvReadTemperature _ => true
  | _ => false
  end.

Definition no_sensor_read (tr : list Event) : bool :=
  forallb (fun e => negb (is_sensor_read e)) tr.

(** The humidity and temperature values the DHT driver returned, in order. *)
Fixpoint humidity_reads (tr : list Event) : list float :=
  match tr with
  | [] => []
  | EvReadHumidity v :: rest => v :: humidity_reads rest
  | _ :: rest => humidity_reads rest
  end.

Fixpoint temperature_reads (tr : list Event) : list float :=
  match tr with
  | [] => []
  | EvReadTemperature v :: rest => v :: temperature_reads rest
  | _ :: rest => temperature_reads rest
  end.

(** The HTTP client calls: URLs given to [http.begin], and the [GET]s. *)
Fixpoint requests (tr : list Event) : list string :=
  match tr with
  | [] => []
  | EvHttpBegin url :: rest => url :: requests rest
  | _ :: rest => requests rest
  end.

Definition is_http_GET (e : Event) : bool :=
  match e with EvHttpGET _ => true | _ => false end.

Definition count_GET (tr : list Event) : nat := List.length (filter is_http_GET tr).

(** Networks handed to [WiFi.begin], in order. *)
Fixpoint begun (tr : list Event) : list (string * string) :=
  match tr with
  | [] => []
  | EvWiFiBegin ssid senha :: rest => (ssid, senha) :: begun rest
  | _ :: rest => begun rest
  end.

Definition is_poll_delay (e : Event) : bool :=
  match e with EvDelay ms => ms =? 500 | _ => false end.

(** Poll delays up to the next [WiFi.begin]. *)
Fixpoint polls_before_next_begin (tr : list Event) : nat :=
  match tr with
  | [] => O
  | EvWiFiBegin _ _ :: _ => O
  | e :: rest =>
      ((if is_poll_delay e then 1 else 0) + polls_before_next_begin rest)%nat
  end.

(** For each network handed to [WiFi.begin], the poll delays spent on it. *)
Fixpoint polls_per_candidate (tr : list Event) : list nat :=
  match tr with
  | [] => []
  | EvWiFiBegin _ _ :: rest => polls_before_next_begin rest :: polls_per_candidate rest
  | _ :: rest => polls_per_candidate rest
  end.

Fixpoint configTimes (tr : list Event) : list (Z * Z * string) :=
  match tr with
  | [] => []
  | EvConfigTime gmt dst server :: rest => (gmt, dst, server) :: configTimes rest
  | _ :: rest => configTimes rest
  end.

(** Events of association, polling and logging: no sensor is read, no pin
    is written, no function entry is recorded. *)
Definition is_net_event (e : Event) : bool :=
  match e with
  | EvSerialPrint _ | EvSerialPrintln _ | EvWiFiBegin _ _ | EvWiFiStatus _
  | EvDelay _ | EvConfigTime _ _ _ => true
  | _ => false
  end.

Definition net_only (tr : list Event) : bool := forallb is_net_event tr.

Definition is_begin (e : Event) : bool :=
  match e with EvWiFiBegin _ _ => true | _ => false end.

Definition begin_free (tr : list Event) : bool := forallb (fun e => negb (is_begin e)) tr.

Definition count_polls (tr : list Event) : nat := List.length (filter is_poll_delay tr).

(** The last association status seen before the next [WiFi.begin], starting
    from [acc]. *)
Fixpoint last_status_before_next_begin (tr : list Event) (acc : option wl_status_t)
  : option wl_status_t :=
  match tr with
  | [] => acc
  | EvWiFiBegin _ _ :: _ => acc
  | EvWiFiStatus s :: rest => last_status_before_next_begin rest (Some s)
  | _ :: rest => last_status_before_next_begin rest acc
  end.

(** For each network handed to [WiFi.begin]: did the last status query made
    for it find the station connected? *)
Fixpoint verdicts (tr : list Event) : list bool :=
  match tr with
  | [] => []
  | EvWiFiBegin _ _ :: rest =>
      match last_status_before_next_begin rest None with
      | Some s => wl_status_eqb s WL_CONNECTED
      | None => false
      end :: verdicts rest
  | _ :: rest => verdicts rest
  end.

(** Events that stay on the board: logging, pin writes, delays and sensor
    reads. *)
Definition is_local_event (e : Event) : bool :=
  match e with
  | EvSerialPrint _ | EvSerialPrintln _ | EvDigitalWrite _ _ | EvDelay _
  | EvAnalogRead _ _ | EvDigitalRead _ _ | EvReadHumidity _ | EvReadTemperature _ => true
  | _ => false
  end.

Definition local_only (tr : list Event) : bool := forallb is_local_event tr.

(** The world in which [handleWateringLogic] calls [sendToThingSpeak]: the
    relay released, the LED off, the DHT asked once more for each value
    (and the light detector asked [dread] more times). *)
Definition before_send (dread : nat) (w : World) : World :=
  mkWorld (wifiConnected w) (timeValid w) HIGH LOW (n_status w) (n_time w) (n_http w)
    (mkSensorCalls (n_analog (sensors w)) (dread + n_digital (sensors w))
       (S (n_hum (sensors w))) (S (n_temp (sensors w)))).

(** [w'] differs from [w] at most in the flag [wifiConnected] and in the
    number of status queries made. *)
Definition assoc_frame (w w' : World) : Prop :=
  w' = mkWorld (wifiConnected w') (timeValid w) (rele w) (led w) (n_status w')
               (n_time w) (n_http w) (sensors w).

(** The events that follow a [WiFi.begin], up to the next one. *)
Fixpoint until_next_begin (tr : list Event) : list Event :=
  match tr with
  | [] => []
  | EvWiFiBegin _ _ :: _ => []
  | e :: rest => e :: until_next_begin rest
  end.

(** For each network handed to [WiFi.begin], the events that follow up to
    the next [WiFi.begin]. *)
Fixpoint candidate_frames (tr : list Event) : list (list Event) :=
  match tr with
  | [] => []
  | EvWiFiBegin _ _ :: rest => until_next_begin rest :: candidate_frames rest
  | _ :: rest => candidate_frames rest
  end.

Definition is_status_or_poll (e : Event) : bool :=
  match e with
  | EvWiFiStatus _ => true
  | EvDelay ms => ms =? 500
  | _ => false
  end.

(** Once the polling is over the status is asked one more time, and the
    network is neither asked about nor waited for after that. *)
Definition verdict_follows (fr : list Event) : bool :=
  match fr with
  | EvWiFiStatus _ :: rest => forallb (fun e => negb (is_status_or_poll e)) rest
  | _ => false
  end.

(** [fr] opens with a polling that goes on until the station is connected
    or the attempts run out: the status is asked; if it is [WL_CONNECTED]
    the polling is over; if it is not and no attempt is left, the polling is
    over; if it is not and an attempt is left, 500 ms are waited, a dot is
    printed, and the polling goes on with one attempt fewer. *)
Fixpoint polled_until_connected (left : nat) (fr : list Event) {struct left} : bool :=
  match fr with
  | EvWiFiStatus s :: rest =>
      if wl_status_eqb s WL_CONNECTED then verdict_follows rest
      else
        match left with
        | O => verdict_follows rest
        | S left' =>
            match rest with
            | EvDelay ms :: EvSerialPrint dot :: rest' =>
                (ms =? 500) && String.eqb dot "." && polled_until_connected left' rest'
            | _ => false
            end
        end
  | _ => false
  end.

(** Every network begun is polled until the station is connected or
    [WIFI_MAX_ATTEMPTS] attempts are used up. *)
Definition polling_discipline (tr : list Event) : bool :=
  forallb (polled_until_connected (Z.to_nat WIFI_MAX_ATTEMPTS)) (candidate_frames tr).

(** The order in which a run of the association algorithm over [rows]
    tries the networks, as its trace [tr] shows it, given the flag it
    leaves: no network is polled more than [WIFI_MAX_ATTEMPTS] times; with
    the flag set, the networks begun are the rows up to one that was found
    connected, every earlier one was not, time synchronization was
    configured once and the run ended there; with the flag clear, every row
    was begun in order, none was found connected and time synchronization
    was not configured. *)
Definition tried_in_order (rows : list (string * string)) (tr : list Event)
    (connected : bool) : Prop :=
  Forall (fun k => (k <= Z.to_nat WIFI_MAX_ATTEMPTS)%nat) (polls_per_candidate tr)
  /\ if connected then
       exists m pre,
         (m < List.length rows)%nat
         /\ begun tr = firstn (S m) rows
         /\ verdicts tr = (repeat false m ++ [true])%list
         /\ configTimes tr = [(GMT_OFFSET_SEC, DAYLIGHT_OFFSET_SEC, NTP_SERVER)]
         /\ tr = (pre ++ [EvConfigTime GMT_OFFSET_SEC DAYLIGHT_OFFSET_SEC NTP_SERVER;
                          EvDelay 2000])%list
     else
       begun tr = rows
       /\ verdicts tr = repeat false (List.length rows)
       /\ configTimes tr = [].

(** What a run of the association algorithm over [rows] looks like in its
    trace [tr], given the flag it leaves: the networks are tried in the
    order of [rows] up to the first one found connected, and each network
    begun is polled until the station is connected or the attempts run
    out. *)
Definition association_outcome (rows : list (string * string)) (tr : list Event)
    (connected : bool) : Prop :=
  tried_in_order rows tr connected /\ polling_discipline tr = true.

(** The entries of [sendToThingSpeak] recorded in a trace. *)
Definition sends (tr : list Event) : list Call :=
  filter (fun c => negb (is_updateLocalTime c)) (calls tr).

(** The shape of one [loop] cycle with respect to [updateLocalTime]: up to
    the first sensor read it is entered once if [due] and not at all
    otherwise; from that read on it is not entered until the end of the
    cycle, where it is entered once more, followed only by its own log and
    the cycle's delay; [timeValid_after] is what that last time read
    returned. *)
Definition resync_discipline (tr : list Event) (due timeValid_after : bool) : Prop :=
  exists before first rest ok t log,
    tr = (before ++ (first :: rest)
          ++ (EvCall Call_updateLocalTime :: EvGetLocalTime ok t :: log)
          ++ [EvDelay LOOP_DELAY_MS])%list
    /\ no_sensor_read before = true
    /\ count_updates before = (if due then 1 else 0)%nat
    /\ is_sensor_read first = true
    /\ count_updates rest = 0%nat
    /\ calls log = []
    /\ timeValid_after = ok.

(** What one [loop] cycle reads from the DHT and passes to the telemetry:
    the sensor is read twice for each value; the first reading is the one
    kept in the loop's locals and printed, the second is the one passed to
    [sendToThingSpeak], together with [luz], [solo] and [agua]. *)
Definition cycle_telemetry (tr : list Event) (h1 h2 t1 t2 : float) (luz solo agua : Z)
  : Prop :=
  humidity_reads tr = [h1; h2]
  /\ temperature_reads tr = [t1; t2]
  /\ In (EvSerialPrint (Print_of_float h1)) tr
  /\ In (EvSerialPrint (Print_of_float t1)) tr
  /\ exists b, sends tr = [Call_sendToThingSpeak luz solo h2 t2 b agua].

(** The LED pattern of [times] blinks with half-period [delayTime]. *)
Definition blink_pattern (times : nat) (delayTime : Z) : list Event :=
  List.concat (repeat [EvDigitalWrite LED_PIN HIGH; EvDelay delayTime;
                  EvDigitalWrite LED_PIN LOW; EvDelay delayTime] times).

(** The telemetry request as the interface description words it: a GET of
    [/update] on the fixed host, whose query is the key followed by the six
    fields in order. *)
Definition query_string (params : list (string * string)) : string :=
  String.concat "&" (map (fun kv => (fst kv ++ "=" ++ snd kv)%string) params).

Definition telemetry_request_spec (key : string) (light soil : Z)
    (humidity temperature : float) (pump water : Z) : string :=
  ("http://api.thingspeak.com" ++ "/update" ++ "?" ++
   query_string [("api_key", key);
                 ("field1", String_of_int light);
                 ("field2", String_of_int soil);
                 ("field3", String_of_float humidity);
                 ("field4", String_of_float temperature);
                 ("field5", String_of_int pump);
                 ("field6", String_of_int water)])%string.

End Observers.
End Trace.

(** ** Concrete collaborators, for evaluating the sketches on inputs *)

Module Fixture.
Import Sketch.

(** Sensor values in whole units, written with two zero decimals. *)
Definition whole_floats : FloatModel :=
  {| float := Z;
     String_of_float := fun z => (String_of_int z ++ ".00")%string;
     Print_of_float := fun z => (String_of_int z ++ ".00")%string |}.

Definition chaves : Chaves :=
  {| WRITE_KEY := "WRITEKEY0123";
     WIFI_LIST := [("casa", "senha-casa"); ("celular", "senha-celular")];
     WIFI_NAME := "casa";
     WIFI_SENHA := "senha-casa" |}.

(** An environment given by the answers that vary between the examples:
    the association status, the soil and light readings, the float switch
    and the hour.  The DHT gives 50 %, 25 °C at its first reading and one
    unit more at each later one; every GET is answered 200. *)
Definition env (status : nat -> wl_status_t) (soil light boia hour : Z)
  : @Env whole_floats :=
  @mkEnv whole_floats
    status
    (fun _ pin => if pin =? SOIL_PIN then soil else light)
    (fun _ pin => if pin =? BOIA_PIN then boia else light)
    (fun n => 50 + Z.of_nat n)
    (fun n => 25 + Z.of_nat n)
    (fun _ => (true, mk_tm hour 30 0))
    (fun _ _ => 200).

Definition always (s : wl_status_t) : nat -> wl_status_t := fun _ => s.

(** Association completes only at the n-th status query. *)
Definition connected_from (n : nat) : nat -> wl_status_t :=
  fun k => if (n <=? k)%nat then WL_CONNECTED else WL_DISCONNECTED.

(** The station is connected except at the n-th status query. *)
Definition dropped_at (n : nat) : nat -> wl_status_t :=
  fun k => if (k =? n)%nat then WL_DISCONNECTED else WL_CONNECTED.

(** Dry soil, dark, water in the reservoir, 20 h, station connected. *)
Definition night_online : @Env whole_floats := env (always WL_CONNECTED) 1500 2000 LOW 20.

(** The same with the digital light detector reading HIGH. *)
Definition night_online_digital : @Env whole_floats :=
  env (always WL_CONNECTED) 1500 HIGH LOW 20.

(** Nobody answers during [setup] of the earlier sketch (17 status
    queries); the station is connected from then on. *)
Definition late_join : @Env whole_floats := env (connected_from 17) 1500 HIGH LOW 20.

(** The earlier sketch: connected through [setup] (queries 0 and 1) and at
    the check that opens the cycle (query 2), not when the telemetry asks
    (query 3). *)
Definition dropout : @Env whole_floats := env (dropped_at 3) 1500 HIGH LOW 20.

(** The second saved network answers at its fourth status query. *)
Definition second_network : @Env whole_floats := env (connected_from 20) 1500 2000 LOW 20.

End Fixture.

(** ** Measuring traces, and running cycles *)

Module Measure.
Import Sketch.
Section Measures.
Context `{FM : FloatModel}.

(** Milliseconds spent in [delay]. *)
Fixpoint total_delay (tr : list Event) : Z :=
  match tr with
  | [] => 0
  | EvDelay ms :: rest => ms + total_delay rest
  | _ :: rest => total_delay rest
  end.

(** Milliseconds spent in [delay] while the relay pin is LOW, [low] telling
    whether it is LOW when the trace starts. *)
Fixpoint pump_on_ms (low : bool) (tr : list Event) : Z :=
  match tr with
  | [] => 0
  | EvDigitalWrite pin val :: rest =>
      pump_on_ms (if pin =? RELE_PIN then val =? LOW else low) rest
  | EvDelay ms :: rest => (if low then ms else 0) + pump_on_ms low rest
  | _ :: rest => pump_on_ms low rest
  end.

Definition is_status_query (e : Event) : bool :=
  match e with EvWiFiStatus _ => true | _ => false end.

(** How many times [WiFi.status()] was asked. *)
Definition status_queries (tr : list Event) : nat :=
  List.length (filter is_status_query tr).

(** The statuses [WiFi.status()] returned, in order. *)
Fixpoint statuses (tr : list Event) : list wl_status_t :=
  match tr with
  | [] => []
  | EvWiFiStatus s :: rest => s :: statuses rest
  | _ :: rest => statuses rest
  end.

Definition is_http_end (e : Event) : bool :=
  match e with EvHttpEnd => true | _ => false end.

Definition count_http_end (tr : list Event) : nat :=
  List.length (filter is_http_end tr).

(** Events that involve neither the network nor the telemetry entry:
    logging, pins, delays, sensor and time reads, and the entry of
    [updateLocalTime]. *)
Definition is_offline_event (e : Event) : bool :=
  match e with
  | EvSerialPrint _ | EvSerialPrintln _ | EvSerialPrintlnTime _ _
  | EvDigitalWrite _ _ | EvDelay _
  | EvAnalogRead _ _ | EvDigitalRead _ _ | EvReadHumidity _ | EvReadTemperature _
  | EvGetLocalTime _ _ | EvCall Call_updateLocalTime => true
  | _ => false
  end.

Definition offline_only (tr : list Event) : bool := forallb is_offline_event tr.

(** The values written to the LED pin, in order. *)
Fixpoint led_writes (tr : list Event) : list Z :=
  match tr with
  | [] => []
  | EvDigitalWrite pin val :: rest =>
      if pin =? LED_PIN then val :: led_writes rest else led_writes rest
  | _ :: rest => led_writes rest
  end.

(** Whether the relay pin is LOW when the trace ends, [low] telling whether
    it is LOW when the trace starts. *)
Fixpoint relay_low_after (low : bool) (tr : list Event) : bool :=
  match tr with
  | [] => low
  | EvDigitalWrite pin val :: rest =>
      relay_low_after (if pin =? RELE_PIN then val =? LOW else low) rest
  | _ :: rest => relay_low_after low rest
  end.

End Measures.
End Measure.

Module Runtime.
Import Sketch.
Section Cycles.
Context `{FM : FloatModel}.

(** [n] consecutive calls of a sketch's [loop], as the Arduino core makes
    them after [setup]. *)
Fixpoint cycles (loop : M unit) (n : nat) : M unit :=
  match n with
  | O => ret tt
  | S n' => loop;; cycles loop n'
  end.

End Cycles.
End Runtime.

(** * Properties *)

Import Sketch Trace.

(** The waits the sketches ask for are constants that fit in a [uint32_t]:
    their conversion leaves them as they are. *)
Lemma uint32_t_small (x : Z) : 0 <= x < 4294967296 -> uint32_t x = x.
Proof. intros Hx. unfold uint32_t. apply Z.mod_small. exact Hx. Qed.

Lemma uint32_t_range (x : Z) : 0 <= uint32_t x < 4294967296.
Proof. unfold uint32_t. apply Z.mod_pos_bound. reflexivity. Qed.

Ltac constant_waits :=
  change (uint32_t 500) with 500 in *;
  change (uint32_t 2000) with 2000 in *;
  change (uint32_t LED_BLINK_SHORT) with LED_BLINK_SHORT in *;
  change (uint32_t LED_BLINK_LONG) with LED_BLINK_LONG in *;
  change (uint32_t PUMP_ON_TIME_MS) with PUMP_ON_TIME_MS in *;
  change (uint32_t LOOP_DELAY_MS) with LOOP_DELAY_MS in *.

(** ** How computations run *)

Section Laws.
Context `{FM : FloatModel} `{CH : Chaves}.

Lemma events_bind {A B} (m : M A) (k : A -> M B) E w :
  events (bind m k E w) =
  (events (m E w) ++ events (k (value (m E w)) E (world (m E w))))%list.
Proof. reflexivity. Qed.

Lemma world_bind {A B} (m : M A) (k : A -> M B) E w :
  world (bind m k E w) = world (k (value (m E w)) E (world (m E w))).
Proof. reflexivity. Qed.

Lemma pump_energized_app (a b : list Event) :
  pump_energized (a ++ b) = pump_energized a || pump_energized b.
Proof. apply existsb_app. Qed.

Lemma led_lit_app (a b : list Event) : led_lit (a ++ b) = led_lit a || led_lit b.
Proof. apply existsb_app. Qed.

Lemma calls_app (a b : list Event) : calls (a ++ b) = (calls a ++ calls b)%list.
Proof.
  induction a as [|e a IH]; [reflexivity|].
  destruct e; cbn; rewrite IH; reflexivity.
Qed.

Lemma count_updates_app (a b : list Event) :
  count_updates (a ++ b) = (count_updates a + count_updates b)%nat.
Proof.
  unfold count_updates. rewrite calls_app, filter_app, length_app. reflexivity.
Qed.

Lemma relay_hold_app (a b : list Event) :
  pump_energized a = false ->
  relay_low_only_during_hold (a ++ b) = relay_low_only_during_hold b.
Proof.
  induction a as [|e a IH]; intros Ha; [reflexivity|].
  cbn in Ha. apply orb_false_iff in Ha as [He Ha].
  cbn [app relay_low_only_during_hold]. rewrite He. auto.
Qed.

Lemma local_only_app (a b : list Event) :
  local_only (a ++ b) = local_only a && local_only b.
Proof. apply forallb_app. Qed.

Lemma no_sensor_read_app (a b : list Event) :
  no_sensor_read (a ++ b) = no_sensor_read a && no_sensor_read b.
Proof. apply forallb_app. Qed.

Lemma requests_app (a b : list Event) :
  requests (a ++ b) = (requests a ++ requests b)%list.
Proof.
  induction a as [|e a IH]; [reflexivity|].
  destruct e; cbn; rewrite IH; reflexivity.
Qed.

Lemma count_GET_app (a b : list Event) :
  count_GET (a ++ b) = (count_GET a + count_GET b)%nat.
Proof. unfold count_GET. rewrite filter_app, length_app. reflexivity. Qed.

Lemma humidity_reads_app (a b : list Event) :
  humidity_reads (a ++ b) = (humidity_reads a ++ humidity_reads b)%list.
Proof.
  induction a as [|e a IH]; [reflexivity|].
  destruct e; cbn; rewrite IH; reflexivity.
Qed.

Lemma temperature_reads_app (a b : list Event) :
  temperature_reads (a ++ b) = (temperature_reads a ++ temperature_reads b)%list.
Proof.
  induction a as [|e a IH]; [reflexivity|].
  destruct e; cbn; rewrite IH; reflexivity.
Qed.

(** Events that stay on the board carry no function entry and no HTTP
    traffic. *)
Lemma local_only_silent (a : list Event) :
  local_only a = true ->
  calls a = [] /\ requests a = [] /\ count_GET a = 0%nat.
Proof.
  induction a as [|e a IH]; intros Ha; [repeat split|].
  cbn in Ha. apply andb_true_iff in Ha as [He Ha].
  destruct (IH Ha) as (Hc & Hr & Hg).
  destruct e; try discriminate He; cbn; auto.
Qed.

Lemma no_sensor_read_reads (a : list Event) :
  no_sensor_read a = true -> humidity_reads a = [] /\ temperature_reads a = [].
Proof.
  induction a as [|e a IH]; intros Ha; [split; reflexivity|].
  cbn in Ha. apply andb_true_iff in Ha as [He Ha].
  destruct (IH Ha) as (Hh & Ht).
  destruct e; try discriminate He; cbn; auto.
Qed.

(** *** [blinkLED] touches the LED and nothing else *)

Lemma blink_pattern_local n d : local_only (blink_pattern n d) = true.
Proof. induction n as [|n IH]; [reflexivity|]. cbn. exact IH. Qed.

Lemma blink_pattern_no_sensor n d : no_sensor_read (blink_pattern n d) = true.
Proof. induction n as [|n IH]; [reflexivity|]. cbn. exact IH. Qed.

Lemma blinkLED_iter_pump n d E w :
  pump_energized (events (blinkLED_iter n d E w)) = false.
Proof.
  revert w; induction n as [|n IH]; intros w; [reflexivity|].
  cbn [blinkLED_iter]. rewrite !events_bind, !pump_energized_app, IH. reflexivity.
Qed.

Lemma blinkLED_iter_calls n d E w : calls (events (blinkLED_iter n d E w)) = [].
Proof.
  revert w; induction n as [|n IH]; intros w; [reflexivity|].
  cbn [blinkLED_iter]. rewrite !events_bind, !calls_app, IH. reflexivity.
Qed.

Lemma blinkLED_iter_world n d E w :
  world (blinkLED_iter n d E w) =
  match n with O => w | S _ => written LED_PIN LOW w end.
Proof.
  revert w; induction n as [|n IH]; intros w; [reflexivity|].
  cbn [blinkLED_iter]. rewrite !world_bind, IH. destruct n; reflexivity.
Qed.

(** *** [sendToThingSpeak] *)

Lemma sendToThingSpeak_calls luz solo umidAr temp bomba agua E w :
  calls (events (sendToThingSpeak luz solo umidAr temp bomba agua E w)) =
  [Call_sendToThingSpeak luz solo umidAr temp bomba agua].
Proof.
  unfold sendToThingSpeak.
  rewrite !events_bind; cbn -[String.append].
  destruct (wl_status_eqb _ _); cbn -[String.append]; [|reflexivity].
  destruct (_ >? 0); reflexivity.
Qed.

Lemma sendToThingSpeak_pump luz solo umidAr temp bomba agua E w :
  pump_energized (events (sendToThingSpeak luz solo umidAr temp bomba agua E w)) = false.
Proof.
  unfold sendToThingSpeak.
  rewrite !events_bind; cbn -[String.append].
  destruct (wl_status_eqb _ _); cbn -[String.append]; [|reflexivity].
  destruct (_ >? 0); reflexivity.
Qed.

Lemma sendToThingSpeak_rele luz solo umidAr temp bomba agua E w :
  rele (world (sendToThingSpeak luz solo umidAr temp bomba agua E w)) = rele w.
Proof.
  unfold sendToThingSpeak.
  rewrite !world_bind; cbn -[String.append].
  destruct (wl_status_eqb _ _); cbn -[String.append]; [|reflexivity].
  destruct (_ >? 0); reflexivity.
Qed.

Lemma relay_hold_quiet (a : list Event) :
  pump_energized a = false -> relay_low_only_during_hold a = true.
Proof.
  intros Ha. rewrite <- (app_nil_r a). rewrite relay_hold_app by exact Ha. reflexivity.
Qed.

Lemma append_assoc (a b c : string) : ((a ++ b) ++ c = a ++ (b ++ c))%string.
Proof. induction a as [|ch a IH]; cbn; [reflexivity | rewrite IH; reflexivity]. Qed.

(** The text built by the sketch is the request of the interface
    description. *)
Lemma sendToThingSpeak_url_spec luz solo umidAr temp bomba agua :
  sendToThingSpeak_url luz solo umidAr temp bomba agua =
  telemetry_request_spec WRITE_KEY luz solo umidAr temp bomba agua.
Proof.
  unfold sendToThingSpeak_url, telemetry_request_spec, query_string.
  cbn [map String.concat fst snd].
  rewrite !append_assoc. reflexivity.
Qed.

Lemma sendToThingSpeak_events luz solo umidAr temp bomba agua E w :
  events (sendToThingSpeak luz solo umidAr temp bomba agua E w) =
  let s := WiFi_status_at E (n_status w) in
  let url := sendToThingSpeak_url luz solo umidAr temp bomba agua in
  let httpCode := http_GET_at E (n_http w) url in
  EvCall (Call_sendToThingSpeak luz solo umidAr temp bomba agua)
  :: EvWiFiStatus s
  :: (if wl_status_eqb s WL_CONNECTED then
        [EvHttpBegin url; EvHttpGET httpCode;
         EvSerialPrintln
           (if httpCode >? 0
            then ("ThingSpeak atualizado! Código: " ++ String_of_int httpCode)%string
            else "Erro ao enviar ao ThingSpeak.");
         EvHttpEnd]
      else [EvSerialPrintln "Sem Wi-Fi, não enviando ao ThingSpeak."]).
Proof.
  unfold sendToThingSpeak. cbv zeta.
  rewrite !events_bind; cbn -[String.append sendToThingSpeak_url].
  destruct (wl_status_eqb _ _); cbn -[String.append sendToThingSpeak_url]; [|reflexivity].
  destruct (_ >? 0); reflexivity.
Qed.

Lemma sendToThingSpeak_world luz solo umidAr temp bomba agua E w :
  world (sendToThingSpeak luz solo umidAr temp bomba agua E w) =
  mkWorld (wifiConnected w) (timeValid w) (rele w) (led w) (S (n_status w)) (n_time w)
          (if wl_status_eqb (WiFi_status_at E (n_status w)) WL_CONNECTED
           then S (n_http w) else n_http w)
          (sensors w).
Proof.
  unfold sendToThingSpeak.
  rewrite !world_bind; cbn -[String.append sendToThingSpeak_url].
  destruct (wl_status_eqb _ _); cbn -[String.append sendToThingSpeak_url]; [|reflexivity].
  destruct (_ >? 0); reflexivity.
Qed.

Lemma sendToThingSpeak_led luz solo umidAr temp bomba agua E w :
  led_lit (events (sendToThingSpeak luz solo umidAr temp bomba agua E w)) = false.
Proof.
  rewrite sendToThingSpeak_events. cbv zeta.
  destruct (wl_status_eqb _ _); reflexivity.
Qed.

Lemma blinkLED_iter_events n d E w :
  events (blinkLED_iter n d E w) = blink_pattern n (uint32_t d).
Proof.
  revert w; induction n as [|n IH]; intros w; [reflexivity|].
  cbn [blinkLED_iter]. rewrite !events_bind, IH. reflexivity.
Qed.

(** *** [updateLocalTime] *)

Lemma updateLocalTime_rele E w : rele (world (updateLocalTime E w)) = rele w.
Proof.
  unfold updateLocalTime. rewrite !world_bind. cbn.
  destruct (fst (getLocalTime_at E (n_time w))); reflexivity.
Qed.

End Laws.

(** ** The night window *)

(** C3.  For an hour of the day, [isNightHour] holds exactly when the hour
    is at or after 18 or before 12; the hours of the day it accepts are
    0..11 and 18..23, eighteen of the twenty-four. *)
Theorem isNightHour_window (hour : Z) :
  0 <= hour <= 23 ->
  (isNightHour hour = true <-> (hour >= 18 \/ hour < 12))
  /\ filter isNightHour hours_of_day =
     [0; 1; 2; 3; 4; 5; 6; 7; 8; 9; 10; 11; 18; 19; 20; 21; 22; 23]
  /\ List.length (filter isNightHour hours_of_day) = 18%nat.
Proof.
  intros _. split; [|split; reflexivity].
  unfold isNightHour, NIGHT_START_HOUR, NIGHT_END_HOUR.
  rewrite orb_true_iff, Z.geb_le, Z.ltb_lt. lia.
Qed.

Lemma isNightHour_window_witness :
  0 <= 20 <= 23
  /\ (isNightHour 20 = true <-> (20 >= 18 \/ 20 < 12))
  /\ (isNightHour 14 = true <-> (14 >= 18 \/ 14 < 12)).
Proof.
  split; [lia|].
  split; [apply (isNightHour_window 20) | apply (isNightHour_window 14)]; lia.
Defined.

(** ** The watering decision *)

Section Watering.
Context `{FM : FloatModel} `{CH : Chaves}.

(** Unfolds a call of [handleWateringLogic] into the branch taken, the two
    DHT reads and the call of [sendToThingSpeak]. *)
Ltac open_handle :=
  unfold events_of, world_of,
    LdrAnalog.handleWateringLogic, LdrDigital.handleWateringLogic, blinkLED;
  cbv zeta;
  change (Z.to_nat 20) with 20%nat; change (Z.to_nat 5) with 5%nat.

Ltac by_branch soil hour haAgua :=
  destruct (soil >? SOIL_MOISTURE_THRESHOLD), (isNightHour hour), haAgua;
  cbn [andb negb].

(** The whole of an invocation: the events of the branch taken, the reads
    in the argument list, then [sendToThingSpeak] run on [before_send]. *)
Lemma LdrAnalog_handle_run E w soil haAgua hour lightValue :
  let h := readHumidity_at E (n_hum (sensors w)) in
  let t := readTemperature_at E (n_temp (sensors w)) in
  let taken := (soil >? SOIL_MOISTURE_THRESHOLD) && isNightHour hour && haAgua
               && (lightValue >? LdrAnalog.LDR_DARK_THRESHOLD) in
  let send := sendToThingSpeak lightValue soil h t (int_of_bool taken) (int_of_bool haAgua)
                E (before_send 0 w) in
  exists pre,
    events (LdrAnalog.handleWateringLogic soil haAgua hour lightValue E w) =
      (pre ++ EvReadHumidity h :: EvReadTemperature t :: events send)%list
    /\ world (LdrAnalog.handleWateringLogic soil haAgua hour lightValue E w) = world send
    /\ local_only pre = true
    /\ no_sensor_read pre = true.
Proof.
  cbv zeta. open_handle.
  rewrite (@events_bind FM Z unit), (@world_bind FM Z unit).
  eexists. split; [apply f_equal2; [reflexivity|] | split; [|split]].
  - destruct (lightValue >? _); by_branch soil hour haAgua;
      cbn -[sendToThingSpeak]; reflexivity.
  - destruct (lightValue >? _); by_branch soil hour haAgua;
      cbn -[sendToThingSpeak]; reflexivity.
  - destruct (lightValue >? _); by_branch soil hour haAgua;
      rewrite ?events_bind, ?blinkLED_iter_events, ?local_only_app,
        ?blink_pattern_local; reflexivity.
  - destruct (lightValue >? _); by_branch soil hour haAgua;
      rewrite ?events_bind, ?blinkLED_iter_events, ?no_sensor_read_app,
        ?blink_pattern_no_sensor; reflexivity.
Qed.

Lemma LdrDigital_handle_run E w soil haAgua hour :
  let luz := digitalRead_at E (n_digital (sensors w)) LdrDigital.LDR_PIN in
  let h := readHumidity_at E (n_hum (sensors w)) in
  let t := readTemperature_at E (n_temp (sensors w)) in
  let taken := (soil >? SOIL_MOISTURE_THRESHOLD) && isNightHour hour && haAgua in
  let send := sendToThingSpeak luz soil h t (int_of_bool taken) (int_of_bool haAgua)
                E (before_send 1 w) in
  exists pre,
    events (LdrDigital.handleWateringLogic soil haAgua hour E w) =
      (pre ++ EvDigitalRead LdrDigital.LDR_PIN luz
           :: EvReadHumidity h :: EvReadTemperature t :: events send)%list
    /\ world (LdrDigital.handleWateringLogic soil haAgua hour E w) = world send
    /\ local_only pre = true
    /\ no_sensor_read pre = true.
Proof.
  cbv zeta. open_handle.
  rewrite (@events_bind FM Z unit), (@world_bind FM Z unit).
  eexists. split; [apply f_equal2; [reflexivity|] | split; [|split]].
  - by_branch soil hour haAgua; cbn -[sendToThingSpeak]; reflexivity.
  - by_branch soil hour haAgua; cbn -[sendToThingSpeak]; reflexivity.
  - by_branch soil hour haAgua;
      rewrite ?events_bind, ?blinkLED_iter_events, ?local_only_app,
        ?blink_pattern_local; reflexivity.
  - by_branch soil hour haAgua;
      rewrite ?events_bind, ?blinkLED_iter_events, ?no_sensor_read_app,
        ?blink_pattern_no_sensor; reflexivity.
Qed.

Lemma dry_false soil :
  soil <= SOIL_MOISTURE_THRESHOLD -> (soil >? SOIL_MOISTURE_THRESHOLD) = false.
Proof. intros H. rewrite Z.gtb_ltb. apply Z.ltb_ge. exact H. Qed.

(** C1.  With the soil reading at or below the threshold the relay pin is
    never driven LOW by the decision engine, whatever the hour, the water
    flag and the light level, in both sketches. *)
Theorem wet_soil_never_energizes_pump E w soil haAgua hour lightValue :
  soil <= SOIL_MOISTURE_THRESHOLD ->
  pump_energized
    (events_of (LdrAnalog.handleWateringLogic soil haAgua hour lightValue) E w) = false
  /\ pump_energized
       (events_of (LdrDigital.handleWateringLogic soil haAgua hour) E w) = false.
Proof.
  intros Hwet. apply dry_false in Hwet.
  split; open_handle; rewrite Hwet; cbn [andb];
    rewrite !events_bind, !pump_energized_app, sendToThingSpeak_pump;
    reflexivity.
Qed.

Lemma LdrAnalog_handle_pump E w soil haAgua hour lightValue :
  pump_energized (events (LdrAnalog.handleWateringLogic soil haAgua hour lightValue E w))
  = (soil >? SOIL_MOISTURE_THRESHOLD) && isNightHour hour && haAgua
    && (lightValue >? LdrAnalog.LDR_DARK_THRESHOLD).
Proof.
  open_handle.
  destruct (lightValue >? _); by_branch soil hour haAgua;
    rewrite !events_bind, !pump_energized_app, ?blinkLED_iter_pump,
      sendToThingSpeak_pump; reflexivity.
Qed.

Lemma LdrDigital_handle_pump E w soil haAgua hour :
  pump_energized (events (LdrDigital.handleWateringLogic soil haAgua hour E w))
  = (soil >? SOIL_MOISTURE_THRESHOLD) && isNightHour hour && haAgua.
Proof.
  open_handle.
  by_branch soil hour haAgua;
    rewrite !events_bind, !pump_energized_app, ?blinkLED_iter_pump,
      sendToThingSpeak_pump; reflexivity.
Qed.

(** C4.  The value passed to [sendToThingSpeak] as [bomba] (field5) is 1
    when the pump-energizing branch is taken (dry soil, night hour, water
    present and, in the light-aware sketch, dark) and 0 in every other
    branch; that branch is the one, and the only one, that drives the relay
    LOW. *)
Theorem pump_flag_reports_energizing_branch E w soil haAgua hour lightValue :
  let trA := events_of (LdrAnalog.handleWateringLogic soil haAgua hour lightValue) E w in
  let trD := events_of (LdrDigital.handleWateringLogic soil haAgua hour) E w in
  let takenA := (soil >? SOIL_MOISTURE_THRESHOLD) && isNightHour hour && haAgua
                && (lightValue >? LdrAnalog.LDR_DARK_THRESHOLD) in
  let takenD := (soil >? SOIL_MOISTURE_THRESHOLD) && isNightHour hour && haAgua in
  map bomba_of (calls trA) = [Some (if takenA then 1 else 0)]
  /\ pump_energized trA = takenA
  /\ map bomba_of (calls trD) = [Some (if takenD then 1 else 0)]
  /\ pump_energized trD = takenD.
Proof.
  cbv zeta. repeat split.
  - open_handle.
    destruct (lightValue >? _); by_branch soil hour haAgua;
      rewrite !events_bind, !calls_app, ?blinkLED_iter_calls, sendToThingSpeak_calls;
      reflexivity.
  - apply LdrAnalog_handle_pump.
  - open_handle.
    by_branch soil hour haAgua;
      rewrite !events_bind, !calls_app, ?blinkLED_iter_calls, sendToThingSpeak_calls;
      reflexivity.
  - apply LdrDigital_handle_pump.
Qed.

Lemma LdrAnalog_handle_releases_relay E w soil haAgua hour lightValue :
  rele (world (LdrAnalog.handleWateringLogic soil haAgua hour lightValue E w))
  = HIGH.
Proof.
  open_handle. rewrite !world_bind, sendToThingSpeak_rele.
  destruct (lightValue >? _); by_branch soil hour haAgua; cbn; reflexivity.
Qed.

Lemma LdrDigital_handle_releases_relay E w soil haAgua hour :
  rele (world (LdrDigital.handleWateringLogic soil haAgua hour E w)) = HIGH.
Proof.
  open_handle. rewrite !world_bind, sendToThingSpeak_rele.
  by_branch soil hour haAgua; cbn; reflexivity.
Qed.

(** In the energizing branch the events up to the DHT reads are written
    out; what follows never touches the relay. *)
Ltac hold_in_pump_branch :=
  open_handle; cbn [andb negb];
  rewrite !events_bind; cbn -[sendToThingSpeak];
  apply relay_hold_quiet, sendToThingSpeak_pump.

Lemma LdrAnalog_handle_hold E w soil haAgua hour lightValue :
  relay_low_only_during_hold
    (events (LdrAnalog.handleWateringLogic soil haAgua hour lightValue E w)) = true.
Proof.
  destruct ((soil >? SOIL_MOISTURE_THRESHOLD) && isNightHour hour && haAgua
            && (lightValue >? LdrAnalog.LDR_DARK_THRESHOLD)) eqn:Htaken.
  - rewrite !andb_true_iff in Htaken. destruct Htaken as [[[Hd Hn] Ha] Hl].
    subst haAgua. open_handle. rewrite Hd, Hn, Hl. hold_in_pump_branch.
  - apply relay_hold_quiet. rewrite LdrAnalog_handle_pump. exact Htaken.
Qed.

Lemma LdrDigital_handle_hold E w soil haAgua hour :
  relay_low_only_during_hold
    (events (LdrDigital.handleWateringLogic soil haAgua hour E w)) = true.
Proof.
  destruct ((soil >? SOIL_MOISTURE_THRESHOLD) && isNightHour hour && haAgua) eqn:Htaken.
  - rewrite !andb_true_iff in Htaken. destruct Htaken as [[Hd Hn] Ha].
    subst haAgua. open_handle. rewrite Hd, Hn. hold_in_pump_branch.
  - apply relay_hold_quiet. rewrite LdrDigital_handle_pump. exact Htaken.
Qed.

(** The earlier sketch warns on every dry reading it does not serve. *)
Lemma LdrDigital_dry_unserved_warns E w soil haAgua hour :
  soil > SOIL_MOISTURE_THRESHOLD ->
  isNightHour hour = false ->
  exists rest,
    events (LdrDigital.handleWateringLogic soil haAgua hour E w) =
    EvSerialPrintln "Planta precisa de água!"
    :: (blink_pattern 5 LED_BLINK_LONG ++ EvDigitalWrite RELE_PIN HIGH :: rest)%list.
Proof.
  intros Hdry Hday. apply Z.gt_lt, Z.gtb_lt in Hdry.
  open_handle. rewrite Hdry, Hday. cbn [andb negb].
  rewrite !events_bind, blinkLED_iter_events.
  eexists. cbn -[sendToThingSpeak blink_pattern]. rewrite <- app_assoc. reflexivity.
Qed.

(** The light-aware sketch warns on a dry reading it does not serve when
    the light reading is at or below the darkness threshold. *)
Lemma LdrAnalog_dry_bright_warns E w soil haAgua hour lightValue :
  soil > SOIL_MOISTURE_THRESHOLD ->
  lightValue <= LdrAnalog.LDR_DARK_THRESHOLD ->
  isNightHour hour && negb haAgua = false ->
  exists rest,
    events (LdrAnalog.handleWateringLogic soil haAgua hour lightValue E w) =
    EvSerialPrintln "Solo seco, mas luminosidade está alta — não ligar a bomba."
    :: (blink_pattern 5 LED_BLINK_LONG ++ EvDigitalWrite RELE_PIN HIGH :: rest)%list.
Proof.
  intros Hdry Hbright Hb1. apply Z.gt_lt, Z.gtb_lt in Hdry.
  assert (Hl : (lightValue >? LdrAnalog.LDR_DARK_THRESHOLD) = false)
    by (rewrite Z.gtb_ltb; apply Z.ltb_ge; exact Hbright).
  open_handle. rewrite Hdry, Hl. cbn [andb negb]. rewrite Hb1, andb_false_r.
  rewrite !events_bind, blinkLED_iter_events.
  eexists. cbn -[sendToThingSpeak blink_pattern]. rewrite <- app_assoc. reflexivity.
Qed.

(** C2, on the code.  In the light-aware sketch a dry reading (1500) at a
    daytime hour (14) with the light reading above the darkness threshold
    (2000) is served by neither of the first two branches, and the third is
    guarded by "not dark": the final branch runs.  The log says the plant
    is in good condition, the LED is never switched on, the relay stays
    released. *)
Theorem dry_dark_daytime_gets_no_warning E w haAgua :
  let tr := events_of (LdrAnalog.handleWateringLogic 1500 haAgua 14 2000) E w in
  led_lit tr = false
  /\ pump_energized tr = false
  /\ exists rest,
       tr = EvSerialPrintln "Planta em boas condições."
            :: EvDigitalWrite RELE_PIN HIGH
            :: EvDigitalWrite LED_PIN LOW :: rest.
Proof.
  cbv zeta. unfold events_of. split; [|split].
  - open_handle. destruct haAgua; cbn [andb negb Z.gtb Z.compare Pos.compare
      Pos.compare_cont isNightHour]; rewrite !events_bind, !led_lit_app,
      sendToThingSpeak_led; reflexivity.
  - rewrite LdrAnalog_handle_pump. reflexivity.
  - open_handle. destruct haAgua; cbn [andb negb];
      rewrite !events_bind; eexists; cbn -[sendToThingSpeak]; reflexivity.
Qed.

End Watering.

(** ** Telemetry *)

Section Telemetry.
Context `{FM : FloatModel} `{CH : Chaves}.

(** C5, as the code has it.  [sendToThingSpeak] asks the station for its
    association status and goes by the answer: when the answer is
    [WL_CONNECTED] one request is built and one GET issued; otherwise it
    logs and returns, with nothing built and nothing kept for later.  The
    flag [wifiConnected] is neither read nor written. *)
Theorem upload_follows_live_status E w luz solo umidAr temp bomba agua :
  let s := WiFi_status_at E (n_status w) in
  let r := sendToThingSpeak luz solo umidAr temp bomba agua E w in
  (if wl_status_eqb s WL_CONNECTED then
     requests (events r) = [sendToThingSpeak_url luz solo umidAr temp bomba agua]
     /\ count_GET (events r) = 1%nat
   else
     events r = [EvCall (Call_sendToThingSpeak luz solo umidAr temp bomba agua);
                 EvWiFiStatus s;
                 EvSerialPrintln "Sem Wi-Fi, não enviando ao ThingSpeak."]
     /\ world r = mkWorld (wifiConnected w) (timeValid w) (rele w) (led w)
                          (S (n_status w)) (n_time w) (n_http w) (sensors w))
  /\ wifiConnected (world r) = wifiConnected w.
Proof.
  cbv zeta. rewrite sendToThingSpeak_events, sendToThingSpeak_world. cbv zeta.
  destruct (wl_status_eqb _ _); repeat split.
Qed.

(** C6.  When the station is connected as [sendToThingSpeak] asks, exactly
    one request is built and one GET issued, and its text is the request of
    the interface description: [/update] on the fixed host with the key,
    then field1 to field6 carrying light, soil, humidity, temperature, pump
    and water, in that order.  Called from [handleWateringLogic], in either
    sketch, field5 and field6 are 0 or 1. *)
Theorem telemetry_request_layout E w luz solo umidAr temp bomba agua
    soil haAgua hour lightValue :
  WiFi_status_at E (n_status w) = WL_CONNECTED ->
  let trS := events_of (sendToThingSpeak luz solo umidAr temp bomba agua) E w in
  let trA := events_of (LdrAnalog.handleWateringLogic soil haAgua hour lightValue) E w in
  let trD := events_of (LdrDigital.handleWateringLogic soil haAgua hour) E w in
  let h := readHumidity_at E (n_hum (sensors w)) in
  let t := readTemperature_at E (n_temp (sensors w)) in
  let takenA := (soil >? SOIL_MOISTURE_THRESHOLD) && isNightHour hour && haAgua
                && (lightValue >? LdrAnalog.LDR_DARK_THRESHOLD) in
  let takenD := (soil >? SOIL_MOISTURE_THRESHOLD) && isNightHour hour && haAgua in
  (requests trS = [telemetry_request_spec WRITE_KEY luz solo umidAr temp bomba agua]
   /\ count_GET trS = 1%nat)
  /\ (requests trA = [telemetry_request_spec WRITE_KEY lightValue soil h t
                        (int_of_bool takenA) (int_of_bool haAgua)]
      /\ count_GET trA = 1%nat)
  /\ (requests trD = [telemetry_request_spec WRITE_KEY
                        (digitalRead_at E (n_digital (sensors w)) LdrDigital.LDR_PIN)
                        soil h t (int_of_bool takenD) (int_of_bool haAgua)]
      /\ count_GET trD = 1%nat).
Proof.
  intros Hconn. cbv zeta. unfold events_of.
  assert (Hsend : forall luz solo umidAr temp bomba agua w',
             n_status w' = n_status w ->
             requests (events (sendToThingSpeak luz solo umidAr temp bomba agua E w'))
             = [telemetry_request_spec WRITE_KEY luz solo umidAr temp bomba agua]
             /\ count_GET (events (sendToThingSpeak luz solo umidAr temp bomba agua E w'))
                = 1%nat).
  { intros luz' solo' u' t' b' a' w' Hw'.
    rewrite sendToThingSpeak_events. cbv zeta. rewrite Hw', Hconn.
    rewrite sendToThingSpeak_url_spec. split; reflexivity. }
  split; [apply Hsend; reflexivity|]. split.
  - destruct (LdrAnalog_handle_run E w soil haAgua hour lightValue)
      as (pre & Hev & _ & Hloc & _).
    cbv zeta in Hev. rewrite Hev.
    destruct (local_only_silent pre Hloc) as (_ & Hr & Hg).
    rewrite requests_app, count_GET_app, Hr, Hg. cbn [requests app Nat.add].
    apply Hsend. reflexivity.
  - destruct (LdrDigital_handle_run E w soil haAgua hour) as (pre & Hev & _ & Hloc & _).
    cbv zeta in Hev. rewrite Hev.
    destruct (local_only_silent pre Hloc) as (_ & Hr & Hg).
    rewrite requests_app, count_GET_app, Hr, Hg. cbn [requests app Nat.add].
    apply Hsend. reflexivity.
Qed.

End Telemetry.

(** ** Association *)

Section Association.
Context `{FM : FloatModel} `{CH : Chaves}.

Lemma begun_app (a b : list Event) : begun (a ++ b) = (begun a ++ begun b)%list.
Proof.
  induction a as [|e a IH]; [reflexivity|].
  destruct e; cbn; rewrite IH; reflexivity.
Qed.

Lemma configTimes_app (a b : list Event) :
  configTimes (a ++ b) = (configTimes a ++ configTimes b)%list.
Proof.
  induction a as [|e a IH]; [reflexivity|].
  destruct e; cbn; rewrite IH; reflexivity.
Qed.

Lemma begin_free_app (a b : list Event) :
  begin_free (a ++ b) = begin_free a && begin_free b.
Proof. apply forallb_app. Qed.

Lemma net_only_app (a b : list Event) : net_only (a ++ b) = net_only a && net_only b.
Proof. apply forallb_app. Qed.

(** Past a stretch without [WiFi.begin]. *)
Lemma begin_free_skip (a b : list Event) :
  begin_free a = true ->
  begun (a ++ b) = begun b
  /\ polls_per_candidate (a ++ b) = polls_per_candidate b
  /\ verdicts (a ++ b) = verdicts b
  /\ polls_before_next_begin (a ++ b) = (count_polls a + polls_before_next_begin b)%nat
  /\ forall acc, last_status_before_next_begin (a ++ b) acc =
                 last_status_before_next_begin b (last_status_before_next_begin a acc).
Proof.
  induction a as [|e a IH]; intros Ha.
  - repeat split.
  - cbn in Ha. apply andb_true_iff in Ha as [He Ha].
    destruct (IH Ha) as (H1 & H2 & H3 & H4 & H5).
    destruct e; try discriminate He; cbn; repeat split; auto.
    unfold count_polls. cbn. destruct (ms =? 500); cbn; rewrite H4; reflexivity.
Qed.

Lemma assoc_frame_refl w : assoc_frame w w.
Proof. destruct w; reflexivity. Qed.

Lemma assoc_frame_trans w1 w2 w3 :
  assoc_frame w1 w2 -> assoc_frame w2 w3 -> assoc_frame w1 w3.
Proof.
  unfold assoc_frame. intros H12 H23. rewrite H23. rewrite H12. reflexivity.
Qed.

(** *** The polling loop *)

Lemma connectWiFi_while_O E w :
  connectWiFi_while 0 E w
  = mkRes tt (queried w) [EvWiFiStatus (WiFi_status_at E (n_status w))].
Proof.
  cbn [connectWiFi_while]. unfold bind. cbn.
  destruct (wl_status_eqb _ _); reflexivity.
Qed.

Lemma connectWiFi_while_S n E w :
  let s := WiFi_status_at E (n_status w) in
  events (connectWiFi_while (S n) E w)
  = EvWiFiStatus s
    :: (if wl_status_eqb s WL_CONNECTED then []
        else EvDelay 500 :: EvSerialPrint "." :: events (connectWiFi_while n E (queried w)))
  /\ world (connectWiFi_while (S n) E w)
    = (if wl_status_eqb s WL_CONNECTED then queried w
       else world (connectWiFi_while n E (queried w))).
Proof.
  cbv zeta. cbn [connectWiFi_while]. rewrite events_bind, world_bind.
  cbn [WiFi_status events value world].
  destruct (wl_status_eqb _ _); split; reflexivity.
Qed.

Lemma connectWiFi_while_trace n E w :
  let tr := events (connectWiFi_while n E w) in
  net_only tr = true /\ begin_free tr = true /\ configTimes tr = []
  /\ (count_polls tr <= n)%nat
  /\ assoc_frame w (world (connectWiFi_while n E w))
  /\ wifiConnected (world (connectWiFi_while n E w)) = wifiConnected w.
Proof.
  cbv zeta. revert w; induction n as [|n IH]; intros w.
  - rewrite connectWiFi_while_O. cbn. repeat split; lia.
  - destruct (connectWiFi_while_S n E w) as [Hev Hw]. cbv zeta in Hev, Hw.
    rewrite Hev, Hw. destruct (wl_status_eqb _ _).
    + cbn. repeat split; lia.
    + destruct (IH (queried w)) as (H1 & H2 & H3 & H4 & H5 & H6).
      cbn [net_only begin_free forallb is_net_event is_begin negb andb configTimes].
      repeat split; try assumption.
      unfold count_polls in *. cbn. lia.
Qed.

(** The polling loop, followed by the status query that settles the
    network, is a polling until connected or out of attempts. *)
Lemma connectWiFi_while_polled n E w (tail : list Event) :
  verdict_follows tail = true ->
  polled_until_connected n (events (connectWiFi_while n E w) ++ tail) = true.
Proof.
  intros Htail. revert w. induction n as [|n IH]; intros w.
  - rewrite connectWiFi_while_O. cbn [events app polled_until_connected].
    destruct (wl_status_eqb _ _); exact Htail.
  - destruct (connectWiFi_while_S n E w) as [Hev _]. cbv zeta in Hev. rewrite Hev.
    cbn [app polled_until_connected].
    destruct (wl_status_eqb _ _); [exact Htail|].
    cbn [app]. rewrite IH. reflexivity.
Qed.

Lemma begin_free_frames (a b : list Event) :
  begin_free a = true ->
  candidate_frames (a ++ b) = candidate_frames b
  /\ until_next_begin (a ++ b) = (a ++ until_next_begin b)%list.
Proof.
  induction a as [|e a IH]; intros Ha; [split; reflexivity|].
  cbn in Ha. apply andb_true_iff in Ha as [He Ha].
  destruct (IH Ha) as [H1 H2].
  destruct e; try discriminate He; cbn; rewrite ?H1, ?H2; split; reflexivity.
Qed.

(** *** The loop over the saved networks *)

Lemma connectWiFi_for_nil E w :
  LdrAnalog.connectWiFi_for [] E w
  = mkRes tt (flagged false w)
      [EvSerialPrintln "Nenhuma das redes disponíveis funcionou. Continuando offline..."].
Proof. reflexivity. Qed.

Lemma connectWiFi_for_cons ssid senha rest E w :
  let w1 := world (connectWiFi_while (Z.to_nat WIFI_MAX_ATTEMPTS) E w) in
  let s := WiFi_status_at E (n_status w1) in
  events (LdrAnalog.connectWiFi_for ((ssid, senha) :: rest) E w)
  = (EvSerialPrint "Tentando conectar em: " :: EvSerialPrintln ssid
     :: EvWiFiBegin ssid senha
     :: events (connectWiFi_while (Z.to_nat WIFI_MAX_ATTEMPTS) E w)
     ++ EvWiFiStatus s
     :: (if wl_status_eqb s WL_CONNECTED then
           [EvSerialPrint (LF ++ "Conectado com sucesso em "); EvSerialPrintln ssid;
            EvConfigTime GMT_OFFSET_SEC DAYLIGHT_OFFSET_SEC NTP_SERVER; EvDelay 2000]
         else
           EvSerialPrintln (LF ++ "Falha nesta rede, tentando próxima..." ++ LF)
           :: events (LdrAnalog.connectWiFi_for rest E (queried w1))))%list
  /\ world (LdrAnalog.connectWiFi_for ((ssid, senha) :: rest) E w)
    = (if wl_status_eqb s WL_CONNECTED then flagged true (queried w1)
       else world (LdrAnalog.connectWiFi_for rest E (queried w1))).
Proof.
  cbv zeta. cbn [LdrAnalog.connectWiFi_for].
  rewrite !events_bind, !world_bind.
  cbn [Serial_print Serial_println WiFi_begin emit WiFi_status events value world app].
  destruct (wl_status_eqb _ _); split; reflexivity.
Qed.

Lemma connectWiFi_for_outcome rows E w :
  let r := LdrAnalog.connectWiFi_for rows E w in
  tried_in_order rows (events r) (wifiConnected (world r))
  /\ polls_before_next_begin (events r) = 0%nat
  /\ (forall acc, last_status_before_next_begin (events r) acc = acc)
  /\ net_only (events r) = true
  /\ assoc_frame w (world r).
Proof.
  cbv zeta. revert w. induction rows as [|[ssid senha] rest IH]; intros w.
  - rewrite connectWiFi_for_nil. cbn. refine (conj (conj _ _) (conj _ (conj _ (conj _ _)))); try reflexivity. constructor. repeat split.
  - destruct (connectWiFi_for_cons ssid senha rest E w) as [Hev Hw].
    cbv zeta in Hev, Hw. rewrite Hev, Hw. clear Hev Hw.
    destruct (connectWiFi_while_trace (Z.to_nat WIFI_MAX_ATTEMPTS) E w)
      as (Wnet & Wfree & Wcfg & Wpolls & Wframe & _).
    cbv zeta in Wnet, Wfree, Wcfg, Wpolls.
    set (W := events (connectWiFi_while (Z.to_nat WIFI_MAX_ATTEMPTS) E w)) in *.
    set (w1 := world (connectWiFi_while (Z.to_nat WIFI_MAX_ATTEMPTS) E w)) in *.
    set (s := WiFi_status_at E (n_status w1)).
    assert (Hskip := fun b => begin_free_skip W b Wfree).
    unfold tried_in_order in *.
    change (Z.to_nat WIFI_MAX_ATTEMPTS) with 15%nat in *.
    clearbody W w1.
    destruct (wl_status_eqb s WL_CONNECTED) eqn:Hs.
    + (* found connected: the run ends here *)
      match goal with |- context [(W ++ ?b)%list] =>
        destruct (Hskip b) as (B1 & B2 & B3 & B4 & B5) end.
      refine (conj (conj _ _) (conj _ (conj _ (conj _ _)))).
      * cbn [polls_per_candidate]. rewrite B2, B4. cbn. constructor; [lia | constructor].
      * cbn [wifiConnected flagged].
        exists 0%nat. eexists. split; [cbn; lia|].
        cbn [begun verdicts configTimes]. rewrite B1, B3, B5, configTimes_app, Wcfg.
        cbn. rewrite Hs. repeat split.
        rewrite !app_comm_cons.
        change (EvWiFiStatus s :: ?x :: ?y :: ?t) with ([EvWiFiStatus s; x; y] ++ t)%list.
        rewrite app_assoc. reflexivity.
      * reflexivity.
      * intros acc. reflexivity.
      * unfold net_only in *. cbn. rewrite forallb_app, Wnet. reflexivity.
      * eapply assoc_frame_trans; [exact Wframe|]. reflexivity.
    + (* not connected: on to the next row *)
      destruct (IH (queried w1)) as (Hout & Hp0 & Hlast & Hnet & Hframe).
      set (r := LdrAnalog.connectWiFi_for rest E (queried w1)) in *. clearbody r.
      match goal with |- context [(W ++ ?b)%list] =>
        destruct (Hskip b) as (B1 & B2 & B3 & B4 & B5) end.
      destruct Hout as [Hpolls Hout].
      refine (conj (conj _ _) (conj _ (conj _ (conj _ _)))).
      * cbn [polls_per_candidate]. rewrite B2, B4. cbn. rewrite Hp0.
        constructor; [lia | exact Hpolls].
      * destruct (wifiConnected (world r)).
        -- destruct Hout as (m & pre & Hm & Hb & Hv & Hc & Htr).
           exists (S m). eexists. split; [cbn; lia|].
           cbn [begun verdicts configTimes]. rewrite B1, B3, B5, configTimes_app, Wcfg.
           cbn. rewrite Hlast, Hs, Hb, Hv, Hc. repeat split.
           rewrite Htr. rewrite !app_comm_cons, !app_assoc. reflexivity.
        -- destruct Hout as (Hb & Hv & Hc).
           cbn [begun verdicts configTimes]. rewrite B1, B3, B5, configTimes_app, Wcfg.
           cbn. rewrite Hlast, Hs, Hb, Hv, Hc. repeat split.
      * reflexivity.
      * intros acc. reflexivity.
      * unfold net_only in *. cbn. rewrite forallb_app, Wnet. cbn. exact Hnet.
      * eapply assoc_frame_trans; [exact Wframe|].
        eapply assoc_frame_trans; [|exact Hframe]. reflexivity.
Qed.

Lemma connectWiFi_for_polled rows E w :
  let tr := events (LdrAnalog.connectWiFi_for rows E w) in
  polling_discipline tr = true
  /\ forallb (fun e => negb (is_status_or_poll e)) (until_next_begin tr) = true.
Proof.
  cbv zeta. unfold polling_discipline. revert w.
  induction rows as [|[ssid senha] rest IH]; intros w.
  - rewrite connectWiFi_for_nil. split; reflexivity.
  - destruct (connectWiFi_for_cons ssid senha rest E w) as [Hev _].
    cbv zeta in Hev. rewrite Hev. clear Hev.
    destruct (connectWiFi_while_trace (Z.to_nat WIFI_MAX_ATTEMPTS) E w)
      as (_ & Wfree & _).
    cbv zeta in Wfree.
    pose proof (connectWiFi_while_polled (Z.to_nat WIFI_MAX_ATTEMPTS) E w) as Hpolled.
    set (W := events (connectWiFi_while (Z.to_nat WIFI_MAX_ATTEMPTS) E w)) in *.
    set (w1 := world (connectWiFi_while (Z.to_nat WIFI_MAX_ATTEMPTS) E w)) in *.
    clearbody W w1.
    split; [|reflexivity].
    cbn [candidate_frames forallb].
    match goal with |- context [(W ++ ?b)%list] =>
      destruct (begin_free_frames W b Wfree) as [F1 F2] end.
    rewrite F1, F2. cbn [until_next_begin candidate_frames].
    destruct (wl_status_eqb _ _).
    + rewrite Hpolled by reflexivity. reflexivity.
    + destruct (IH (queried w1)) as [I1 I2].
      cbn [until_next_begin candidate_frames].
      rewrite Hpolled by (cbn [verdict_follows forallb is_status_or_poll negb andb];
                          exact I2).
      exact I1.
Qed.

Lemma connectWiFi_for_association rows E w :
  association_outcome rows
    (events (LdrAnalog.connectWiFi_for rows E w))
    (wifiConnected (world (LdrAnalog.connectWiFi_for rows E w))).
Proof.
  split.
  - apply connectWiFi_for_outcome.
  - apply connectWiFi_for_polled.
Qed.

(** C7.  A run of [connectWiFi] over the saved networks: the networks are
    begun in list order; each network begun is polled until the station is
    connected or [WIFI_MAX_ATTEMPTS] attempts are used up, with a status
    query before each wait of 500 ms, and is settled by the status query
    that follows the polling; the run stops at the first network found
    connected, with the flag set and time synchronization configured, and
    no later network is begun; when none is found connected every network
    has been begun and the flag is clear.  The function returns in every
    case. *)
Theorem connectWiFi_tries_in_order E w :
  association_outcome WIFI_LIST
    (events_of LdrAnalog.connectWiFi E w)
    (wifiConnected (world_of LdrAnalog.connectWiFi E w)).
Proof.
  unfold events_of, world_of, LdrAnalog.connectWiFi.
  rewrite !events_bind, !world_bind.
  cbn [Serial_println set_wifiConnected emit events world value app].
  destruct (connectWiFi_for_outcome WIFI_LIST E (flagged false w))
    as ((Hpolls & Hout) & _).
  destruct (connectWiFi_for_polled WIFI_LIST E (flagged false w)) as [Hdisc _].
  cbv zeta in Hpolls, Hout, Hdisc.
  set (r := LdrAnalog.connectWiFi_for WIFI_LIST E (flagged false w)) in *. clearbody r.
  split; [|exact Hdisc].
  split; [exact Hpolls|].
  destruct (wifiConnected (world r)).
  - destruct Hout as (m & pre & Hm & Hb & Hv & Hc & Htr).
    exists m. eexists. repeat split; try assumption.
    rewrite Htr. rewrite app_comm_cons. reflexivity.
  - exact Hout.
Qed.

(** *** What reconnecting leaves alone *)

Lemma LdrAnalog_connectWiFi_frame E w :
  net_only (events (LdrAnalog.connectWiFi E w)) = true
  /\ assoc_frame w (world (LdrAnalog.connectWiFi E w)).
Proof.
  unfold LdrAnalog.connectWiFi. rewrite !events_bind, !world_bind.
  cbn [Serial_println set_wifiConnected emit events world value app].
  destruct (connectWiFi_for_outcome WIFI_LIST E (flagged false w))
    as (_ & _ & _ & Hnet & Hframe).
  split; [exact Hnet|].
  eapply assoc_frame_trans; [|exact Hframe]. reflexivity.
Qed.

Lemma LdrDigital_connectWiFi_frame E w :
  net_only (events (LdrDigital.connectWiFi E w)) = true
  /\ assoc_frame w (world (LdrDigital.connectWiFi E w)).
Proof.
  unfold LdrDigital.connectWiFi. rewrite !events_bind, !world_bind.
  cbn [Serial_print WiFi_begin WiFi_status emit events world value app].
  destruct (connectWiFi_while_trace (Z.to_nat WIFI_MAX_ATTEMPTS) E w)
    as (Wnet & _ & _ & _ & Wframe & _).
  cbv zeta in Wnet.
  set (W := connectWiFi_while (Z.to_nat WIFI_MAX_ATTEMPTS) E w) in *. clearbody W.
  destruct (wl_status_eqb _ _); cbn; unfold net_only in *;
    rewrite forallb_app, Wnet; (split; [reflexivity|]);
    (eapply assoc_frame_trans; [exact Wframe|]); reflexivity.
Qed.

Lemma net_only_silent (a : list Event) :
  net_only a = true ->
  calls a = [] /\ no_sensor_read a = true
  /\ humidity_reads a = [] /\ temperature_reads a = [].
Proof.
  induction a as [|e a IH]; intros Ha; [repeat split|].
  cbn in Ha. apply andb_true_iff in Ha as [He Ha].
  destruct (IH Ha) as (Hc & Hs & Hh & Ht).
  destruct e; try discriminate He; cbn; auto.
Qed.

Lemma LdrAnalog_checkWiFi_frame E w :
  net_only (events (LdrAnalog.loop_checkWiFi E w)) = true
  /\ assoc_frame w (world (LdrAnalog.loop_checkWiFi E w)).
Proof.
  unfold LdrAnalog.loop_checkWiFi. rewrite !events_bind, !world_bind.
  cbn [WiFi_status get_wifiConnected events world value].
  destruct (negb _ && _).
  - rewrite !events_bind, !world_bind.
    cbn [Serial_println set_wifiConnected emit events world value app].
    destruct (LdrAnalog_connectWiFi_frame E (flagged false (queried w))) as [Hnet Hframe].
    split; [cbn; exact Hnet|].
    eapply assoc_frame_trans; [|exact Hframe]. reflexivity.
  - split; reflexivity.
Qed.

Lemma LdrDigital_checkWiFi_frame E w :
  net_only (events (LdrDigital.loop_checkWiFi E w)) = true
  /\ assoc_frame w (world (LdrDigital.loop_checkWiFi E w)).
Proof.
  unfold LdrDigital.loop_checkWiFi. rewrite !events_bind, !world_bind.
  cbn [WiFi_status get_wifiConnected events world value].
  destruct (negb _ && _).
  - rewrite !events_bind, !world_bind.
    cbn [Serial_println set_wifiConnected emit events world value app].
    destruct (LdrDigital_connectWiFi_frame E (flagged false (queried w))) as [Hnet Hframe].
    split; [cbn; exact Hnet|].
    eapply assoc_frame_trans; [|exact Hframe]. reflexivity.
  - split; reflexivity.
Qed.

End Association.

(** ** The main loop *)

Section Cycle.
Context `{FM : FloatModel} `{CH : Chaves}.

Lemma updateLocalTime_run E w :
  let r := getLocalTime_at E (n_time w) in
  events (updateLocalTime E w) =
    EvCall Call_updateLocalTime :: EvGetLocalTime (fst r) (snd r)
    :: (if fst r then [EvSerialPrint "Hora atual: "; EvSerialPrintlnTime (snd r) "%H:%M:%S"]
        else [EvSerialPrintln "Falha ao obter hora."])
  /\ world (updateLocalTime E w) =
     mkWorld (wifiConnected w) (fst r) (rele w) (led w) (n_status w) (S (n_time w))
             (n_http w) (sensors w)
  /\ value (updateLocalTime E w) = fst r.
Proof.
  cbv zeta. unfold updateLocalTime, bind. cbn.
  destruct (fst (getLocalTime_at E (n_time w))); repeat split.
Qed.

Lemma updateLocalTime_sensors E w : sensors (world (updateLocalTime E w)) = sensors w.
Proof. destruct (updateLocalTime_run E w) as (_ & Hw & _). rewrite Hw. reflexivity. Qed.

Lemma sendToThingSpeak_humidity luz solo umidAr temp bomba agua E w :
  humidity_reads (events (sendToThingSpeak luz solo umidAr temp bomba agua E w)) = [].
Proof.
  rewrite sendToThingSpeak_events. cbv zeta. destruct (wl_status_eqb _ _); reflexivity.
Qed.

Lemma sendToThingSpeak_temperature luz solo umidAr temp bomba agua E w :
  temperature_reads (events (sendToThingSpeak luz solo umidAr temp bomba agua E w)) = [].
Proof.
  rewrite sendToThingSpeak_events. cbv zeta. destruct (wl_status_eqb _ _); reflexivity.
Qed.

(** What one invocation of [handleWateringLogic] passes on and reads. *)
Lemma LdrAnalog_handle_observed E w soil haAgua hour lightValue :
  let h := readHumidity_at E (n_hum (sensors w)) in
  let t := readTemperature_at E (n_temp (sensors w)) in
  let tr := events (LdrAnalog.handleWateringLogic soil haAgua hour lightValue E w) in
  (exists b, calls tr = [Call_sendToThingSpeak lightValue soil h t b (int_of_bool haAgua)])
  /\ humidity_reads tr = [h] /\ temperature_reads tr = [t].
Proof.
  cbv zeta.
  destruct (LdrAnalog_handle_run E w soil haAgua hour lightValue)
    as (pre & Hev & _ & Hloc & Hns).
  cbv zeta in Hev. rewrite Hev.
  destruct (local_only_silent pre Hloc) as (Hc & _).
  destruct (no_sensor_read_reads pre Hns) as (Hh & Ht).
  rewrite calls_app, humidity_reads_app, temperature_reads_app, Hc, Hh, Ht.
  cbn [calls humidity_reads temperature_reads app].
  rewrite sendToThingSpeak_calls, sendToThingSpeak_humidity, sendToThingSpeak_temperature.
  repeat split. eexists. reflexivity.
Qed.

Lemma LdrDigital_handle_observed E w soil haAgua hour :
  let luz := digitalRead_at E (n_digital (sensors w)) LdrDigital.LDR_PIN in
  let h := readHumidity_at E (n_hum (sensors w)) in
  let t := readTemperature_at E (n_temp (sensors w)) in
  let tr := events (LdrDigital.handleWateringLogic soil haAgua hour E w) in
  (exists b, calls tr = [Call_sendToThingSpeak luz soil h t b (int_of_bool haAgua)])
  /\ humidity_reads tr = [h] /\ temperature_reads tr = [t].
Proof.
  cbv zeta.
  destruct (LdrDigital_handle_run E w soil haAgua hour) as (pre & Hev & _ & Hloc & Hns).
  cbv zeta in Hev. rewrite Hev.
  destruct (local_only_silent pre Hloc) as (Hc & _).
  destruct (no_sensor_read_reads pre Hns) as (Hh & Ht).
  rewrite calls_app, humidity_reads_app, temperature_reads_app, Hc, Hh, Ht.
  cbn [calls humidity_reads temperature_reads app].
  rewrite sendToThingSpeak_calls, sendToThingSpeak_humidity, sendToThingSpeak_temperature.
  repeat split. eexists. reflexivity.
Qed.

Lemma LdrAnalog_printSensorData_world lightValue soil humidity temperature haAgua E w :
  world (LdrAnalog.printSensorData lightValue soil humidity temperature haAgua E w) = w.
Proof. reflexivity. Qed.

Lemma LdrAnalog_loop_cycle_run E w :
  let n := sensors w in
  let light := analogRead_at E (n_analog n) LdrAnalog.LDR_PIN in
  let soil := analogRead_at E (S (n_analog n)) SOIL_PIN in
  let h1 := readHumidity_at E (n_hum n) in
  let h2 := readHumidity_at E (S (n_hum n)) in
  let t1 := readTemperature_at E (n_temp n) in
  let t2 := readTemperature_at E (S (n_temp n)) in
  let water := digitalRead_at E (n_digital n) BOIA_PIN =? LOW in
  exists mid wz b,
    events (LdrAnalog.loop_cycle E w) =
      ((EvAnalogRead LdrAnalog.LDR_PIN light :: mid)
       ++ events (updateLocalTime E wz) ++ [EvDelay LOOP_DELAY_MS])%list
    /\ world (LdrAnalog.loop_cycle E w) = world (updateLocalTime E wz)
    /\ calls mid = [Call_sendToThingSpeak light soil h2 t2 b (int_of_bool water)]
    /\ humidity_reads mid = [h1; h2]
    /\ temperature_reads mid = [t1; t2]
    /\ In (EvSerialPrint (Print_of_float h1)) mid
    /\ In (EvSerialPrint (Print_of_float t1)) mid.
Proof.
  cbv zeta. unfold LdrAnalog.loop_cycle.
  rewrite !events_bind, !world_bind.
  cbn -[LdrAnalog.printSensorData LdrAnalog.handleWateringLogic updateLocalTime].
  match goal with |- context [events (LdrAnalog.handleWateringLogic ?a ?b ?c ?d E ?wh)] =>
    destruct (LdrAnalog_handle_observed E wh a b c d) as ((bb & Hc) & Hh & Ht);
    cbn [sensors n_hum n_temp] in Hc, Hh, Ht;
    set (Hd := events (LdrAnalog.handleWateringLogic a b c d E wh)) in *;
    clearbody Hd
  end.
  match goal with |- context [events (LdrAnalog.printSensorData ?a ?b ?c ?d ?e E ?wp)] =>
    assert (HP : local_only (events (LdrAnalog.printSensorData a b c d e E wp)) = true
                 /\ no_sensor_read (events (LdrAnalog.printSensorData a b c d e E wp)) = true)
      by (split; reflexivity);
    assert (HPin : In (EvSerialPrint (Print_of_float c))
                      (events (LdrAnalog.printSensorData a b c d e E wp))
                   /\ In (EvSerialPrint (Print_of_float d))
                         (events (LdrAnalog.printSensorData a b c d e E wp)))
      by (split; cbn; repeat (first [left; reflexivity | right]));
    set (P := events (LdrAnalog.printSensorData a b c d e E wp)) in *;
    clearbody P
  end.
  destruct HP as [HPl HPs]. destruct HPin as [HPh1 HPt1].
  destruct (local_only_silent P HPl) as (HPc & _).
  destruct (no_sensor_read_reads P HPs) as (HPh & HPt).
  eexists (_ :: _ :: _ :: _ :: (P ++ _ :: Hd)%list), _, bb.
  split; [|split; [|split; [|split; [|split; [|split]]]]].
  - cbn [app]. rewrite <- app_assoc. cbn [app]. reflexivity.
  - reflexivity.
  - cbn [calls]. rewrite calls_app, HPc. cbn [calls app]. exact Hc.
  - cbn [humidity_reads]. rewrite humidity_reads_app, HPh. cbn [humidity_reads app].
    rewrite Hh. reflexivity.
  - cbn [temperature_reads]. rewrite temperature_reads_app, HPt.
    cbn [temperature_reads app]. rewrite Ht. reflexivity.
  - do 4 right. apply in_or_app. left. exact HPh1.
  - do 4 right. apply in_or_app. left. exact HPt1.
Qed.

Lemma LdrDigital_printSensorData_world lightValue soil humidity temperature haAgua E w :
  world (LdrDigital.printSensorData lightValue soil humidity temperature haAgua E w) = w.
Proof. reflexivity. Qed.

Lemma LdrDigital_loop_cycle_run E w :
  let n := sensors w in
  let lightState := digitalRead_at E (n_digital n) LdrDigital.LDR_PIN in
  let luz := digitalRead_at E (S (S (n_digital n))) LdrDigital.LDR_PIN in
  let soil := analogRead_at E (n_analog n) SOIL_PIN in
  let h1 := readHumidity_at E (n_hum n) in
  let h2 := readHumidity_at E (S (n_hum n)) in
  let t1 := readTemperature_at E (n_temp n) in
  let t2 := readTemperature_at E (S (n_temp n)) in
  let water := digitalRead_at E (S (n_digital n)) BOIA_PIN =? LOW in
  exists mid wz b,
    events (LdrDigital.loop_cycle E w) =
      ((EvDigitalRead LdrDigital.LDR_PIN lightState :: mid)
       ++ events (updateLocalTime E wz) ++ [EvDelay LOOP_DELAY_MS])%list
    /\ world (LdrDigital.loop_cycle E w) = world (updateLocalTime E wz)
    /\ calls mid = [Call_sendToThingSpeak luz soil h2 t2 b (int_of_bool water)]
    /\ humidity_reads mid = [h1; h2]
    /\ temperature_reads mid = [t1; t2]
    /\ In (EvSerialPrint (Print_of_float h1)) mid
    /\ In (EvSerialPrint (Print_of_float t1)) mid.
Proof.
  cbv zeta. unfold LdrDigital.loop_cycle.
  rewrite !events_bind, !world_bind.
  cbn -[LdrDigital.printSensorData LdrDigital.handleWateringLogic updateLocalTime].
  match goal with |- context [events (LdrDigital.handleWateringLogic ?a ?b ?c E ?wh)] =>
    destruct (LdrDigital_handle_observed E wh a b c) as ((bb & Hc) & Hh & Ht);
    cbn [sensors n_hum n_temp n_digital] in Hc, Hh, Ht;
    set (Hd := events (LdrDigital.handleWateringLogic a b c E wh)) in *;
    clearbody Hd
  end.
  match goal with |- context [events (LdrDigital.printSensorData ?a ?b ?c ?d ?e E ?wp)] =>
    assert (HP : local_only (events (LdrDigital.printSensorData a b c d e E wp)) = true
                 /\ no_sensor_read (events (LdrDigital.printSensorData a b c d e E wp)) = true)
      by (split; reflexivity);
    assert (HPin : In (EvSerialPrint (Print_of_float c))
                      (events (LdrDigital.printSensorData a b c d e E wp))
                   /\ In (EvSerialPrint (Print_of_float d))
                         (events (LdrDigital.printSensorData a b c d e E wp)))
      by (split; cbn; repeat (first [left; reflexivity | right]));
    set (P := events (LdrDigital.printSensorData a b c d e E wp)) in *;
    clearbody P
  end.
  destruct HP as [HPl HPs]. destruct HPin as [HPh1 HPt1].
  destruct (local_only_silent P HPl) as (HPc & _).
  destruct (no_sensor_read_reads P HPs) as (HPh & HPt).
  eexists (_ :: _ :: _ :: _ :: (P ++ _ :: Hd)%list), _, bb.
  split; [|split; [|split; [|split; [|split; [|split]]]]].
  - cbn [app]. rewrite <- app_assoc. cbn [app]. reflexivity.
  - reflexivity.
  - cbn [calls]. rewrite calls_app, HPc. cbn [calls app]. exact Hc.
  - cbn [humidity_reads]. rewrite humidity_reads_app, HPh. cbn [humidity_reads app].
    rewrite Hh. reflexivity.
  - cbn [temperature_reads]. rewrite temperature_reads_app, HPt.
    cbn [temperature_reads app]. rewrite Ht. reflexivity.
  - do 4 right. apply in_or_app. left. exact HPh1.
  - do 4 right. apply in_or_app. left. exact HPt1.
Qed.

(** *** The resynchronization statement *)

Lemma LdrAnalog_loop_resync_run E w :
  LdrAnalog.loop_resync E w =
  if wifiConnected w && negb (timeValid w)
  then mkRes tt (world (updateLocalTime E w)) (events (updateLocalTime E w) ++ [])
  else mkRes tt w [].
Proof.
  unfold LdrAnalog.loop_resync, bind. cbn [get_wifiConnected get_timeValid value world events app].
  destruct (wifiConnected w && negb (timeValid w)); reflexivity.
Qed.

Lemma LdrDigital_loop_resync_run E w :
  LdrDigital.loop_resync E w =
  if wifiConnected w && negb (timeValid w)
  then mkRes tt (world (updateLocalTime E w)) (events (updateLocalTime E w) ++ [])
  else mkRes tt w [].
Proof.
  unfold LdrDigital.loop_resync, bind. cbn [get_wifiConnected get_timeValid value world events app].
  destruct (wifiConnected w && negb (timeValid w)); reflexivity.
Qed.

Lemma updateLocalTime_quiet E w :
  no_sensor_read (events (updateLocalTime E w)) = true
  /\ count_updates (events (updateLocalTime E w)) = 1%nat
  /\ humidity_reads (events (updateLocalTime E w)) = []
  /\ temperature_reads (events (updateLocalTime E w)) = []
  /\ sends (events (updateLocalTime E w)) = [].
Proof.
  destruct (updateLocalTime_run E w) as (Hev & _). cbv zeta in Hev. rewrite Hev.
  destruct (fst (getLocalTime_at E (n_time w))); repeat split.
Qed.

(** One cycle, given what is known of its three statements. *)
Lemma cycle_resync_discipline (C R : list Event) (first : Event) (mid : list Event)
    (due : bool) E wz :
  net_only C = true ->
  R = (if due then events (updateLocalTime E wz) ++ [] else [])%list ->
  is_sensor_read first = true ->
  count_updates mid = 0%nat ->
  forall wl,
  resync_discipline
    (C ++ R ++ (first :: mid) ++ events (updateLocalTime E wl) ++ [EvDelay LOOP_DELAY_MS])
    due (timeValid (world (updateLocalTime E wl))).
Proof.
  intros HC HR Hfirst Hmid wl.
  destruct (net_only_silent C HC) as (HCc & HCs & _).
  destruct (updateLocalTime_run E wl) as (Lev & Lw & _). cbv zeta in Lev, Lw.
  rewrite Lev, Lw.
  exists (C ++ R)%list, first, mid.
  exists (fst (getLocalTime_at E (n_time wl))), (snd (getLocalTime_at E (n_time wl))).
  eexists. split; [|split; [|split; [|split; [|split; [|split]]]]].
  - rewrite <- !app_assoc. reflexivity.
  - rewrite no_sensor_read_app, HCs, HR.
    destruct due; [|reflexivity].
    rewrite app_nil_r. apply updateLocalTime_quiet.
  - rewrite count_updates_app. unfold count_updates at 1. rewrite HCc, HR.
    destruct due; [|reflexivity].
    rewrite app_nil_r. apply updateLocalTime_quiet.
  - exact Hfirst.
  - exact Hmid.
  - destruct (fst (getLocalTime_at E (n_time wl))); reflexivity.
  - reflexivity.
Qed.

(** C8.  In a cycle of [loop], [updateLocalTime] is entered before the
    first sensor read exactly when [wifiConnected && !timeValid] holds once
    the connection check is done, and it is entered once more, whatever the
    flags, at the end of the cycle; [updateLocalTime] leaves in [timeValid]
    (and returns) whether the time read succeeded. *)
Theorem loop_resynchronizes_time E w :
  resync_discipline
    (events_of LdrAnalog.loop E w)
    (let w1 := world_of LdrAnalog.loop_checkWiFi E w in
     wifiConnected w1 && negb (timeValid w1))
    (timeValid (world_of LdrAnalog.loop E w))
  /\ resync_discipline
       (events_of LdrDigital.loop E w)
       (let w1 := world_of LdrDigital.loop_checkWiFi E w in
        wifiConnected w1 && negb (timeValid w1))
       (timeValid (world_of LdrDigital.loop E w))
  /\ timeValid (world_of updateLocalTime E w) = fst (getLocalTime_at E (n_time w))
  /\ value (updateLocalTime E w) = fst (getLocalTime_at E (n_time w)).
Proof.
  unfold events_of, world_of. cbv zeta. split; [|split; [|split]].
  - unfold LdrAnalog.loop. rewrite !events_bind, !world_bind.
    destruct (LdrAnalog_checkWiFi_frame E w) as [Hnet _].
    set (w1 := world (LdrAnalog.loop_checkWiFi E w)).
    destruct (LdrAnalog_loop_cycle_run E (world (LdrAnalog.loop_resync E w1)))
      as (mid & wz & b & Hev & Hw & Hcalls & _).
    rewrite Hev, Hw.
    apply cycle_resync_discipline with (wz := w1); try reflexivity.
    + exact Hnet.
    + rewrite LdrAnalog_loop_resync_run. destruct (_ && _); reflexivity.
    + unfold count_updates. rewrite Hcalls. reflexivity.
  - unfold LdrDigital.loop. rewrite !events_bind, !world_bind.
    destruct (LdrDigital_checkWiFi_frame E w) as [Hnet _].
    set (w1 := world (LdrDigital.loop_checkWiFi E w)).
    destruct (LdrDigital_loop_cycle_run E (world (LdrDigital.loop_resync E w1)))
      as (mid & wz & b & Hev & Hw & Hcalls & _).
    rewrite Hev, Hw.
    apply cycle_resync_discipline with (wz := w1); try reflexivity.
    + exact Hnet.
    + rewrite LdrDigital_loop_resync_run. destruct (_ && _); reflexivity.
    + unfold count_updates. rewrite Hcalls. reflexivity.
  - destruct (updateLocalTime_run E w) as (_ & Hw & _). rewrite Hw. reflexivity.
  - apply updateLocalTime_run.
Qed.

Lemma sends_app (a b : list Event) : sends (a ++ b) = (sends a ++ sends b)%list.
Proof. unfold sends. rewrite calls_app, filter_app. reflexivity. Qed.

Lemma cycle_carries (C R : list Event) (first : Event) (mid : list Event) (due : bool)
    E wz wl h1 h2 t1 t2 luz solo agua b :
  net_only C = true ->
  R = (if due then events (updateLocalTime E wz) ++ [] else [])%list ->
  humidity_reads [first] = [] -> temperature_reads [first] = [] -> calls [first] = [] ->
  calls mid = [Call_sendToThingSpeak luz solo h2 t2 b agua] ->
  humidity_reads mid = [h1; h2] ->
  temperature_reads mid = [t1; t2] ->
  In (EvSerialPrint (Print_of_float h1)) mid ->
  In (EvSerialPrint (Print_of_float t1)) mid ->
  cycle_telemetry
    (C ++ R ++ (first :: mid) ++ events (updateLocalTime E wl) ++ [EvDelay LOOP_DELAY_MS])
    h1 h2 t1 t2 luz solo agua.
Proof.
  intros HC HR Hfh Hft Hfc Hcalls Hh Ht Hin1 Hin2.
  destruct (net_only_silent C HC) as (HCc & _ & HCh & HCt).
  assert (HRq : humidity_reads R = [] /\ temperature_reads R = [] /\ sends R = []).
  { rewrite HR. destruct due; [|repeat split].
    rewrite app_nil_r. destruct (updateLocalTime_quiet E wz) as (_ & _ & H1 & H2 & H3).
    auto. }
  destruct HRq as (HRh & HRt & HRs).
  destruct (updateLocalTime_quiet E wl) as (_ & _ & HLh & HLt & HLs).
  change (first :: mid) with ([first] ++ mid)%list.
  unfold cycle_telemetry. split; [|split; [|split; [|split]]].
  - rewrite !humidity_reads_app, HCh, HRh, Hfh, Hh, HLh. reflexivity.
  - rewrite !temperature_reads_app, HCt, HRt, Hft, Ht, HLt. reflexivity.
  - apply in_or_app; right. apply in_or_app; right. apply in_or_app; left.
    apply in_or_app; right. exact Hin1.
  - apply in_or_app; right. apply in_or_app; right. apply in_or_app; left.
    apply in_or_app; right. exact Hin2.
  - exists b. rewrite !sends_app, HRs, HLs.
    unfold sends. rewrite HCc, Hfc, Hcalls. reflexivity.
Qed.

Lemma LdrAnalog_before_cycle_sensors E w :
  sensors (world (LdrAnalog.loop_resync E (world (LdrAnalog.loop_checkWiFi E w))))
  = sensors w.
Proof.
  destruct (LdrAnalog_checkWiFi_frame E w) as [_ Hframe].
  rewrite LdrAnalog_loop_resync_run.
  destruct (_ && _); cbn [world]; rewrite ?updateLocalTime_sensors;
    rewrite Hframe; reflexivity.
Qed.

Lemma LdrDigital_before_cycle_sensors E w :
  sensors (world (LdrDigital.loop_resync E (world (LdrDigital.loop_checkWiFi E w))))
  = sensors w.
Proof.
  destruct (LdrDigital_checkWiFi_frame E w) as [_ Hframe].
  rewrite LdrDigital_loop_resync_run.
  destruct (_ && _); cbn [world]; rewrite ?updateLocalTime_sensors;
    rewrite Hframe; reflexivity.
Qed.

(** C9, as the code has it.  In every cycle the DHT is read twice for each
    value.  The first readings are the ones the loop keeps and prints; the
    humidity and temperature passed to [sendToThingSpeak] (field3, field4)
    are the second readings, made inside [handleWateringLogic] when the
    call is made.  The soil value and the water flag passed are the loop's
    own; so is the light value in the light-aware sketch, while the earlier
    sketch reads the light detector again for the call. *)
Theorem telemetry_carries_second_dht_reading E w :
  let n := sensors w in
  let h1 := readHumidity_at E (n_hum n) in
  let h2 := readHumidity_at E (S (n_hum n)) in
  let t1 := readTemperature_at E (n_temp n) in
  let t2 := readTemperature_at E (S (n_temp n)) in
  cycle_telemetry (events_of LdrAnalog.loop E w) h1 h2 t1 t2
    (analogRead_at E (n_analog n) LdrAnalog.LDR_PIN)
    (analogRead_at E (S (n_analog n)) SOIL_PIN)
    (int_of_bool (digitalRead_at E (n_digital n) BOIA_PIN =? LOW))
  /\ cycle_telemetry (events_of LdrDigital.loop E w) h1 h2 t1 t2
       (digitalRead_at E (S (S (n_digital n))) LdrDigital.LDR_PIN)
       (analogRead_at E (n_analog n) SOIL_PIN)
       (int_of_bool (digitalRead_at E (S (n_digital n)) BOIA_PIN =? LOW)).
Proof.
  unfold events_of. cbv zeta. split.
  - unfold LdrAnalog.loop. rewrite !events_bind.
    destruct (LdrAnalog_checkWiFi_frame E w) as [Hnet _].
    set (w1 := world (LdrAnalog.loop_checkWiFi E w)).
    destruct (LdrAnalog_loop_cycle_run E (world (LdrAnalog.loop_resync E w1)))
      as (mid & wz & b & Hev & _ & Hcalls & Hh & Ht & Hin1 & Hin2).
    cbv zeta in Hev, Hcalls, Hh, Ht, Hin1, Hin2. subst w1.
    rewrite LdrAnalog_before_cycle_sensors in *.
    rewrite Hev.
    eapply cycle_carries
      with (wz := world (LdrAnalog.loop_checkWiFi E w))
           (due := wifiConnected (world (LdrAnalog.loop_checkWiFi E w))
                   && negb (timeValid (world (LdrAnalog.loop_checkWiFi E w))));
      try eassumption; try reflexivity.
    rewrite LdrAnalog_loop_resync_run. destruct (_ && _); reflexivity.
  - unfold LdrDigital.loop. rewrite !events_bind.
    destruct (LdrDigital_checkWiFi_frame E w) as [Hnet _].
    set (w1 := world (LdrDigital.loop_checkWiFi E w)).
    destruct (LdrDigital_loop_cycle_run E (world (LdrDigital.loop_resync E w1)))
      as (mid & wz & b & Hev & _ & Hcalls & Hh & Ht & Hin1 & Hin2).
    cbv zeta in Hev, Hcalls, Hh, Ht, Hin1, Hin2. subst w1.
    rewrite LdrDigital_before_cycle_sensors in *.
    rewrite Hev.
    eapply cycle_carries
      with (wz := world (LdrDigital.loop_checkWiFi E w))
           (due := wifiConnected (world (LdrDigital.loop_checkWiFi E w))
                   && negb (timeValid (world (LdrDigital.loop_checkWiFi E w))));
      try eassumption; try reflexivity.
    rewrite LdrDigital_loop_resync_run. destruct (_ && _); reflexivity.
Qed.

(** *** The relay between invocations *)

Lemma LdrAnalog_setup_relay E w : rele (world (LdrAnalog.setup E w)) = HIGH.
Proof.
  unfold LdrAnalog.setup. rewrite !world_bind.
  cbn [Serial_begin pinMode digitalWrite dht_begin Serial_println emit
       get_wifiConnected world value].
  match goal with |- context [LdrAnalog.connectWiFi E ?w'] =>
    destruct (LdrAnalog_connectWiFi_frame E w') as [_ Hframe];
    set (W := world (LdrAnalog.connectWiFi E w')) in *
  end.
  destruct (wifiConnected W); rewrite ?world_bind; cbn [ret world];
    rewrite ?updateLocalTime_rele; rewrite Hframe; reflexivity.
Qed.

Lemma LdrDigital_setup_relay E w : rele (world (LdrDigital.setup E w)) = HIGH.
Proof.
  unfold LdrDigital.setup. rewrite !world_bind.
  cbn [Serial_begin pinMode digitalWrite dht_begin Serial_println emit
       get_wifiConnected world value].
  match goal with |- context [LdrDigital.connectWiFi E ?w'] =>
    destruct (LdrDigital_connectWiFi_frame E w') as [_ Hframe];
    set (W := world (LdrDigital.connectWiFi E w')) in *
  end.
  destruct (wifiConnected W); rewrite ?world_bind; cbn [ret world];
    rewrite ?updateLocalTime_rele; rewrite Hframe; reflexivity.
Qed.

(** C10.  When [handleWateringLogic] returns, the level last written to the
    relay pin is HIGH, in both sketches; within the invocation the relay is
    LOW only from the write that energizes the pump to the write that
    follows the hold of [PUMP_ON_TIME_MS]; hence the relay is HIGH when
    [setup] ends and when each [loop] cycle ends. *)
Theorem relay_released_on_return E w soil haAgua hour lightValue :
  (rele (world_of (LdrAnalog.handleWateringLogic soil haAgua hour lightValue) E w) = HIGH
   /\ relay_low_only_during_hold
        (events_of (LdrAnalog.handleWateringLogic soil haAgua hour lightValue) E w) = true)
  /\ (rele (world_of (LdrDigital.handleWateringLogic soil haAgua hour) E w) = HIGH
      /\ relay_low_only_during_hold
           (events_of (LdrDigital.handleWateringLogic soil haAgua hour) E w) = true)
  /\ (rele (world_of LdrAnalog.setup E w) = HIGH
      /\ rele (world_of LdrAnalog.loop E w) = HIGH)
  /\ (rele (world_of LdrDigital.setup E w) = HIGH
      /\ rele (world_of LdrDigital.loop E w) = HIGH).
Proof.
  unfold events_of, world_of. repeat split.
  - apply LdrAnalog_handle_releases_relay.
  - apply LdrAnalog_handle_hold.
  - apply LdrDigital_handle_releases_relay.
  - apply LdrDigital_handle_hold.
  - apply LdrAnalog_setup_relay.
  - unfold LdrAnalog.loop, LdrAnalog.loop_cycle.
    rewrite !world_bind. cbn [delay emit world].
    rewrite updateLocalTime_rele. apply LdrAnalog_handle_releases_relay.
  - apply LdrDigital_setup_relay.
  - unfold LdrDigital.loop, LdrDigital.loop_cycle.
    rewrite !world_bind. cbn [delay emit world].
    rewrite updateLocalTime_rele. apply LdrDigital_handle_releases_relay.
Qed.

End Cycle.

(** * Further properties *)

Import Measure Runtime.

Section Further.
Context `{FM : FloatModel} `{CH : Chaves}.

Lemma total_delay_app (a b : list Event) :
  total_delay (a ++ b) = total_delay a + total_delay b.
Proof.
  induction a as [|e a IH]; [reflexivity|].
  destruct e; cbn; rewrite IH; lia.
Qed.

Lemma blink_pattern_delay n d : total_delay (blink_pattern n d) = 2 * Z.of_nat n * d.
Proof.
  induction n as [|n IH]; [reflexivity|].
  change (blink_pattern (S n) d)
    with ([EvDigitalWrite LED_PIN HIGH; EvDelay d; EvDigitalWrite LED_PIN LOW; EvDelay d]
          ++ blink_pattern n d)%list.
  rewrite total_delay_app, IH. cbn [total_delay]. lia.
Qed.

Lemma blink_pattern_led n d :
  led_writes (blink_pattern n d) = List.concat (repeat [HIGH; LOW] n).
Proof. induction n as [|n IH]; [reflexivity|]. cbn. rewrite <- IH. reflexivity. Qed.

Lemma blink_pattern_pump n d : pump_energized (blink_pattern n d) = false.
Proof. induction n as [|n IH]; [reflexivity|]. cbn. exact IH. Qed.

(** Past events that do not drive the relay LOW, the pump clock is where
    it was. *)
Lemma pump_on_ms_skip (a b : list Event) :
  pump_energized a = false -> pump_on_ms false (a ++ b) = pump_on_ms false b.
Proof.
  induction a as [|e a IH]; intros Ha; [reflexivity|].
  cbn in Ha. apply orb_false_iff in Ha as [He Ha].
  destruct e; cbn [app pump_on_ms]; auto.
  cbn in He. destruct (pin =? RELE_PIN); cbn in He |- *; [rewrite He|]; auto.
Qed.

Lemma sendToThingSpeak_delay luz solo umidAr temp bomba agua E w :
  total_delay (events (sendToThingSpeak luz solo umidAr temp bomba agua E w)) = 0.
Proof.
  rewrite sendToThingSpeak_events. cbv zeta. destruct (wl_status_eqb _ _); reflexivity.
Qed.

(** X1.  [blinkLED times delayTime] writes the LED pin HIGH, waits, writes
    it LOW and waits again, [times] times over.  Each wait lasts [delayTime]
    converted to [uint32_t], which is [delayTime] itself exactly when it is
    not negative (and fits), so that a negative [delayTime] gives waits of
    [delayTime + 2^32] milliseconds.  It waits [2 * times] such periods in
    all, never touches the relay, and leaves the LED LOW unless
    [times <= 0], in which case it does nothing at all. *)
Theorem blinkLED_pattern E w times delayTime :
  let r := blinkLED times delayTime E w in
  let ms := uint32_t delayTime in
  events r = blink_pattern (Z.to_nat times) ms
  /\ led_writes (events r) = List.concat (repeat [HIGH; LOW] (Z.to_nat times))
  /\ total_delay (events r) = 2 * Z.max 0 times * ms
  /\ pump_energized (events r) = false
  /\ world r = (if times <=? 0 then w else written LED_PIN LOW w)
  /\ 0 <= ms < 4294967296
  /\ (if (0 <=? delayTime) && (delayTime <? 4294967296) then ms = delayTime
      else if (-4294967296 <=? delayTime) && (delayTime <? 0)
           then ms = delayTime + 4294967296
           else ms <> delayTime).
Proof.
  cbv zeta. unfold blinkLED.
  rewrite blinkLED_iter_events, blinkLED_iter_world.
  rewrite blink_pattern_led, blink_pattern_delay, blink_pattern_pump.
  pose proof (uint32_t_range delayTime) as Hr.
  refine (conj eq_refl (conj eq_refl (conj _ (conj eq_refl (conj _ (conj Hr _)))))).
  - rewrite ZifyInst.of_nat_to_nat_eq. reflexivity.
  - destruct (Z.leb_spec times 0) as [H|H].
    + replace (Z.to_nat times) with 0%nat by lia. reflexivity.
    + destruct (Z.to_nat times) eqn:Hn; [lia | reflexivity].
  - destruct (Z.leb_spec 0 delayTime) as [H0|H0];
      destruct (Z.ltb_spec delayTime 4294967296) as [H1|H1]; cbn [andb].
    + apply uint32_t_small. lia.
    + destruct (Z.leb_spec (-4294967296) delayTime), (Z.ltb_spec delayTime 0);
        cbn [andb]; lia.
    + destruct (Z.leb_spec (-4294967296) delayTime) as [H2|H2],
        (Z.ltb_spec delayTime 0) as [H3|H3]; cbn [andb]; try lia.
      unfold uint32_t in *. symmetry.
      apply Z.mod_unique with (q := -1); lia.
    + lia.
Qed.



Lemma pump_on_ms_quiet (a : list Event) :
  pump_energized a = false -> pump_on_ms false a = 0.
Proof.
  intros Ha. rewrite <- (app_nil_r a). rewrite pump_on_ms_skip by exact Ha. reflexivity.
Qed.

Ltac open_handle :=
  unfold events_of, world_of,
    LdrAnalog.handleWateringLogic, LdrDigital.handleWateringLogic, blinkLED;
  cbv zeta;
  change (Z.to_nat 20) with 20%nat; change (Z.to_nat 5) with 5%nat.

Ltac by_branch soil hour haAgua :=
  destruct (soil >? SOIL_MOISTURE_THRESHOLD), (isNightHour hour), haAgua;
  cbn [andb negb].




Ltac clock_in_pump_branch :=
  open_handle; cbn [andb negb];
  rewrite !events_bind; cbn -[sendToThingSpeak];
  rewrite pump_on_ms_quiet by apply sendToThingSpeak_pump; reflexivity.

Lemma LdrAnalog_handle_clock E w soil haAgua hour lightValue :
  pump_on_ms false
    (events (LdrAnalog.handleWateringLogic soil haAgua hour lightValue E w))
  = (if (soil >? SOIL_MOISTURE_THRESHOLD) && isNightHour hour && haAgua
        && (lightValue >? LdrAnalog.LDR_DARK_THRESHOLD)
     then PUMP_ON_TIME_MS else 0).
Proof.
  destruct ((soil >? SOIL_MOISTURE_THRESHOLD) && isNightHour hour && haAgua
            && (lightValue >? LdrAnalog.LDR_DARK_THRESHOLD)) eqn:Htaken.
  - rewrite !andb_true_iff in Htaken. destruct Htaken as [[[Hd Hn] Ha] Hl].
    subst haAgua. open_handle. rewrite Hd, Hn, Hl. clock_in_pump_branch.
  - apply pump_on_ms_quiet. rewrite LdrAnalog_handle_pump. exact Htaken.
Qed.

Lemma LdrDigital_handle_clock E w soil haAgua hour :
  pump_on_ms false (events (LdrDigital.handleWateringLogic soil haAgua hour E w))
  = (if (soil >? SOIL_MOISTURE_THRESHOLD) && isNightHour hour && haAgua
     then PUMP_ON_TIME_MS else 0).
Proof.
  destruct ((soil >? SOIL_MOISTURE_THRESHOLD) && isNightHour hour && haAgua) eqn:Htaken.
  - rewrite !andb_true_iff in Htaken. destruct Htaken as [[Hd Hn] Ha].
    subst haAgua. open_handle. rewrite Hd, Hn. clock_in_pump_branch.
  - apply pump_on_ms_quiet. rewrite LdrDigital_handle_pump. exact Htaken.
Qed.

(** X4.  The time [handleWateringLogic] spends in [delay] with the relay
    LOW is [PUMP_ON_TIME_MS] in the branch that waters and zero in every
    other: the blinking and the telemetry never run while the pump is
    on. *)
Theorem pump_runs_for_the_hold_only E w soil haAgua hour lightValue :
  pump_on_ms false
    (events_of (LdrAnalog.handleWateringLogic soil haAgua hour lightValue) E w)
  = (if (soil >? SOIL_MOISTURE_THRESHOLD) && isNightHour hour && haAgua
        && (lightValue >? LdrAnalog.LDR_DARK_THRESHOLD)
     then PUMP_ON_TIME_MS else 0)
  /\ pump_on_ms false (events_of (LdrDigital.handleWateringLogic soil haAgua hour) E w)
    = (if (soil >? SOIL_MOISTURE_THRESHOLD) && isNightHour hour && haAgua
       then PUMP_ON_TIME_MS else 0).
Proof.
  unfold events_of. split.
  - apply LdrAnalog_handle_clock.
  - apply LdrDigital_handle_clock.
Qed.

(** *** The footprint of one invocation *)

Lemma LdrAnalog_handle_world E w soil haAgua hour lightValue :
  world (LdrAnalog.handleWateringLogic soil haAgua hour lightValue E w)
  = mkWorld (wifiConnected w) (timeValid w) HIGH LOW (S (n_status w)) (n_time w)
      (if wl_status_eqb (WiFi_status_at E (n_status w)) WL_CONNECTED
       then S (n_http w) else n_http w)
      (mkSensorCalls (n_analog (sensors w)) (n_digital (sensors w))
         (S (n_hum (sensors w))) (S (n_temp (sensors w)))).
Proof.
  destruct (LdrAnalog_handle_run E w soil haAgua hour lightValue) as (pre & _ & Hw & _).
  cbv zeta in Hw. rewrite Hw, sendToThingSpeak_world. reflexivity.
Qed.

Lemma LdrDigital_handle_world E w soil haAgua hour :
  world (LdrDigital.handleWateringLogic soil haAgua hour E w)
  = mkWorld (wifiConnected w) (timeValid w) HIGH LOW (S (n_status w)) (n_time w)
      (if wl_status_eqb (WiFi_status_at E (n_status w)) WL_CONNECTED
       then S (n_http w) else n_http w)
      (mkSensorCalls (n_analog (sensors w)) (S (n_digital (sensors w)))
         (S (n_hum (sensors w))) (S (n_temp (sensors w)))).
Proof.
  destruct (LdrDigital_handle_run E w soil haAgua hour) as (pre & _ & Hw & _).
  cbv zeta in Hw. rewrite Hw, sendToThingSpeak_world. reflexivity.
Qed.

(** X5.  What one call of [handleWateringLogic] changes: it leaves the
    flags [wifiConnected] and [timeValid] and the clock alone, leaves the
    relay HIGH and the LED LOW, asks [WiFi.status()] once, opens one HTTP
    request exactly when that answer is [WL_CONNECTED], and reads the DHT
    once more for each value (the earlier sketch also reads the light
    detector once more). *)
Theorem handleWateringLogic_footprint E w soil haAgua hour lightValue :
  let connected := wl_status_eqb (WiFi_status_at E (n_status w)) WL_CONNECTED in
  let wA := world_of (LdrAnalog.handleWateringLogic soil haAgua hour lightValue) E w in
  let wD := world_of (LdrDigital.handleWateringLogic soil haAgua hour) E w in
  (wifiConnected wA = wifiConnected w /\ timeValid wA = timeValid w
   /\ rele wA = HIGH /\ led wA = LOW
   /\ n_status wA = S (n_status w) /\ n_time wA = n_time w
   /\ n_http wA = (if connected then S (n_http w) else n_http w)
   /\ sensors wA = mkSensorCalls (n_analog (sensors w)) (n_digital (sensors w))
                      (S (n_hum (sensors w))) (S (n_temp (sensors w))))
  /\ (wifiConnected wD = wifiConnected w /\ timeValid wD = timeValid w
      /\ rele wD = HIGH /\ led wD = LOW
      /\ n_status wD = S (n_status w) /\ n_time wD = n_time w
      /\ n_http wD = (if connected then S (n_http w) else n_http w)
      /\ sensors wD = mkSensorCalls (n_analog (sensors w)) (S (n_digital (sensors w)))
                         (S (n_hum (sensors w))) (S (n_temp (sensors w)))).
Proof.
  cbv zeta. unfold world_of.
  rewrite LdrAnalog_handle_world, LdrDigital_handle_world. repeat split.
Qed.

Lemma LdrAnalog_loop_cycle_world E w :
  world (LdrAnalog.loop_cycle E w)
  = mkWorld (wifiConnected w) (fst (getLocalTime_at E (S (n_time w)))) HIGH LOW
      (S (n_status w)) (S (S (n_time w)))
      (if wl_status_eqb (WiFi_status_at E (n_status w)) WL_CONNECTED
       then S (n_http w) else n_http w)
      (mkSensorCalls (S (S (n_analog (sensors w)))) (S (n_digital (sensors w)))
         (S (S (n_hum (sensors w)))) (S (S (n_temp (sensors w))))).
Proof.
  unfold LdrAnalog.loop_cycle. rewrite !world_bind. cbn [delay emit world].
  match goal with |- world (updateLocalTime E ?w') = _ =>
    destruct (updateLocalTime_run E w') as (_ & Hu & _) end.
  cbv zeta in Hu. rewrite Hu. rewrite LdrAnalog_handle_world. reflexivity.
Qed.

Lemma LdrDigital_loop_cycle_world E w :
  world (LdrDigital.loop_cycle E w)
  = mkWorld (wifiConnected w) (fst (getLocalTime_at E (S (n_time w)))) HIGH LOW
      (S (n_status w)) (S (S (n_time w)))
      (if wl_status_eqb (WiFi_status_at E (n_status w)) WL_CONNECTED
       then S (n_http w) else n_http w)
      (mkSensorCalls (S (n_analog (sensors w))) (S (S (S (n_digital (sensors w)))))
         (S (S (n_hum (sensors w)))) (S (S (n_temp (sensors w))))).
Proof.
  unfold LdrDigital.loop_cycle. rewrite !world_bind. cbn [delay emit world].
  match goal with |- world (updateLocalTime E ?w') = _ =>
    destruct (updateLocalTime_run E w') as (_ & Hu & _) end.
  cbv zeta in Hu. rewrite Hu. rewrite LdrDigital_handle_world. reflexivity.
Qed.

(** *** Events away from the network *)

Lemma offline_only_app (a b : list Event) :
  offline_only (a ++ b) = offline_only a && offline_only b.
Proof. apply forallb_app. Qed.

Lemma local_only_offline (a : list Event) :
  local_only a = true -> offline_only a = true.
Proof.
  induction a as [|e a IH]; intros Ha; [reflexivity|].
  cbn in Ha. apply andb_true_iff in Ha as [He Ha].
  unfold offline_only in *. cbn [forallb]. rewrite (IH Ha).
  destruct e; try discriminate He; reflexivity.
Qed.

Lemma statuses_app (a b : list Event) :
  statuses (a ++ b) = (statuses a ++ statuses b)%list.
Proof.
  induction a as [|e a IH]; [reflexivity|].
  destruct e; cbn; rewrite IH; reflexivity.
Qed.

Lemma count_http_end_app (a b : list Event) :
  count_http_end (a ++ b) = (count_http_end a + count_http_end b)%nat.
Proof. unfold count_http_end. rewrite filter_app, length_app. reflexivity. Qed.

Lemma offline_silent (a : list Event) :
  offline_only a = true ->
  begun a = [] /\ configTimes a = [] /\ statuses a = []
  /\ requests a = [] /\ count_GET a = 0%nat /\ count_http_end a = 0%nat
  /\ sends a = [].
Proof.
  induction a as [|e a IH]; intros Ha; [repeat split|].
  cbn in Ha. apply andb_true_iff in Ha as [He Ha].
  destruct (IH Ha) as (H1 & H2 & H3 & H4 & H5 & H6 & H7).
  destruct e; try discriminate He; cbn; auto 10.
  destruct c; try discriminate He. repeat split; auto.
Qed.

Lemma net_only_no_http (a : list Event) :
  net_only a = true ->
  requests a = [] /\ count_GET a = 0%nat /\ count_http_end a = 0%nat
  /\ pump_energized a = false /\ led_writes a = [].
Proof.
  induction a as [|e a IH]; intros Ha; [repeat split|].
  cbn in Ha. apply andb_true_iff in Ha as [He Ha].
  destruct (IH Ha) as (H1 & H2 & H3 & H4 & H5).
  destruct e; try discriminate He; cbn; auto 10.
Qed.

Lemma updateLocalTime_offline E w : offline_only (events (updateLocalTime E w)) = true.
Proof.
  destruct (updateLocalTime_run E w) as (Hev & _). cbv zeta in Hev. rewrite Hev.
  destruct (fst (getLocalTime_at E (n_time w))); reflexivity.
Qed.

Lemma updateLocalTime_pump E w : pump_energized (events (updateLocalTime E w)) = false.
Proof.
  destruct (updateLocalTime_run E w) as (Hev & _). cbv zeta in Hev. rewrite Hev.
  destruct (fst (getLocalTime_at E (n_time w))); reflexivity.
Qed.

(** One cycle's body: events away from the network, the telemetry entry,
    events away from the network. *)
Lemma LdrAnalog_loop_cycle_parts E w :
  exists A B luz solo h t b a ws,
    events (LdrAnalog.loop_cycle E w)
    = (A ++ events (sendToThingSpeak luz solo h t b a E ws) ++ B)%list
    /\ offline_only A = true /\ offline_only B = true
    /\ n_status ws = n_status w.
Proof.
  unfold LdrAnalog.loop_cycle.
  rewrite !events_bind.
  cbn -[LdrAnalog.printSensorData LdrAnalog.handleWateringLogic updateLocalTime].
  match goal with |- context [events (LdrAnalog.handleWateringLogic ?a ?b ?c ?d E ?wh)] =>
    destruct (LdrAnalog_handle_run E wh a b c d) as (pre & Hev & _ & Hloc & _);
    cbv zeta in Hev; rewrite Hev; clear Hev
  end.
  match goal with |- context [events (LdrAnalog.printSensorData ?a ?b ?c ?d ?e E ?wp)] =>
    assert (HP : offline_only (events (LdrAnalog.printSensorData a b c d e E wp)) = true)
      by reflexivity;
    set (P := events (LdrAnalog.printSensorData a b c d e E wp)) in *;
    clearbody P
  end.
  match goal with |- context [events (updateLocalTime E ?wu)] =>
    assert (HU := updateLocalTime_offline E wu);
    set (U := events (updateLocalTime E wu)) in *; clearbody U
  end.
  apply local_only_offline in Hloc.
  eexists (_ :: _ :: _ :: _ :: _ :: (P ++ _ :: pre ++ [_; _])%list), (U ++ [_])%list.
  do 7 eexists.
  split; [|split; [|split]].
  - cbn [app]. rewrite <- !app_assoc. cbn [app]. rewrite <- !app_assoc. cbn [app].
    reflexivity.
  - unfold offline_only in *. cbn [forallb is_offline_event andb].
    rewrite forallb_app, HP. cbn [forallb is_offline_event andb].
    rewrite forallb_app, Hloc. reflexivity.
  - rewrite offline_only_app, HU. reflexivity.
  - reflexivity.
Qed.
Lemma LdrDigital_loop_cycle_parts E w :
  exists A B luz solo h t b a ws,
    events (LdrDigital.loop_cycle E w)
    = (A ++ events (sendToThingSpeak luz solo h t b a E ws) ++ B)%list
    /\ offline_only A = true /\ offline_only B = true
    /\ n_status ws = n_status w.
Proof.
  unfold LdrDigital.loop_cycle.
  rewrite !events_bind.
  cbn -[LdrDigital.printSensorData LdrDigital.handleWateringLogic updateLocalTime].
  match goal with |- context [events (LdrDigital.handleWateringLogic ?a ?b ?c E ?wh)] =>
    destruct (LdrDigital_handle_run E wh a b c) as (pre & Hev & _ & Hloc & _);
    cbv zeta in Hev; rewrite Hev; clear Hev
  end.
  match goal with |- context [events (LdrDigital.printSensorData ?a ?b ?c ?d ?e E ?wp)] =>
    assert (HP : offline_only (events (LdrDigital.printSensorData a b c d e E wp)) = true)
      by reflexivity;
    set (P := events (LdrDigital.printSensorData a b c d e E wp)) in *;
    clearbody P
  end.
  match goal with |- context [events (updateLocalTime E ?wu)] =>
    assert (HU := updateLocalTime_offline E wu);
    set (U := events (updateLocalTime E wu)) in *; clearbody U
  end.
  apply local_only_offline in Hloc.
  eexists (_ :: _ :: _ :: _ :: _ :: (P ++ _ :: pre ++ [_; _; _])%list), (U ++ [_])%list.
  do 7 eexists.
  split; [|split; [|split]].
  - cbn [app]. rewrite <- !app_assoc. cbn [app]. rewrite <- !app_assoc. cbn [app].
    reflexivity.
  - unfold offline_only in *. cbn [forallb is_offline_event andb].
    rewrite forallb_app, HP. cbn [forallb is_offline_event andb].
    rewrite forallb_app, Hloc. reflexivity.
  - rewrite offline_only_app, HU. reflexivity.
  - reflexivity.
Qed.

Lemma sendToThingSpeak_http luz solo umidAr temp bomba agua E w :
  let tr := events (sendToThingSpeak luz solo umidAr temp bomba agua E w) in
  let n := if wl_status_eqb (WiFi_status_at E (n_status w)) WL_CONNECTED then 1%nat else 0%nat in
  count_GET tr = n /\ List.length (requests tr) = n /\ count_http_end tr = n
  /\ sends tr = [Call_sendToThingSpeak luz solo umidAr temp bomba agua]
  /\ begun tr = [] /\ configTimes tr = []
  /\ statuses tr = [WiFi_status_at E (n_status w)].
Proof.
  cbv zeta. rewrite sendToThingSpeak_events. cbv zeta.
  destruct (wl_status_eqb _ _); repeat split.
Qed.

Lemma one_upload (C A B : list Event) luz solo h t b a E ws :
  net_only C = true -> offline_only A = true -> offline_only B = true ->
  let tr := (C ++ A ++ events (sendToThingSpeak luz solo h t b a E ws) ++ B)%list in
  let n := if wl_status_eqb (WiFi_status_at E (n_status ws)) WL_CONNECTED
           then 1%nat else 0%nat in
  List.length (sends tr) = 1%nat
  /\ count_GET tr = n
  /\ List.length (requests tr) = n
  /\ count_http_end tr = n.
Proof.
  intros HC HA HB. cbv zeta.
  destruct (net_only_no_http C HC) as (C1 & C2 & C3 & _).
  destruct (net_only_silent C HC) as (C4 & _).
  destruct (offline_silent A HA) as (_ & _ & _ & A1 & A2 & A3 & A4).
  destruct (offline_silent B HB) as (_ & _ & _ & B1 & B2 & B3 & B4).
  destruct (sendToThingSpeak_http luz solo h t b a E ws) as (S1 & S2 & S3 & S4 & _).
  cbv zeta in S1, S2, S3.
  rewrite !sends_app, !count_GET_app, !requests_app, !count_http_end_app.
  rewrite !length_app. unfold sends at 1. rewrite C4.
  rewrite A1, A2, A3, A4, B1, B2, B3, B4, C1, C2, C3, S1, S2, S3, S4.
  cbn [List.length filter app Nat.add].
  repeat split; rewrite ?Nat.add_0_r; reflexivity.
Qed.

Lemma LdrAnalog_loop_resync_offline E w :
  offline_only (events (LdrAnalog.loop_resync E w)) = true
  /\ n_status (world (LdrAnalog.loop_resync E w)) = n_status w
  /\ wifiConnected (world (LdrAnalog.loop_resync E w)) = wifiConnected w.
Proof.
  rewrite LdrAnalog_loop_resync_run.
  destruct (_ && _); cbn [events world]; [|repeat split].
  rewrite app_nil_r. destruct (updateLocalTime_run E w) as (_ & Hw & _).
  rewrite Hw. split; [apply updateLocalTime_offline | split; reflexivity].
Qed.

Lemma LdrDigital_loop_resync_offline E w :
  offline_only (events (LdrDigital.loop_resync E w)) = true
  /\ n_status (world (LdrDigital.loop_resync E w)) = n_status w
  /\ wifiConnected (world (LdrDigital.loop_resync E w)) = wifiConnected w.
Proof.
  rewrite LdrDigital_loop_resync_run.
  destruct (_ && _); cbn [events world]; [|repeat split].
  rewrite app_nil_r. destruct (updateLocalTime_run E w) as (_ & Hw & _).
  rewrite Hw. split; [apply updateLocalTime_offline | split; reflexivity].
Qed.

(** X6.  Each [loop] cycle enters [sendToThingSpeak] exactly once.  It
    issues one GET, with one request URL and one [http.end()], when the
    status asked by the telemetry (the first query after the connection
    check) is [WL_CONNECTED], and none otherwise. *)
Theorem one_upload_attempt_per_cycle E w :
  (let tr := events_of LdrAnalog.loop E w in
   let w1 := world_of LdrAnalog.loop_checkWiFi E w in
   let n := if wl_status_eqb (WiFi_status_at E (n_status w1)) WL_CONNECTED
            then 1%nat else 0%nat in
   List.length (sends tr) = 1%nat /\ count_GET tr = n
   /\ List.length (requests tr) = n /\ count_http_end tr = n)
  /\ (let tr := events_of LdrDigital.loop E w in
      let w1 := world_of LdrDigital.loop_checkWiFi E w in
      let n := if wl_status_eqb (WiFi_status_at E (n_status w1)) WL_CONNECTED
               then 1%nat else 0%nat in
      List.length (sends tr) = 1%nat /\ count_GET tr = n
      /\ List.length (requests tr) = n /\ count_http_end tr = n).
Proof.
  unfold events_of, world_of. cbv zeta. split.
  - unfold LdrAnalog.loop. rewrite !events_bind.
    destruct (LdrAnalog_checkWiFi_frame E w) as [Hnet _].
    set (w1 := world (LdrAnalog.loop_checkWiFi E w)).
    destruct (LdrAnalog_loop_resync_offline E w1) as (HR & Hn & _).
    destruct (LdrAnalog_loop_cycle_parts E (world (LdrAnalog.loop_resync E w1)))
      as (A & B & luz & solo & h & t & b & a & ws & Hev & HA & HB & Hws).
    rewrite Hev, (app_assoc _ A), <- Hn, <- Hws.
    apply one_upload; try assumption.
    rewrite offline_only_app, HR, HA. reflexivity.
  - unfold LdrDigital.loop. rewrite !events_bind.
    destruct (LdrDigital_checkWiFi_frame E w) as [Hnet _].
    set (w1 := world (LdrDigital.loop_checkWiFi E w)).
    destruct (LdrDigital_loop_resync_offline E w1) as (HR & Hn & _).
    destruct (LdrDigital_loop_cycle_parts E (world (LdrDigital.loop_resync E w1)))
      as (A & B & luz & solo & h & t & b & a & ws & Hev & HA & HB & Hws).
    rewrite Hev, (app_assoc _ A), <- Hn, <- Hws.
    apply one_upload; try assumption.
    rewrite offline_only_app, HR, HA. reflexivity.
Qed.

(** *** A station that is offline stays offline *)

Lemma begun_configTimes_parts (A B : list Event) luz solo h t b a E ws :
  offline_only A = true -> offline_only B = true ->
  begun (A ++ events (sendToThingSpeak luz solo h t b a E ws) ++ B) = []
  /\ configTimes (A ++ events (sendToThingSpeak luz solo h t b a E ws) ++ B) = [].
Proof.
  intros HA HB.
  destruct (offline_silent A HA) as (A1 & A2 & _).
  destruct (offline_silent B HB) as (B1 & B2 & _).
  destruct (sendToThingSpeak_http luz solo h t b a E ws) as (_ & _ & _ & _ & S1 & S2 & _).
  rewrite !begun_app, !configTimes_app, A1, A2, B1, B2, S1, S2. split; reflexivity.
Qed.

Lemma LdrAnalog_loop_offline E w :
  wifiConnected w = false ->
  begun (events (LdrAnalog.loop E w)) = []
  /\ configTimes (events (LdrAnalog.loop E w)) = []
  /\ wifiConnected (world (LdrAnalog.loop E w)) = false.
Proof.
  intros Hoff. unfold LdrAnalog.loop. rewrite !events_bind, !world_bind.
  assert (Hc : LdrAnalog.loop_checkWiFi E w
               = mkRes tt (queried w) [EvWiFiStatus (WiFi_status_at E (n_status w))]).
  { unfold LdrAnalog.loop_checkWiFi, bind.
    cbn [WiFi_status get_wifiConnected value world events].
    change (wifiConnected (queried w)) with (wifiConnected w).
    rewrite Hoff, andb_false_r. reflexivity. }
  rewrite Hc. cbn [events world app begun configTimes].
  destruct (LdrAnalog_loop_resync_offline E (queried w)) as (HR & _ & Hflag).
  destruct (LdrAnalog_loop_cycle_parts E (world (LdrAnalog.loop_resync E (queried w))))
    as (A & B & luz & solo & h & t & b & a & ws & Hev & HA & HB & _).
  rewrite Hev, LdrAnalog_loop_cycle_world, (app_assoc _ A).
  cbn [wifiConnected]. rewrite Hflag.
  destruct (begun_configTimes_parts (events (LdrAnalog.loop_resync E (queried w)) ++ A) B
              luz solo h t b a E ws) as [H1 H2];
    [rewrite offline_only_app, HR, HA; reflexivity | exact HB |].
  repeat split; assumption.
Qed.

Lemma LdrDigital_loop_offline E w :
  wifiConnected w = false ->
  begun (events (LdrDigital.loop E w)) = []
  /\ configTimes (events (LdrDigital.loop E w)) = []
  /\ wifiConnected (world (LdrDigital.loop E w)) = false.
Proof.
  intros Hoff. unfold LdrDigital.loop. rewrite !events_bind, !world_bind.
  assert (Hc : LdrDigital.loop_checkWiFi E w
               = mkRes tt (queried w) [EvWiFiStatus (WiFi_status_at E (n_status w))]).
  { unfold LdrDigital.loop_checkWiFi, bind.
    cbn [WiFi_status get_wifiConnected value world events].
    change (wifiConnected (queried w)) with (wifiConnected w).
    rewrite Hoff, andb_false_r. reflexivity. }
  rewrite Hc. cbn [events world app begun configTimes].
  destruct (LdrDigital_loop_resync_offline E (queried w)) as (HR & _ & Hflag).
  destruct (LdrDigital_loop_cycle_parts E (world (LdrDigital.loop_resync E (queried w))))
    as (A & B & luz & solo & h & t & b & a & ws & Hev & HA & HB & _).
  rewrite Hev, LdrDigital_loop_cycle_world, (app_assoc _ A).
  cbn [wifiConnected]. rewrite Hflag.
  destruct (begun_configTimes_parts (events (LdrDigital.loop_resync E (queried w)) ++ A) B
              luz solo h t b a E ws) as [H1 H2];
    [rewrite offline_only_app, HR, HA; reflexivity | exact HB |].
  repeat split; assumption.
Qed.

Lemma cycles_offline (loop : M unit) :
  (forall E w, wifiConnected w = false ->
     begun (events (loop E w)) = [] /\ configTimes (events (loop E w)) = []
     /\ wifiConnected (world (loop E w)) = false) ->
  forall n E w, wifiConnected w = false ->
    begun (events (cycles loop n E w)) = []
    /\ configTimes (events (cycles loop n E w)) = []
    /\ wifiConnected (world (cycles loop n E w)) = false.
Proof.
  intros Hloop n. induction n as [|n IH]; intros E w Hoff.
  - repeat split. exact Hoff.
  - cbn [cycles]. rewrite events_bind, world_bind.
    destruct (Hloop E w Hoff) as (H1 & H2 & H3).
    destruct (IH E (world (loop E w)) H3) as (I1 & I2 & I3).
    rewrite begun_app, configTimes_app, H1, H2, I1, I2. repeat split. exact I3.
Qed.

(** X7.  Once [wifiConnected] is false, no number of [loop] cycles calls
    [WiFi.begin] or [configTime] again, and the flag stays false: the check
    that opens a cycle reconnects only when the flag is set. *)
Theorem offline_station_is_never_reassociated n E w :
  wifiConnected w = false ->
  (begun (events_of (cycles LdrAnalog.loop n) E w) = []
   /\ configTimes (events_of (cycles LdrAnalog.loop n) E w) = []
   /\ wifiConnected (world_of (cycles LdrAnalog.loop n) E w) = false)
  /\ (begun (events_of (cycles LdrDigital.loop n) E w) = []
      /\ configTimes (events_of (cycles LdrDigital.loop n) E w) = []
      /\ wifiConnected (world_of (cycles LdrDigital.loop n) E w) = false).
Proof.
  intros Hoff. unfold events_of, world_of. split.
  - apply (cycles_offline LdrAnalog.loop); [apply LdrAnalog_loop_offline | exact Hoff].
  - apply (cycles_offline LdrDigital.loop); [apply LdrDigital_loop_offline | exact Hoff].
Qed.

(** *** The decision of a cycle *)

Lemma LdrAnalog_loop_cycle_pump E w :
  let n := sensors w in
  pump_energized (events (LdrAnalog.loop_cycle E w))
  = (analogRead_at E (S (n_analog n)) SOIL_PIN >? SOIL_MOISTURE_THRESHOLD)
    && isNightHour (tm_hour (snd (getLocalTime_at E (n_time w))))
    && (digitalRead_at E (n_digital n) BOIA_PIN =? LOW)
    && (analogRead_at E (n_analog n) LdrAnalog.LDR_PIN >? LdrAnalog.LDR_DARK_THRESHOLD).
Proof.
  cbv zeta. unfold LdrAnalog.loop_cycle.
  rewrite !events_bind, !pump_energized_app.
  rewrite LdrAnalog_handle_pump, updateLocalTime_pump.
  cbn -[LdrAnalog.handleWateringLogic updateLocalTime isNightHour Z.gtb Z.eqb].
  rewrite !orb_false_r. reflexivity.
Qed.

Lemma LdrDigital_loop_cycle_pump E w :
  let n := sensors w in
  pump_energized (events (LdrDigital.loop_cycle E w))
  = (analogRead_at E (n_analog n) SOIL_PIN >? SOIL_MOISTURE_THRESHOLD)
    && isNightHour (tm_hour (snd (getLocalTime_at E (n_time w))))
    && (digitalRead_at E (S (n_digital n)) BOIA_PIN =? LOW).
Proof.
  cbv zeta. unfold LdrDigital.loop_cycle.
  rewrite !events_bind, !pump_energized_app.
  rewrite LdrDigital_handle_pump, updateLocalTime_pump.
  cbn -[LdrDigital.handleWateringLogic updateLocalTime isNightHour Z.gtb Z.eqb].
  rewrite !orb_false_r. reflexivity.
Qed.

Lemma LdrAnalog_loop_resync_pump E w :
  pump_energized (events (LdrAnalog.loop_resync E w)) = false.
Proof.
  rewrite LdrAnalog_loop_resync_run. destruct (_ && _); [|reflexivity].
  cbn [events]. rewrite app_nil_r. apply updateLocalTime_pump.
Qed.

Lemma LdrDigital_loop_resync_pump E w :
  pump_energized (events (LdrDigital.loop_resync E w)) = false.
Proof.
  rewrite LdrDigital_loop_resync_run. destruct (_ && _); [|reflexivity].
  cbn [events]. rewrite app_nil_r. apply updateLocalTime_pump.
Qed.

(** X8.  Whether a [loop] cycle energizes the pump is a function of what
    the inputs answer in that cycle: the soil reading above the threshold,
    the hour that the cycle's own [getLocalTime] call leaves in the struct
    (whether or not that call succeeded) in the night window, the float
    switch LOW and, in the light-aware sketch, the light reading above the
    dark threshold.  The flags [wifiConnected] and [timeValid] play no
    part. *)
Theorem cycle_decision_depends_on_inputs_only E w :
  let n := sensors w in
  (let w2 := world_of LdrAnalog.loop_resync E (world_of LdrAnalog.loop_checkWiFi E w) in
   pump_energized (events_of LdrAnalog.loop E w)
   = (analogRead_at E (S (n_analog n)) SOIL_PIN >? SOIL_MOISTURE_THRESHOLD)
     && isNightHour (tm_hour (snd (getLocalTime_at E (n_time w2))))
     && (digitalRead_at E (n_digital n) BOIA_PIN =? LOW)
     && (analogRead_at E (n_analog n) LdrAnalog.LDR_PIN >? LdrAnalog.LDR_DARK_THRESHOLD))
  /\ (let w2 := world_of LdrDigital.loop_resync E (world_of LdrDigital.loop_checkWiFi E w) in
      pump_energized (events_of LdrDigital.loop E w)
      = (analogRead_at E (n_analog n) SOIL_PIN >? SOIL_MOISTURE_THRESHOLD)
        && isNightHour (tm_hour (snd (getLocalTime_at E (n_time w2))))
        && (digitalRead_at E (S (n_digital n)) BOIA_PIN =? LOW)).
Proof.
  cbv zeta. unfold events_of, world_of. split.
  - unfold LdrAnalog.loop. rewrite !events_bind, !pump_energized_app.
    destruct (LdrAnalog_checkWiFi_frame E w) as [Hnet _].
    destruct (net_only_no_http _ Hnet) as (_ & _ & _ & Hp & _).
    rewrite Hp, LdrAnalog_loop_resync_pump, LdrAnalog_loop_cycle_pump.
    cbv zeta. rewrite LdrAnalog_before_cycle_sensors. reflexivity.
  - unfold LdrDigital.loop. rewrite !events_bind, !pump_energized_app.
    destruct (LdrDigital_checkWiFi_frame E w) as [Hnet _].
    destruct (net_only_no_http _ Hnet) as (_ & _ & _ & Hp & _).
    rewrite Hp, LdrDigital_loop_resync_pump, LdrDigital_loop_cycle_pump.
    cbv zeta. rewrite LdrDigital_before_cycle_sensors. reflexivity.
Qed.

(** *** The pins between cycles *)

Lemma LdrAnalog_loop_pins E w :
  rele (world (LdrAnalog.loop E w)) = HIGH /\ led (world (LdrAnalog.loop E w)) = LOW.
Proof.
  unfold LdrAnalog.loop. rewrite !world_bind, LdrAnalog_loop_cycle_world. split; reflexivity.
Qed.

Lemma LdrDigital_loop_pins E w :
  rele (world (LdrDigital.loop E w)) = HIGH /\ led (world (LdrDigital.loop E w)) = LOW.
Proof.
  unfold LdrDigital.loop. rewrite !world_bind, LdrDigital_loop_cycle_world. split; reflexivity.
Qed.

Lemma cycles_pins (loop : M unit) :
  (forall E w, rele (world (loop E w)) = HIGH /\ led (world (loop E w)) = LOW) ->
  forall n E w,
    rele (world (cycles loop (S n) E w)) = HIGH
    /\ led (world (cycles loop (S n) E w)) = LOW.
Proof.
  intros Hloop n. induction n as [|n IH]; intros E w.
  - cbn [cycles]. rewrite world_bind. apply Hloop.
  - change (cycles loop (S (S n))) with (loop;; cycles loop (S n)).
    rewrite world_bind. apply IH.
Qed.

(** X9.  After [setup] and any number of [loop] cycles the relay is HIGH,
    and after one cycle or more the LED is LOW as well, whatever the state
    the cycles started from. *)
Theorem pins_idle_between_cycles n E w :
  (rele (world_of (LdrAnalog.setup;; cycles LdrAnalog.loop n) E w) = HIGH
   /\ rele (world_of (cycles LdrAnalog.loop (S n)) E w) = HIGH
   /\ led (world_of (cycles LdrAnalog.loop (S n)) E w) = LOW)
  /\ (rele (world_of (LdrDigital.setup;; cycles LdrDigital.loop n) E w) = HIGH
      /\ rele (world_of (cycles LdrDigital.loop (S n)) E w) = HIGH
      /\ led (world_of (cycles LdrDigital.loop (S n)) E w) = LOW).
Proof.
  unfold world_of. split; (split; [|]).
  - rewrite world_bind. destruct n as [|n].
    + apply LdrAnalog_setup_relay.
    + apply (cycles_pins LdrAnalog.loop LdrAnalog_loop_pins).
  - apply (cycles_pins LdrAnalog.loop LdrAnalog_loop_pins).
  - rewrite world_bind. destruct n as [|n].
    + apply LdrDigital_setup_relay.
    + apply (cycles_pins LdrDigital.loop LdrDigital_loop_pins).
  - apply (cycles_pins LdrDigital.loop LdrDigital_loop_pins).
Qed.

(** X10.  On the same inputs the light-aware [handleWateringLogic]
    energizes the pump exactly when the earlier one does and the light
    reading is above [LDR_DARK_THRESHOLD]: the light test only removes
    waterings. *)
Theorem light_gate_only_removes_waterings E w soil haAgua hour lightValue :
  pump_energized (events_of (LdrAnalog.handleWateringLogic soil haAgua hour lightValue) E w)
  = pump_energized (events_of (LdrDigital.handleWateringLogic soil haAgua hour) E w)
    && (lightValue >? LdrAnalog.LDR_DARK_THRESHOLD).
Proof.
  unfold events_of. rewrite LdrAnalog_handle_pump, LdrDigital_handle_pump. reflexivity.
Qed.

(** *** Polling, and what association costs *)

Lemma count_polls_cons_status s tr : count_polls (EvWiFiStatus s :: tr) = count_polls tr.
Proof. reflexivity. Qed.

(** X11.  The polling loop of [connectWiFi] with [n] attempts left polls
    [k <= n] times: it sees the station's next [k + 1] statuses in order, the
    first [k] of them not connected; it stops either because the attempts
    are used up or because the status is [WL_CONNECTED]; and it has waited
    [500 * k] milliseconds. *)
Theorem polling_waits_for_connection n E w :
  let r := connectWiFi_while n E w in
  let k := count_polls (events r) in
  (k <= n)%nat
  /\ statuses (events r) = map (WiFi_status_at E) (seq (n_status w) (S k))
  /\ forallb (fun s => negb (wl_status_eqb s WL_CONNECTED))
             (map (WiFi_status_at E) (seq (n_status w) k)) = true
  /\ (n <=? k)%nat || wl_status_eqb (WiFi_status_at E (n_status w + k)) WL_CONNECTED = true
  /\ total_delay (events r) = 500 * Z.of_nat k
  /\ n_status (world r) = (n_status w + S k)%nat.
Proof.
  cbv zeta. revert w. induction n as [|n IH]; intros w.
  - rewrite connectWiFi_while_O. cbn. rewrite Nat.add_1_r. repeat split. lia.
  - destruct (connectWiFi_while_S n E w) as [Hev Hw]. cbv zeta in Hev, Hw.
    rewrite Hev, Hw. destruct (wl_status_eqb _ _) eqn:Hs.
    + cbn. rewrite Nat.add_0_r, Nat.add_1_r, Hs. repeat split. lia.
    + destruct (IH (queried w)) as (H1 & H2 & H3 & H4 & H5 & H6).
      set (tr := events (connectWiFi_while n E (queried w))) in *.
      change (count_polls (EvWiFiStatus (WiFi_status_at E (n_status w))
                           :: EvDelay 500 :: EvSerialPrint "." :: tr))
        with (S (count_polls tr)).
      cbn [n_status queried] in H2, H3, H4, H6.
      cbn [statuses total_delay seq map forallb].
      rewrite H2, H3, H5, H6, Hs. cbn [negb andb].
      replace (n_status w + S (count_polls tr))%nat
        with (S (n_status w) + count_polls tr)%nat by lia.
      repeat split; try lia.
      * change (S n <=? S (count_polls tr))%nat with (n <=? count_polls tr)%nat.
        exact H4.
Qed.

Lemma status_queries_app (a b : list Event) :
  status_queries (a ++ b) = (status_queries a + status_queries b)%nat.
Proof. unfold status_queries. rewrite filter_app, length_app. reflexivity. Qed.

Lemma connectWiFi_while_cost n E w :
  let tr := events (connectWiFi_while n E w) in
  0 <= total_delay tr <= 500 * Z.of_nat n
  /\ (1 <= status_queries tr <= S n)%nat.
Proof.
  cbv zeta. revert w. induction n as [|n IH]; intros w.
  - rewrite connectWiFi_while_O. cbn. lia.
  - destruct (connectWiFi_while_S n E w) as [Hev _]. cbv zeta in Hev.
    rewrite Hev. destruct (wl_status_eqb _ _).
    + cbn. lia.
    + destruct (IH (queried w)) as (H1 & H2).
      set (tr := events (connectWiFi_while n E (queried w))) in *.
      change (status_queries (EvWiFiStatus (WiFi_status_at E (n_status w))
                              :: EvDelay 500 :: EvSerialPrint "." :: tr))
        with (S (status_queries tr)).
      cbn [total_delay]. lia.
Qed.

Lemma connectWiFi_for_cost rows E w :
  let tr := events (LdrAnalog.connectWiFi_for rows E w) in
  0 <= total_delay tr <= 7500 * Z.of_nat (List.length rows) + 2000
  /\ (status_queries tr <= 17 * List.length rows)%nat.
Proof.
  cbv zeta. revert w. induction rows as [|[ssid senha] rest IH]; intros w.
  - rewrite connectWiFi_for_nil. cbn. lia.
  - destruct (connectWiFi_for_cons ssid senha rest E w) as [Hev _].
    cbv zeta in Hev. rewrite Hev. clear Hev.
    change (Z.to_nat WIFI_MAX_ATTEMPTS) with 15%nat.
    destruct (connectWiFi_while_cost 15 E w) as (Wd & Wq). cbv zeta in Wd, Wq.
    set (W := events (connectWiFi_while 15 E w)) in *.
    set (w1 := world (connectWiFi_while 15 E w)) in *. clearbody W w1.
    cbn [total_delay]. 
    change (status_queries (?a :: ?b :: ?c :: ?t)%list) with (status_queries t).
    rewrite total_delay_app, status_queries_app.
    destruct (wl_status_eqb _ _).
    + cbn [total_delay List.length]. 
      change (status_queries (EvWiFiStatus ?s :: ?t)) with (S (status_queries t)).
      cbn. lia.
    + destruct (IH (queried w1)) as (Id & Iq).
      set (tr := events (LdrAnalog.connectWiFi_for rest E (queried w1))) in *.
      clearbody tr.
      change (status_queries (EvWiFiStatus ?s :: EvSerialPrintln ?m :: tr))
        with (S (status_queries tr)).
      cbn [total_delay List.length]. lia.
Qed.

Lemma LdrAnalog_connectWiFi_cost E w :
  0 <= total_delay (events (LdrAnalog.connectWiFi E w))
    <= 7500 * Z.of_nat (List.length WIFI_LIST) + 2000
  /\ (status_queries (events (LdrAnalog.connectWiFi E w))
      <= 17 * List.length WIFI_LIST)%nat.
Proof.
  unfold LdrAnalog.connectWiFi. rewrite !events_bind.
  cbn [Serial_println set_wifiConnected emit events world value app].
  apply (connectWiFi_for_cost WIFI_LIST E (flagged false w)).
Qed.

Lemma LdrDigital_connectWiFi_cost E w :
  0 <= total_delay (events (LdrDigital.connectWiFi E w)) <= 9500
  /\ (status_queries (events (LdrDigital.connectWiFi E w)) <= 17)%nat.
Proof.
  unfold LdrDigital.connectWiFi. rewrite !events_bind.
  cbn [Serial_print WiFi_begin WiFi_status emit events world value app].
  change (Z.to_nat WIFI_MAX_ATTEMPTS) with 15%nat.
  destruct (connectWiFi_while_cost 15 E w) as (Wd & Wq). cbv zeta in Wd, Wq.
  set (W := events (connectWiFi_while 15 E w)) in *.
  set (w1 := world (connectWiFi_while 15 E w)) in *. clearbody W w1.
  cbn [total_delay].
  change (status_queries (?a :: ?b :: ?t)%list) with (status_queries t).
  rewrite total_delay_app, status_queries_app.
  destruct (wl_status_eqb _ _); cbn; lia.
Qed.

(** X12.  [connectWiFi] returns within a bounded wait: at most 7500 ms for
    each saved network plus the 2000 ms that follow [configTime], with at
    most 17 status queries for each network; for the earlier sketch, with
    its one network, at most 9500 ms and 17 queries. *)
Theorem association_cost_is_bounded E w :
  (0 <= total_delay (events_of LdrAnalog.connectWiFi E w)
     <= 7500 * Z.of_nat (List.length WIFI_LIST) + 2000
   /\ (status_queries (events_of LdrAnalog.connectWiFi E w)
       <= 17 * List.length WIFI_LIST)%nat)
  /\ (0 <= total_delay (events_of LdrDigital.connectWiFi E w) <= 9500
      /\ (status_queries (events_of LdrDigital.connectWiFi E w) <= 17)%nat).
Proof.
  unfold events_of. split.
  - apply LdrAnalog_connectWiFi_cost.
  - apply LdrDigital_connectWiFi_cost.
Qed.

(** *** Association in the earlier sketch, and reconnection *)

Lemma tried_in_order_skip (e : Event) rows tr b :
  is_begin e = false -> configTimes [e] = [] ->
  tried_in_order rows tr b -> tried_in_order rows (e :: tr) b.
Proof.
  intros Hb Hc [Hpolls Hout]. unfold tried_in_order.
  destruct e; try discriminate Hb; try discriminate Hc;
    (split; [exact Hpolls|]);
    (destruct b;
     [ destruct Hout as (k & pre & Hm & H1 & H2 & H3 & H4);
       exists k; eexists; repeat split; try eassumption;
       rewrite H4; rewrite app_comm_cons; reflexivity
     | exact Hout ]).
Qed.

Lemma association_outcome_skip (e : Event) rows tr b :
  is_begin e = false -> configTimes [e] = [] ->
  association_outcome rows tr b -> association_outcome rows (e :: tr) b.
Proof.
  intros Hb Hc [Hord Hdisc]. split.
  - apply tried_in_order_skip; assumption.
  - unfold polling_discipline in *.
    destruct e; try discriminate Hb; exact Hdisc.
Qed.

Lemma LdrDigital_connectWiFi_order E w :
  tried_in_order [(WIFI_NAME, WIFI_SENHA)]
    (events (LdrDigital.connectWiFi E w))
    (wifiConnected (world (LdrDigital.connectWiFi E w))).
Proof.
  unfold LdrDigital.connectWiFi. rewrite !events_bind, !world_bind.
  cbn [Serial_print WiFi_begin WiFi_status emit events world value app].
  apply tried_in_order_skip; [reflexivity | reflexivity |].
  destruct (connectWiFi_while_trace (Z.to_nat WIFI_MAX_ATTEMPTS) E w)
    as (_ & Wfree & Wcfg & Wpolls & _).
  cbv zeta in Wfree, Wcfg, Wpolls.
  set (W := events (connectWiFi_while (Z.to_nat WIFI_MAX_ATTEMPTS) E w)) in *.
  set (w1 := world (connectWiFi_while (Z.to_nat WIFI_MAX_ATTEMPTS) E w)) in *.
  set (s := WiFi_status_at E (n_status w1)).
  assert (Hskip := fun b => begin_free_skip W b Wfree).
  unfold tried_in_order.
  change (Z.to_nat WIFI_MAX_ATTEMPTS) with 15%nat in *.
  clearbody W w1.
  destruct (wl_status_eqb s WL_CONNECTED) eqn:Hs;
    rewrite ?events_bind, ?world_bind;
    cbn [Serial_println set_wifiConnected configTime delay emit events world value app
         flagged wifiConnected];
    constant_waits;
    match goal with |- context [(W ++ ?b)%list] =>
      destruct (Hskip b) as (B1 & B2 & B3 & B4 & B5) end;
    (split; [cbn [polls_per_candidate]; rewrite B2, B4; cbn;
             constructor; [lia | constructor] |]).
  - exists 0%nat. eexists. split; [cbn; lia|].
    cbn [begun verdicts configTimes]. rewrite B1, B3, B5, configTimes_app, Wcfg.
    cbn. rewrite Hs. repeat split.
    rewrite !app_comm_cons.
    change (EvWiFiStatus s :: ?x :: ?t) with ([EvWiFiStatus s; x] ++ t)%list.
    rewrite app_assoc. reflexivity.
  - cbn [begun verdicts configTimes]. rewrite B1, B3, B5, configTimes_app, Wcfg.
    cbn. rewrite Hs. repeat split.
Qed.

Lemma LdrDigital_connectWiFi_polled E w :
  polling_discipline (events (LdrDigital.connectWiFi E w)) = true.
Proof.
  unfold polling_discipline, LdrDigital.connectWiFi. rewrite !events_bind, ?world_bind.
  cbn [Serial_print WiFi_begin WiFi_status emit events world value app].
  destruct (connectWiFi_while_trace (Z.to_nat WIFI_MAX_ATTEMPTS) E w)
    as (_ & Wfree & _).
  cbv zeta in Wfree.
  pose proof (connectWiFi_while_polled (Z.to_nat WIFI_MAX_ATTEMPTS) E w) as Hpolled.
  set (W := events (connectWiFi_while (Z.to_nat WIFI_MAX_ATTEMPTS) E w)) in *.
  set (w1 := world (connectWiFi_while (Z.to_nat WIFI_MAX_ATTEMPTS) E w)) in *.
  clearbody W w1.
  cbn [candidate_frames forallb].
  match goal with |- context [(W ++ ?b)%list] =>
    destruct (begin_free_frames W b Wfree) as [F1 F2] end.
  rewrite F1, F2.
  destruct (wl_status_eqb _ _);
    rewrite ?events_bind;
    cbn [Serial_println set_wifiConnected configTime delay emit events world value app];
    cbn [until_next_begin candidate_frames];
    rewrite Hpolled by reflexivity; reflexivity.
Qed.

Lemma LdrDigital_connectWiFi_outcome E w :
  association_outcome [(WIFI_NAME, WIFI_SENHA)]
    (events (LdrDigital.connectWiFi E w))
    (wifiConnected (world (LdrDigital.connectWiFi E w))).
Proof.
  split.
  - apply LdrDigital_connectWiFi_order.
  - apply LdrDigital_connectWiFi_polled.
Qed.

(** X13.  The check that opens a [loop] cycle asks [WiFi.status()] once.
    When the answer is not [WL_CONNECTED] while [wifiConnected] is set, it
    logs the disconnection, clears the flag and runs [connectWiFi], and the
    flag it leaves is the outcome of that association; in every other case
    it does nothing more. *)
Theorem lost_connection_restarts_association E w :
  let s := WiFi_status_at E (n_status w) in
  (if negb (wl_status_eqb s WL_CONNECTED) && wifiConnected w then
     events_of LdrAnalog.loop_checkWiFi E w
     = EvWiFiStatus s :: EvSerialPrintln "Wi-Fi desconectado! Tentando reconectar..."
       :: events_of LdrAnalog.connectWiFi E (flagged false (queried w))
     /\ association_outcome WIFI_LIST
          (events_of LdrAnalog.loop_checkWiFi E w)
          (wifiConnected (world_of LdrAnalog.loop_checkWiFi E w))
   else
     events_of LdrAnalog.loop_checkWiFi E w = [EvWiFiStatus s]
     /\ world_of LdrAnalog.loop_checkWiFi E w = queried w)
  /\ (if negb (wl_status_eqb s WL_CONNECTED) && wifiConnected w then
        events_of LdrDigital.loop_checkWiFi E w
        = EvWiFiStatus s :: EvSerialPrintln "Wi-Fi desconectado! Tentando reconectar..."
          :: events_of LdrDigital.connectWiFi E (flagged false (queried w))
        /\ association_outcome [(WIFI_NAME, WIFI_SENHA)]
             (events_of LdrDigital.loop_checkWiFi E w)
             (wifiConnected (world_of LdrDigital.loop_checkWiFi E w))
      else
        events_of LdrDigital.loop_checkWiFi E w = [EvWiFiStatus s]
        /\ world_of LdrDigital.loop_checkWiFi E w = queried w).
Proof.
  cbv zeta. unfold events_of, world_of. split.
  - unfold LdrAnalog.loop_checkWiFi. rewrite !events_bind, !world_bind.
    cbn [WiFi_status get_wifiConnected events world value app].
    change (wifiConnected (queried w)) with (wifiConnected w).
    destruct (negb _ && _); [|split; reflexivity].
    rewrite !events_bind, !world_bind.
    cbn [Serial_println set_wifiConnected emit events world value app].
    split; [reflexivity|].
    do 2 (apply association_outcome_skip; [reflexivity | reflexivity |]).
    unfold LdrAnalog.connectWiFi. rewrite !events_bind, !world_bind.
    cbn [Serial_println set_wifiConnected emit events world value app].
    apply association_outcome_skip; [reflexivity | reflexivity |].
    apply connectWiFi_for_association.
  - unfold LdrDigital.loop_checkWiFi. rewrite !events_bind, !world_bind.
    cbn [WiFi_status get_wifiConnected events world value app].
    change (wifiConnected (queried w)) with (wifiConnected w).
    destruct (negb _ && _); [|split; reflexivity].
    rewrite !events_bind, !world_bind.
    cbn [Serial_println set_wifiConnected emit events world value app].
    split; [reflexivity|].
    do 2 (apply association_outcome_skip; [reflexivity | reflexivity |]).
    apply LdrDigital_connectWiFi_outcome.
Qed.

(** X14.  [connectWiFi] of the earlier sketch begins the one network
    [WIFI_NAME], polls it at most [WIFI_MAX_ATTEMPTS] times and leaves
    [wifiConnected] set exactly when the status asked after the polling is
    [WL_CONNECTED], calling [configTime] in that case only; it touches
    nothing but the flag and the station, and reads no sensor. *)
Theorem single_network_association E w :
  let r := LdrDigital.connectWiFi E w in
  association_outcome [(WIFI_NAME, WIFI_SENHA)] (events r) (wifiConnected (world r))
  /\ assoc_frame w (world r)
  /\ net_only (events r) = true.
Proof.
  cbv zeta. destruct (LdrDigital_connectWiFi_frame E w) as [Hnet Hframe].
  split; [apply LdrDigital_connectWiFi_outcome | split; assumption].
Qed.

(** *** [setup] *)

Lemma net_only_updates (a : list Event) : net_only a = true -> count_updates a = 0%nat.
Proof.
  intros Ha. destruct (net_only_silent a Ha) as (Hc & _).
  unfold count_updates. rewrite Hc. reflexivity.
Qed.

Lemma setup_summary (C : list Event) (W w0 : World) (head : list Event) E :
  net_only C = true -> assoc_frame w0 W ->
  calls head = [] -> count_GET head = 0%nat ->
  no_sensor_read head = true -> pump_energized head = false ->
  let tail := if wifiConnected W then (events (updateLocalTime E W) ++ [])%list else [] in
  let tr := (head ++ C ++ tail)%list in
  pump_energized tr = false
  /\ no_sensor_read tr = true
  /\ count_GET tr = 0%nat
  /\ sends tr = []
  /\ count_updates tr = (if wifiConnected W then 1 else 0)%nat.
Proof.
  intros HC HW L1 L3 Hh2 Hh3. cbv zeta.
  destruct (net_only_no_http C HC) as (_ & C2 & _ & C4 & _).
  destruct (net_only_silent C HC) as (C5 & C6 & _).
  destruct (updateLocalTime_quiet E W) as (U1 & U2 & _ & _ & U5).
  destruct (offline_silent _ (updateLocalTime_offline E W)) as (_ & _ & _ & _ & U3 & _).
  rewrite !pump_energized_app, !no_sensor_read_app, !count_GET_app, !sends_app,
    !count_updates_app.
  rewrite Hh2, Hh3, C2, C4, C6, L3, (net_only_updates C HC).
  unfold sends at 1 2. unfold count_updates at 1. rewrite L1, C5.
  destruct (wifiConnected W).
  - rewrite app_nil_r, updateLocalTime_pump, U1, U2, U3, U5. repeat split.
  - repeat split.
Qed.

(** X15.  [setup] opens the serial port, makes the relay pin an output and
    drives it HIGH before anything else; it never energizes the pump, reads
    no sensor, sends no telemetry, never writes the LED, and enters
    [updateLocalTime] exactly when the association has left
    [wifiConnected] set. *)
Theorem setup_releases_relay_and_uploads_nothing E w :
  (let r := LdrAnalog.setup E w in
   firstn 3 (events r)
   = [EvSerialBegin 115200; EvPinMode RELE_PIN OUTPUT; EvDigitalWrite RELE_PIN HIGH]
   /\ pump_energized (events r) = false
   /\ no_sensor_read (events r) = true
   /\ count_GET (events r) = 0%nat
   /\ sends (events r) = []
   /\ count_updates (events r) = (if wifiConnected (world r) then 1 else 0)%nat
   /\ led (world r) = led w)
  /\ (let r := LdrDigital.setup E w in
      firstn 3 (events r)
      = [EvSerialBegin 115200; EvPinMode RELE_PIN OUTPUT; EvDigitalWrite RELE_PIN HIGH]
      /\ pump_energized (events r) = false
      /\ no_sensor_read (events r) = true
      /\ count_GET (events r) = 0%nat
      /\ sends (events r) = []
      /\ count_updates (events r) = (if wifiConnected (world r) then 1 else 0)%nat
      /\ led (world r) = led w).
Proof.
  cbv zeta. split.
  - unfold LdrAnalog.setup. rewrite !events_bind, !world_bind.
    cbn [Serial_begin pinMode digitalWrite dht_begin Serial_println emit
         get_wifiConnected events world value app].
    match goal with |- context [LdrAnalog.connectWiFi E ?w'] =>
      destruct (LdrAnalog_connectWiFi_frame E w') as [Hnet Hframe];
      set (W := world (LdrAnalog.connectWiFi E w')) in *;
      set (C := events (LdrAnalog.connectWiFi E w')) in *
    end.
    clearbody C.
    split; [reflexivity|].
    assert (Hled : led (world ((if wifiConnected W
                                then _ <- updateLocalTime;; ret tt else ret tt) E W))
                   = led w).
    { destruct (wifiConnected W); rewrite ?world_bind; cbn [ret world];
        [destruct (updateLocalTime_run E W) as (_ & Hu & _); rewrite Hu|];
        cbn [led]; rewrite Hframe; reflexivity. }
    assert (Hwc : wifiConnected (world ((if wifiConnected W
                                then _ <- updateLocalTime;; ret tt else ret tt) E W))
                   = wifiConnected W).
    { destruct (wifiConnected W) eqn:HWc; rewrite ?world_bind; cbn [ret world];
        [destruct (updateLocalTime_run E W) as (_ & Hu & _); rewrite Hu; cbn|];
        assumption. }
    rewrite Hled, Hwc.
    assert (Htail : events ((if wifiConnected W
                             then _ <- updateLocalTime;; ret tt else ret tt) E W)
                    = if wifiConnected W
                      then (events (updateLocalTime E W) ++ [])%list else []).
    { destruct (wifiConnected W); reflexivity. }
    rewrite Htail.
    match goal with |- context [(?e1 :: ?e2 :: ?e3 :: ?e4 :: ?e5 :: ?e6 :: ?e7 :: ?e8
                                  :: ?e9 :: C ++ ?t)%list] =>
      assert (H0 : calls [e1; e2; e3; e4; e5; e6; e7; e8; e9] = [])
        by reflexivity;
      assert (H1 : count_GET [e1; e2; e3; e4; e5; e6; e7; e8; e9] = 0%nat)
        by reflexivity;
      assert (H2 : no_sensor_read [e1; e2; e3; e4; e5; e6; e7; e8; e9] = true)
        by reflexivity;
      assert (H3 : pump_energized [e1; e2; e3; e4; e5; e6; e7; e8; e9] = false)
        by reflexivity;
      destruct (setup_summary C W _ _ E Hnet Hframe H0 H1 H2 H3)
        as (S1 & S2 & S3 & S4 & S5)
    end.
    cbv zeta in S1, S2, S3, S4, S5. cbn [app] in S1, S2, S3, S4, S5.
    repeat split; assumption.
  - unfold LdrDigital.setup. rewrite !events_bind, !world_bind.
    cbn [Serial_begin pinMode digitalWrite dht_begin Serial_println emit
         get_wifiConnected events world value app].
    match goal with |- context [LdrDigital.connectWiFi E ?w'] =>
      destruct (LdrDigital_connectWiFi_frame E w') as [Hnet Hframe];
      set (W := world (LdrDigital.connectWiFi E w')) in *;
      set (C := events (LdrDigital.connectWiFi E w')) in *
    end.
    clearbody C.
    split; [reflexivity|].
    assert (Hled : led (world ((if wifiConnected W
                                then _ <- updateLocalTime;; ret tt else ret tt) E W))
                   = led w).
    { destruct (wifiConnected W); rewrite ?world_bind; cbn [ret world];
        [destruct (updateLocalTime_run E W) as (_ & Hu & _); rewrite Hu|];
        cbn [led]; rewrite Hframe; reflexivity. }
    assert (Hwc : wifiConnected (world ((if wifiConnected W
                                then _ <- updateLocalTime;; ret tt else ret tt) E W))
                   = wifiConnected W).
    { destruct (wifiConnected W) eqn:HWc; rewrite ?world_bind; cbn [ret world];
        [destruct (updateLocalTime_run E W) as (_ & Hu & _); rewrite Hu; cbn|];
        assumption. }
    rewrite Hled, Hwc.
    assert (Htail : events ((if wifiConnected W
                             then _ <- updateLocalTime;; ret tt else ret tt) E W)
                    = if wifiConnected W
                      then (events (updateLocalTime E W) ++ [])%list else []).
    { destruct (wifiConnected W); reflexivity. }
    rewrite Htail.
    match goal with |- context [(?e1 :: ?e2 :: ?e3 :: ?e4 :: ?e5 :: ?e6 :: ?e7 :: ?e8
                                  :: ?e9 :: C ++ ?t)%list] =>
      assert (H0 : calls [e1; e2; e3; e4; e5; e6; e7; e8; e9] = [])
        by reflexivity;
      assert (H1 : count_GET [e1; e2; e3; e4; e5; e6; e7; e8; e9] = 0%nat)
        by reflexivity;
      assert (H2 : no_sensor_read [e1; e2; e3; e4; e5; e6; e7; e8; e9] = true)
        by reflexivity;
      assert (H3 : pump_energized [e1; e2; e3; e4; e5; e6; e7; e8; e9] = false)
        by reflexivity;
      destruct (setup_summary C W _ _ E Hnet Hframe H0 H1 H2 H3)
        as (S1 & S2 & S3 & S4 & S5)
    end.
    cbv zeta in S1, S2, S3, S4, S5. cbn [app] in S1, S2, S3, S4, S5.
    repeat split; assumption.
Qed.

(** *** How long a cycle blocks *)

Lemma updateLocalTime_delay E w : total_delay (events (updateLocalTime E w)) = 0.
Proof.
  destruct (updateLocalTime_run E w) as (Hev & _). cbv zeta in Hev. rewrite Hev.
  destruct (fst (getLocalTime_at E (n_time w))); reflexivity.
Qed.

Ltac delay_branch :=
  rewrite !events_bind, ?blinkLED_iter_events;
  rewrite ?total_delay_app, ?blink_pattern_delay, ?sendToThingSpeak_delay;
  constant_waits; cbn; unfold PUMP_ON_TIME_MS; lia.

Lemma LdrAnalog_handle_delay E w soil haAgua hour lightValue :
  0 <= total_delay
         (events (LdrAnalog.handleWateringLogic soil haAgua hour lightValue E w))
    <= 2 * 20 * LED_BLINK_SHORT.
Proof.
  open_handle. by_branch soil hour haAgua;
    destruct (lightValue >? LdrAnalog.LDR_DARK_THRESHOLD); cbn [andb negb];
    delay_branch.
Qed.

Lemma LdrDigital_handle_delay E w soil haAgua hour :
  0 <= total_delay (events (LdrDigital.handleWateringLogic soil haAgua hour E w))
    <= 2 * 20 * LED_BLINK_SHORT.
Proof.
  open_handle. by_branch soil hour haAgua; delay_branch.
Qed.

Lemma LdrAnalog_loop_cycle_delay E w :
  LOOP_DELAY_MS <= total_delay (events (LdrAnalog.loop_cycle E w))
    <= LOOP_DELAY_MS + 2 * 20 * LED_BLINK_SHORT.
Proof.
  unfold LdrAnalog.loop_cycle.
  rewrite !events_bind, !total_delay_app, updateLocalTime_delay.
  match goal with |- context [LdrAnalog.handleWateringLogic ?s ?a ?h ?l E ?w'] =>
    pose proof (LdrAnalog_handle_delay E w' s a h l) as Hh;
    set (D := total_delay (events (LdrAnalog.handleWateringLogic s a h l E w'))) in *
  end.
  clearbody D.
  cbn -[LdrAnalog.handleWateringLogic updateLocalTime Z.mul Z.add uint32_t] in *.
  constant_waits. lia.
Qed.

Lemma LdrDigital_loop_cycle_delay E w :
  LOOP_DELAY_MS <= total_delay (events (LdrDigital.loop_cycle E w))
    <= LOOP_DELAY_MS + 2 * 20 * LED_BLINK_SHORT.
Proof.
  unfold LdrDigital.loop_cycle.
  rewrite !events_bind, !total_delay_app, updateLocalTime_delay.
  match goal with |- context [LdrDigital.handleWateringLogic ?s ?a ?h E ?w'] =>
    pose proof (LdrDigital_handle_delay E w' s a h) as Hh;
    set (D := total_delay (events (LdrDigital.handleWateringLogic s a h E w'))) in *
  end.
  clearbody D.
  cbn -[LdrDigital.handleWateringLogic updateLocalTime Z.mul Z.add uint32_t] in *.
  constant_waits. lia.
Qed.

Lemma LdrAnalog_loop_resync_delay E w :
  total_delay (events (LdrAnalog.loop_resync E w)) = 0.
Proof.
  rewrite LdrAnalog_loop_resync_run. destruct (_ && _); [|reflexivity].
  cbn [events]. rewrite app_nil_r. apply updateLocalTime_delay.
Qed.

Lemma LdrDigital_loop_resync_delay E w :
  total_delay (events (LdrDigital.loop_resync E w)) = 0.
Proof.
  rewrite LdrDigital_loop_resync_run. destruct (_ && _); [|reflexivity].
  cbn [events]. rewrite app_nil_r. apply updateLocalTime_delay.
Qed.

Lemma LdrAnalog_loop_delay E w :
  let lost :=
    negb (wl_status_eqb (WiFi_status_at E (n_status w)) WL_CONNECTED) && wifiConnected w in
  LOOP_DELAY_MS <= total_delay (events (LdrAnalog.loop E w))
    <= LOOP_DELAY_MS + 2 * 20 * LED_BLINK_SHORT
       + (if lost then 7500 * Z.of_nat (List.length WIFI_LIST) + 2000 else 0).
Proof.
  cbv zeta. unfold LdrAnalog.loop. rewrite !events_bind, !total_delay_app.
  rewrite LdrAnalog_loop_resync_delay.
  match goal with |- context [LdrAnalog.loop_cycle E ?w'] =>
    pose proof (LdrAnalog_loop_cycle_delay E w') as Hc;
    set (D := total_delay (events (LdrAnalog.loop_cycle E w'))) in *
  end.
  clearbody D.
  unfold LdrAnalog.loop_checkWiFi. rewrite !events_bind, ?world_bind.
  cbn [WiFi_status get_wifiConnected events world value app].
  change (wifiConnected (queried w)) with (wifiConnected w).
  destruct (negb _ && _).
  - rewrite !events_bind.
    cbn [Serial_println set_wifiConnected emit events world value app total_delay].
    destruct (LdrAnalog_connectWiFi_cost E (flagged false (queried w))) as (Hd & _).
    lia.
  - cbn [ret events total_delay]. lia.
Qed.

Lemma LdrDigital_loop_delay E w :
  let lost :=
    negb (wl_status_eqb (WiFi_status_at E (n_status w)) WL_CONNECTED) && wifiConnected w in
  LOOP_DELAY_MS <= total_delay (events (LdrDigital.loop E w))
    <= LOOP_DELAY_MS + 2 * 20 * LED_BLINK_SHORT + (if lost then 9500 else 0).
Proof.
  cbv zeta. unfold LdrDigital.loop. rewrite !events_bind, !total_delay_app.
  rewrite LdrDigital_loop_resync_delay.
  match goal with |- context [LdrDigital.loop_cycle E ?w'] =>
    pose proof (LdrDigital_loop_cycle_delay E w') as Hc;
    set (D := total_delay (events (LdrDigital.loop_cycle E w'))) in *
  end.
  clearbody D.
  unfold LdrDigital.loop_checkWiFi. rewrite !events_bind, ?world_bind.
  cbn [WiFi_status get_wifiConnected events world value app].
  change (wifiConnected (queried w)) with (wifiConnected w).
  destruct (negb _ && _).
  - rewrite !events_bind.
    cbn [Serial_println set_wifiConnected emit events world value app total_delay].
    destruct (LdrDigital_connectWiFi_cost E (flagged false (queried w))) as (Hd & _).
    lia.
  - cbn [ret events total_delay]. lia.
Qed.

(** X16.  A [loop] cycle spends at least [LOOP_DELAY_MS] in [delay] and at
    most [LOOP_DELAY_MS] plus the longest indicator pattern (20 blinks of
    [LED_BLINK_SHORT]), plus the bound of [connectWiFi] when the connection
    was found lost at the start of the cycle. *)
Theorem cycle_blocking_time_is_bounded E w :
  let lost :=
    negb (wl_status_eqb (WiFi_status_at E (n_status w)) WL_CONNECTED) && wifiConnected w in
  (LOOP_DELAY_MS <= total_delay (events_of LdrAnalog.loop E w)
     <= LOOP_DELAY_MS + 2 * 20 * LED_BLINK_SHORT
        + (if lost then 7500 * Z.of_nat (List.length WIFI_LIST) + 2000 else 0))
  /\ (LOOP_DELAY_MS <= total_delay (events_of LdrDigital.loop E w)
        <= LOOP_DELAY_MS + 2 * 20 * LED_BLINK_SHORT + (if lost then 9500 else 0)).
Proof.
  cbv zeta. unfold events_of. split.
  - apply LdrAnalog_loop_delay.
  - apply LdrDigital_loop_delay.
Qed.

(** *** The pump over consecutive cycles *)

Lemma pump_on_ms_app (a b : list Event) low :
  pump_on_ms low (a ++ b) = pump_on_ms low a + pump_on_ms (relay_low_after low a) b.
Proof.
  revert low. induction a as [|e a IH]; intros low; [reflexivity|].
  destruct e; cbn [app pump_on_ms relay_low_after]; rewrite ?IH; lia.
Qed.

Lemma relay_low_after_app (a b : list Event) low :
  relay_low_after low (a ++ b) = relay_low_after (relay_low_after low a) b.
Proof.
  revert low. induction a as [|e a IH]; intros low; [reflexivity|].
  destruct e; cbn [app relay_low_after]; rewrite ?IH; reflexivity.
Qed.

Lemma relay_low_after_quiet (a : list Event) :
  pump_energized a = false -> relay_low_after false a = false.
Proof.
  induction a as [|e a IH]; intros Ha; [reflexivity|].
  cbn in Ha. apply orb_false_iff in Ha as [He Ha].
  destruct e; cbn [relay_low_after]; auto.
  cbn in He. destruct (pin =? RELE_PIN); cbn in He |- *; [rewrite He|]; auto.
Qed.

Lemma LdrAnalog_handle_relay_after E w soil haAgua hour lightValue :
  relay_low_after false
    (events (LdrAnalog.handleWateringLogic soil haAgua hour lightValue E w)) = false.
Proof.
  destruct ((soil >? SOIL_MOISTURE_THRESHOLD) && isNightHour hour && haAgua
            && (lightValue >? LdrAnalog.LDR_DARK_THRESHOLD)) eqn:Htaken.
  - rewrite !andb_true_iff in Htaken. destruct Htaken as [[[Hd Hn] Ha] Hl].
    subst haAgua. open_handle. rewrite Hd, Hn, Hl. cbn [andb negb].
    rewrite !events_bind. cbn -[sendToThingSpeak].
    apply relay_low_after_quiet, sendToThingSpeak_pump.
  - apply relay_low_after_quiet. rewrite LdrAnalog_handle_pump. exact Htaken.
Qed.

Lemma LdrDigital_handle_relay_after E w soil haAgua hour :
  relay_low_after false
    (events (LdrDigital.handleWateringLogic soil haAgua hour E w)) = false.
Proof.
  destruct ((soil >? SOIL_MOISTURE_THRESHOLD) && isNightHour hour && haAgua) eqn:Htaken.
  - rewrite !andb_true_iff in Htaken. destruct Htaken as [[Hd Hn] Ha].
    subst haAgua. open_handle. rewrite Hd, Hn. cbn [andb negb].
    rewrite !events_bind. cbn -[sendToThingSpeak].
    apply relay_low_after_quiet, sendToThingSpeak_pump.
  - apply relay_low_after_quiet. rewrite LdrDigital_handle_pump. exact Htaken.
Qed.

(** The pump clock and the final relay level of one cycle's body. *)
Lemma LdrAnalog_loop_cycle_clock E w :
  0 <= pump_on_ms false (events (LdrAnalog.loop_cycle E w)) <= PUMP_ON_TIME_MS
  /\ relay_low_after false (events (LdrAnalog.loop_cycle E w)) = false.
Proof.
  unfold LdrAnalog.loop_cycle. rewrite !events_bind.
  cbn -[LdrAnalog.printSensorData LdrAnalog.handleWateringLogic updateLocalTime
        pump_on_ms relay_low_after].
  match goal with |- context [LdrAnalog.handleWateringLogic ?s ?a ?h ?l E ?w'] =>
    pose proof (LdrAnalog_handle_clock E w' s a h l) as Hk;
    pose proof (LdrAnalog_handle_relay_after E w' s a h l) as Hr;
    set (H := events (LdrAnalog.handleWateringLogic s a h l E w')) in *;
    set (wh := world (LdrAnalog.handleWateringLogic s a h l E w')) in *
  end.
  clearbody H wh.
  pose proof (updateLocalTime_pump E wh) as Hu.
  set (U := events (updateLocalTime E wh)) in *. clearbody U.
  match goal with |- context [events (LdrAnalog.printSensorData ?a ?b ?c ?d ?e E ?wp)] =>
    assert (HP : pump_energized (events (LdrAnalog.printSensorData a b c d e E wp)) = false)
      by reflexivity;
    set (P := events (LdrAnalog.printSensorData a b c d e E wp)) in *;
    clearbody P
  end.
  cbn [pump_on_ms relay_low_after].
  rewrite !relay_low_after_app, (relay_low_after_quiet P HP).
  rewrite (pump_on_ms_skip P) by exact HP.
  cbn [pump_on_ms relay_low_after].
  rewrite relay_low_after_app, pump_on_ms_app, Hr, Hk.
  rewrite relay_low_after_app, (relay_low_after_quiet U Hu).
  rewrite (pump_on_ms_skip U) by exact Hu.
  cbn [pump_on_ms relay_low_after].
  split; [|reflexivity].
  destruct (_ && _); unfold PUMP_ON_TIME_MS; lia.
Qed.

Lemma LdrDigital_loop_cycle_clock E w :
  0 <= pump_on_ms false (events (LdrDigital.loop_cycle E w)) <= PUMP_ON_TIME_MS
  /\ relay_low_after false (events (LdrDigital.loop_cycle E w)) = false.
Proof.
  unfold LdrDigital.loop_cycle. rewrite !events_bind.
  cbn -[LdrDigital.printSensorData LdrDigital.handleWateringLogic updateLocalTime
        pump_on_ms relay_low_after].
  match goal with |- context [LdrDigital.handleWateringLogic ?s ?a ?h E ?w'] =>
    pose proof (LdrDigital_handle_clock E w' s a h) as Hk;
    pose proof (LdrDigital_handle_relay_after E w' s a h) as Hr;
    set (H := events (LdrDigital.handleWateringLogic s a h E w')) in *;
    set (wh := world (LdrDigital.handleWateringLogic s a h E w')) in *
  end.
  clearbody H wh.
  pose proof (updateLocalTime_pump E wh) as Hu.
  set (U := events (updateLocalTime E wh)) in *. clearbody U.
  match goal with |- context [events (LdrDigital.printSensorData ?a ?b ?c ?d ?e E ?wp)] =>
    assert (HP : pump_energized (events (LdrDigital.printSensorData a b c d e E wp)) = false)
      by reflexivity;
    set (P := events (LdrDigital.printSensorData a b c d e E wp)) in *;
    clearbody P
  end.
  cbn [pump_on_ms relay_low_after].
  rewrite !relay_low_after_app, (relay_low_after_quiet P HP).
  rewrite (pump_on_ms_skip P) by exact HP.
  cbn [pump_on_ms relay_low_after].
  rewrite relay_low_after_app, pump_on_ms_app, Hr, Hk.
  rewrite relay_low_after_app, (relay_low_after_quiet U Hu).
  rewrite (pump_on_ms_skip U) by exact Hu.
  cbn [pump_on_ms relay_low_after].
  split; [|reflexivity].
  destruct (_ && _); unfold PUMP_ON_TIME_MS; lia.
Qed.

Lemma loop_clock (C R B : list Event) :
  net_only C = true -> pump_energized R = false ->
  0 <= pump_on_ms false B <= PUMP_ON_TIME_MS /\ relay_low_after false B = false ->
  0 <= pump_on_ms false (C ++ R ++ B) <= PUMP_ON_TIME_MS
  /\ relay_low_after false (C ++ R ++ B) = false.
Proof.
  intros HC HR [Hb1 Hb2].
  destruct (net_only_no_http C HC) as (_ & _ & _ & Hp & _).
  rewrite !relay_low_after_app, (relay_low_after_quiet C Hp), (relay_low_after_quiet R HR).
  rewrite (pump_on_ms_skip C) by exact Hp.
  rewrite (pump_on_ms_skip R) by exact HR.
  split; assumption.
Qed.

Lemma LdrAnalog_loop_clock E w :
  0 <= pump_on_ms false (events (LdrAnalog.loop E w)) <= PUMP_ON_TIME_MS
  /\ relay_low_after false (events (LdrAnalog.loop E w)) = false.
Proof.
  unfold LdrAnalog.loop. rewrite !events_bind.
  apply loop_clock.
  - apply LdrAnalog_checkWiFi_frame.
  - apply LdrAnalog_loop_resync_pump.
  - apply LdrAnalog_loop_cycle_clock.
Qed.

Lemma LdrDigital_loop_clock E w :
  0 <= pump_on_ms false (events (LdrDigital.loop E w)) <= PUMP_ON_TIME_MS
  /\ relay_low_after false (events (LdrDigital.loop E w)) = false.
Proof.
  unfold LdrDigital.loop. rewrite !events_bind.
  apply loop_clock.
  - apply LdrDigital_checkWiFi_frame.
  - apply LdrDigital_loop_resync_pump.
  - apply LdrDigital_loop_cycle_clock.
Qed.

Lemma cycles_clock (loop : M unit) :
  (forall E w,
     (0 <= pump_on_ms false (events (loop E w)) <= PUMP_ON_TIME_MS
      /\ relay_low_after false (events (loop E w)) = false)
     /\ LOOP_DELAY_MS <= total_delay (events (loop E w))) ->
  forall n E w,
    0 <= pump_on_ms false (events (cycles loop n E w)) <= Z.of_nat n * PUMP_ON_TIME_MS
    /\ relay_low_after false (events (cycles loop n E w)) = false
    /\ Z.of_nat n * LOOP_DELAY_MS <= total_delay (events (cycles loop n E w)).
Proof.
  intros Hloop n. induction n as [|n IH]; intros E w.
  - cbn. lia.
  - cbn [cycles]. rewrite events_bind.
    destruct (Hloop E w) as ((H1 & H2) & H3).
    destruct (IH E (world (loop E w))) as (I1 & I2 & I3).
    rewrite pump_on_ms_app, relay_low_after_app, total_delay_app, H2, I2.
    rewrite Nat2Z.inj_succ. repeat split; lia.
Qed.

(** X17.  Over [n] consecutive [loop] cycles that start with the relay
    released, the pump is on for at most [n * PUMP_ON_TIME_MS] milliseconds
    out of at least [n * LOOP_DELAY_MS] spent waiting, and the relay is
    released when the cycles end. *)
Theorem pump_duty_over_cycles n E w :
  (let tr := events_of (cycles LdrAnalog.loop n) E w in
   0 <= pump_on_ms false tr <= Z.of_nat n * PUMP_ON_TIME_MS
   /\ relay_low_after false tr = false
   /\ Z.of_nat n * LOOP_DELAY_MS <= total_delay tr)
  /\ (let tr := events_of (cycles LdrDigital.loop n) E w in
      0 <= pump_on_ms false tr <= Z.of_nat n * PUMP_ON_TIME_MS
      /\ relay_low_after false tr = false
      /\ Z.of_nat n * LOOP_DELAY_MS <= total_delay tr).
Proof.
  cbv zeta. unfold events_of. split.
  - apply (cycles_clock LdrAnalog.loop). intros E' w'. split.
    + apply LdrAnalog_loop_clock.
    + apply LdrAnalog_loop_delay.
  - apply (cycles_clock LdrDigital.loop). intros E' w'. split.
    + apply LdrDigital_loop_clock.
    + apply LdrDigital_loop_delay.
Qed.

End Further.

(** * Worked inputs *)

Section Worked.
Import Fixture.
#[local] Existing Instance whole_floats.
#[local] Existing Instance chaves.

Lemma wet_soil_never_energizes_pump_witness :
  800 <= SOIL_MOISTURE_THRESHOLD
  /\ pump_energized
       (events_of (LdrAnalog.handleWateringLogic 800 true 20 2000) night_online boot) = false
  /\ pump_energized
       (events_of (LdrDigital.handleWateringLogic 800 true 20) night_online boot) = false.
Proof.
  split; [unfold SOIL_MOISTURE_THRESHOLD; lia|].
  apply (wet_soil_never_energizes_pump night_online boot 800 true 20 2000).
  unfold SOIL_MOISTURE_THRESHOLD; lia.
Defined.

Lemma telemetry_request_layout_witness :
  WiFi_status_at night_online (n_status boot) = WL_CONNECTED
  /\ requests (events_of (sendToThingSpeak 2000 1500 50 25 1 1) night_online boot)
     = ["http://api.thingspeak.com/update?api_key=WRITEKEY0123&field1=2000&field2=1500&field3=50.00&field4=25.00&field5=1&field6=1"]
  /\ count_GET (events_of (sendToThingSpeak 2000 1500 50 25 1 1) night_online boot) = 1%nat.
Proof.
  split; [reflexivity|].
  exact (proj1 (telemetry_request_layout night_online boot 2000 1500 50 25 1 1
                  1500 true 20 2000 eq_refl)).
Defined.

(** C5 as stated, refuted.  (1) After a [setup] during which nobody
    answered, [wifiConnected] is false; the station joins afterwards; the
    next cycle leaves the flag false and still issues the GET.  (2) With
    the flag true, a station that is not connected when the telemetry asks
    gets no request. *)
Lemma upload_ignores_flag_counterexample :
  (let w0 := world_of LdrDigital.setup late_join boot in
   wifiConnected w0 = false
   /\ count_GET (events_of (sendToThingSpeak 1 1500 50 25 0 1) late_join w0) = 1%nat
   /\ count_GET (events_of LdrDigital.loop late_join w0) = 1%nat
   /\ wifiConnected (world_of LdrDigital.loop late_join w0) = false)
  /\ (let w0 := world_of LdrDigital.setup dropout boot in
      wifiConnected w0 = true
      /\ count_GET (events_of LdrDigital.loop dropout w0) = 0%nat
      /\ requests (events_of LdrDigital.loop dropout w0) = []
      /\ wifiConnected (world_of LdrDigital.loop dropout w0) = true).
Proof. vm_compute. repeat split. Qed.

(** C9 as stated, refuted.  One cycle of the light-aware sketch: the loop
    reads 50 % and 25 °C into its locals; the telemetry is called with 51
    and 26, the readings made at the call. *)
Lemma telemetry_snapshot_counterexample :
  let tr := events_of LdrAnalog.loop night_online (world_of LdrAnalog.setup night_online boot) in
  humidity_reads tr = [50; 51]
  /\ temperature_reads tr = [25; 26]
  /\ sends tr = [Call_sendToThingSpeak 2000 1500 51 26 1 1]
  /\ requests tr
     = ["http://api.thingspeak.com/update?api_key=WRITEKEY0123&field1=2000&field2=1500&field3=51.00&field4=26.00&field5=1&field6=1"].
Proof. vm_compute. repeat split. Qed.

Example String_of_int_values :
  String_of_int 1500 = "1500" /\ String_of_int 0 = "0" /\ String_of_int (-7) = "-7".
Proof. repeat split. Qed.

(** The first saved network never answers, the second at its fourth
    status query. *)
Example association_second_network :
  let r := LdrAnalog.connectWiFi second_network boot in
  begun (events r) = WIFI_LIST
  /\ verdicts (events r) = [false; true]
  /\ polls_per_candidate (events r) = [15; 3]%nat
  /\ configTimes (events r) = [(-10800, 0, "pool.ntp.org")]
  /\ wifiConnected (world r) = true
  /\ n_status (world r) = 22%nat.
Proof. vm_compute. repeat split. Qed.

(** Nobody answers: both saved networks are tried, 15 polls each. *)
Example association_offline :
  let r := LdrAnalog.connectWiFi (env (always WL_DISCONNECTED) 1500 2000 LOW 20) boot in
  begun (events r) = WIFI_LIST
  /\ verdicts (events r) = [false; false]
  /\ polls_per_candidate (events r) = [15; 15]%nat
  /\ configTimes (events r) = []
  /\ wifiConnected (world r) = false.
Proof. vm_compute. repeat split. Qed.

(** Traces that begin a network and do not poll it as [connectWiFi] does
    are told apart: a network given up while disconnected without a single
    wait, and one still polled after the station answered connected. *)
Example polling_discipline_tells_apart :
  let gave_up :=
    [EvWiFiBegin "rede" "senha"; EvWiFiStatus WL_DISCONNECTED;
     EvWiFiStatus WL_DISCONNECTED; EvSerialPrintln "offline"] in
  let polled_on :=
    [EvWiFiBegin "rede" "senha";
     EvWiFiStatus WL_CONNECTED; EvDelay 500; EvSerialPrint ".";
     EvWiFiStatus WL_CONNECTED; EvWiFiStatus WL_CONNECTED] in
  polling_discipline gave_up = false
  /\ polling_discipline polled_on = false
  /\ polling_discipline (events_of LdrAnalog.connectWiFi second_network boot) = true
  /\ map (fun fr => List.length (filter is_status_or_poll fr))
       (candidate_frames (events_of LdrAnalog.connectWiFi second_network boot))
     = [32; 8]%nat.
Proof. vm_compute. repeat split. Qed.

(** Dry soil, 20 h, no water: the short alarm, pump off, fields 0 and 0. *)
Example scenario_refill :
  let tr := events_of (LdrAnalog.handleWateringLogic 1500 false 20 2000) night_online boot in
  pump_energized tr = false
  /\ (exists rest, tr = EvSerialPrintln "Encher reservatório!"
                         :: (blink_pattern 20 LED_BLINK_SHORT ++ rest)%list)
  /\ map bomba_of (calls tr) = [Some 0]
  /\ map agua_of (calls tr) = [Some 0].
Proof. vm_compute. repeat split. eexists. reflexivity. Qed.

(** Dry soil, 20 h, water, dark: the pump runs for the hold, fields 1 and 1. *)
Example scenario_watering :
  let tr := events_of (LdrAnalog.handleWateringLogic 1500 true 20 2000) night_online boot in
  firstn 6 tr = [EvSerialPrintln "Horário certo, baixa luminosidade — ligando a bomba!";
                 EvDigitalWrite LED_PIN HIGH; EvDigitalWrite RELE_PIN LOW;
                 EvDelay PUMP_ON_TIME_MS;
                 EvDigitalWrite RELE_PIN HIGH; EvDigitalWrite LED_PIN LOW]
  /\ map bomba_of (calls tr) = [Some 1]
  /\ map agua_of (calls tr) = [Some 1].
Proof. vm_compute. repeat split. Qed.

(** One cycle with the flags (connected, time not valid): [updateLocalTime]
    is entered before the reads and again at the end. *)
Example cycle_with_resync :
  let w := mkWorld true false HIGH LOW 0 0 0 (mkSensorCalls 0 0 0 0) in
  calls (events_of LdrAnalog.loop night_online w)
  = [Call_updateLocalTime; Call_sendToThingSpeak 2000 1500 51 26 1 1; Call_updateLocalTime]
  /\ timeValid (world_of LdrAnalog.loop night_online w) = true.
Proof. vm_compute. repeat split. Qed.

(** The earlier sketch from [boot], where the flag is clear: three cycles
    on, nothing has been begun. *)
Lemma offline_station_is_never_reassociated_witness :
  wifiConnected boot = false
  /\ ((begun (events_of (cycles LdrAnalog.loop 3) late_join boot) = []
       /\ configTimes (events_of (cycles LdrAnalog.loop 3) late_join boot) = []
       /\ wifiConnected (world_of (cycles LdrAnalog.loop 3) late_join boot) = false)
      /\ (begun (events_of (cycles LdrDigital.loop 3) late_join boot) = []
          /\ configTimes (events_of (cycles LdrDigital.loop 3) late_join boot) = []
          /\ wifiConnected (world_of (cycles LdrDigital.loop 3) late_join boot) = false)).
Proof.
  split; [reflexivity|].
  apply (offline_station_is_never_reassociated 3 late_join boot). reflexivity.
Defined.

End Worked.
